(** * TaskMaster: connection registry, notification dispatcher and
      authorization rules

    A shallow embedding of the service layer of TaskMaster
    ([app/services/*.py], [app/crud/*.py], [app/api/v1/*.py]).

    - Python objects that live for the whole process (the
      [ConnectionManager] singleton, the database behind the
      [AsyncSession]) are fields of one [World]; every service function is
      a state-passing computation [M A] that either returns or raises.
    - A table with a primary key is a finite map from the key to the other
      columns of the row ([row.id] of a row fetched by [id] is that [id]);
      the two append-only tables whose key is a fresh [uuid4]
      (notifications, activity logs) are lists of rows.
    - Two kinds of I/O can fail, the two the source itself guards with
      [try]: [send_text] on a channel (it raises for the channels in
      [broken]) and [db.flush()] (it raises when the next entry of
      [db_faults] says so).
    - A flush also raises, in every run, for the rows the database or the
      driver refuse: a null in a NOT NULL column, a reference to a user or
      a team that does not exist, an activity entry whose [meta] holds a
      value [json.dumps] cannot serialize. And [await] of a value that is
      no awaitable raises [TypeError].
    - The library functions the services call ([json.dumps], [str(uuid)],
      [repr], [isoformat], [jose.jwt.decode], SQL [ILIKE]) are taken as a
      parameter, the record [PyRuntime]; every statement holds for all of
      them, and the examples run with a small concrete one. *)

From Stdlib Require Import ZArith NArith.
From stdpp Require Import gmap strings list fin_maps sorting pretty.

Open Scope string_scope.
Open Scope list_scope.

(* ===================================================================== *)
(** ** Values *)
(* ===================================================================== *)

(** [uuid.UUID]: a 128-bit number. *)
Definition UUID := N.

(** A [fastapi.WebSocket] object, identified by the object itself. *)
Definition WebSocket := nat.

(** The JSON documents the services build ([dict[str, Any]] literals of
    strings, [None] and booleans). *)
#[warnings="-register-all"]
Inductive Json : Type :=
  | JNull
  | JBool (b : bool)
  | JStr (s : string)
  | JObj (fields : list (string * Json)).

(** Values stored in [ActivityLog.meta]. *)
Inductive MetaValue : Type :=
  | MNone
  | MStr (s : string)
  | MUuid (u : UUID)
  | MDatetime (t : Z)
  | MTags (l : list string).

(** [jose.jwt.decode] output, the two claims the application reads. *)
Record Claims := {
  claim_type : option string;    (* payload.get("type") *)
  claim_sub : option string      (* payload.get("sub")  *)
}.

Record PyRuntime := {
  json_dumps : Json -> string;             (* json.dumps(data) *)
  json_dumps_compact : Json -> string;
    (* json.dumps(data, separators=(",", ":"), ensure_ascii=False), the
       text [websocket.send_json] sends *)
  uuid_str : UUID -> string;               (* str(u) *)
  py_repr : string -> string;              (* f"{s!r}" *)
  isoformat : Z -> string;                 (* datetime.isoformat() *)
  jwt_decode : string -> option Claims;    (* None: JWTError *)
  ilike : string -> string -> bool         (* column ILIKE pattern *)
}.

(* ===================================================================== *)
(** ** Exceptions and effects *)
(* ===================================================================== *)

(** [app/core/exceptions.py], plus the library errors of the fault model
    and Python's own [TypeError]. *)
Inductive Exception : Type :=
  | NotFoundException (detail : string)
  | ForbiddenException (detail : string)
  | ConflictException (detail : string)
  | JWTError
  | SQLAlchemyError            (* raised by a failing [db.flush()] *)
  | IntegrityError             (* a constraint violated at flush *)
  | WebSocketError             (* raised by a failing [send_text] *)
  | TypeError.                 (* [await] on a value that is no awaitable *)

(** [NotFoundException.__init__]. *)
Definition not_found (resource : string) (resource_id : option string) : Exception :=
  match resource_id with
  | Some i =>
      if bool_decide (i = "") then NotFoundException (resource +:+ " not found")
      else NotFoundException (resource +:+ " with id '" +:+ i +:+ "' not found")
  | None => NotFoundException (resource +:+ " not found")
  end.

Definition is_forbidden (e : Exception) : bool :=
  match e with ForbiddenException _ => true | _ => false end.

(** What the outside world can observe, in order of occurrence. *)
Inductive Event : Type :=
  | WsAccept (ws : WebSocket)
  | WsSendText (ws : WebSocket) (text : string) (delivered : bool)
  | WsClose (ws : WebSocket) (code : Z) (reason : string)
  | DbFlush (ok : bool)
  | LoggerError (msg : string).

(* ===================================================================== *)
(** ** Rows ([app/models/*.py]; columns no modelled function reads are
       left out) *)
(* ===================================================================== *)

Inductive UserRole := RoleUser | RoleAdmin.             (* user_role_enum *)
Inductive MemberRole := RoleMember | RoleManager.       (* team_member_role_enum *)
Inductive TaskStatus := Pending | InProgress | Completed | Cancelled.
Inductive TaskPriority := Low | Medium | High | Critical.
Inductive NotificationType :=
  | TaskAssigned | TaskUpdated | TaskCompleted | CommentAdded
  | TeamInvite | TeamRemoved | SystemNotice.

#[global] Instance UserRole_eq_dec : EqDecision UserRole.
Proof. solve_decision. Defined.
#[global] Instance MemberRole_eq_dec : EqDecision MemberRole.
Proof. solve_decision. Defined.
#[global] Instance TaskStatus_eq_dec : EqDecision TaskStatus.
Proof. solve_decision. Defined.
#[global] Instance TaskPriority_eq_dec : EqDecision TaskPriority.
Proof. solve_decision. Defined.
#[global] Instance NotificationType_eq_dec : EqDecision NotificationType.
Proof. solve_decision. Defined.

Record User := {
  u_id : UUID;
  u_username : string;
  u_role : UserRole
}.

(** A row of [teams]; its [id] is the key it is stored under. *)
Record Team := {
  team_name : string;
  team_owner_id : UUID
}.

(** A [TeamMember] object; primary key [(team_id, user_id)]. *)
Record TeamMember := {
  tm_team_id : UUID;
  tm_user_id : UUID;
  tm_role : MemberRole
}.

(** A row of [tasks]; its [id] is the key it is stored under. *)
Record Task := {
  title : string;
  description : option string;
  status : TaskStatus;
  priority : TaskPriority;
  due_date : option Z;
  owner_id : UUID;
  assigned_to_id : option UUID;
  task_team_id : option UUID;
  tags : option (list string);
  is_archived : bool;
  created_at : Z
}.

Record Notification := {
  n_id : UUID;
  n_user_id : UUID;
  n_message : string;
  n_type : NotificationType;
  n_reference_id : option UUID;
  n_is_read : bool;
  n_created_at : Z
}.

Record ActivityLog := {
  al_id : UUID;
  al_user_id : UUID;
  al_action : string;
  al_entity_type : string;
  al_entity_id : UUID;
  al_meta : option (list (string * MetaValue))
}.

Record Database := {
  users : gmap UUID User;
  teams : gmap UUID Team;
  team_members : gmap (UUID * UUID) MemberRole;   (* (team_id, user_id) ↦ role *)
  tasks : gmap UUID Task;
  notifications : list Notification;
  activity_logs : list ActivityLog;
  now : Z                                   (* server clock, [func.now()] *)
}.

(* ===================================================================== *)
(** ** The world and the computation monad *)
(* ===================================================================== *)

Record World := {
  connections : gmap string (list WebSocket);   (* ws_manager._connections *)
  db : Database;
  broken : gset WebSocket;       (* channels on which [send_text] raises *)
  db_faults : list bool;         (* outcome of the next flushes; [true]: raises *)
  uuid_seed : N;                 (* the next [uuid.uuid4()] *)
  trace : list Event
}.

Inductive Result (A : Type) : Type :=
  | Ok (a : A)
  | Raise (e : Exception).
Arguments Ok {A} a.
Arguments Raise {A} e.

Definition M (A : Type) : Type := World -> Result A * World.

Definition ret {A} (a : A) : M A := fun w => (Ok a, w).

Definition raise {A} (e : Exception) : M A := fun w => (Raise e, w).

Definition bind {A B} (c : M A) (k : A -> M B) : M B :=
  fun w =>
    match c w with
    | (Ok a, w') => k a w'
    | (Raise e, w') => (Raise e, w')
    end.

(** [try: c  except Exception as exc: h exc]. *)
Definition try_except {A} (c : M A) (h : Exception -> M A) : M A :=
  fun w =>
    match c w with
    | (Ok a, w') => (Ok a, w')
    | (Raise e, w') => h e w'
    end.

Notation "'let*' x := c 'in' k" := (bind c (fun x => k))
  (at level 10, x binder, c at level 100, k at level 200).
Notation "'await' c 'in' k" := (bind c (fun _ => k))
  (at level 10, c at level 100, k at level 200).

(** [for x in l: s = body x s], the loop state [s] standing for the local
    variables the body updates. *)
Fixpoint for_each {A S} (l : list A) (s : S) (body : A -> S -> M S) : M S :=
  match l with
  | [] => ret s
  | x :: rest => let* s' := body x s in for_each rest s' body
  end.

Definition set_connections (f : gmap string (list WebSocket) -> gmap string (list WebSocket))
    (w : World) : World :=
  {| connections := f (connections w); db := db w; broken := broken w;
     db_faults := db_faults w; uuid_seed := uuid_seed w; trace := trace w |}.

Definition set_db (f : Database -> Database) (w : World) : World :=
  {| connections := connections w; db := f (db w); broken := broken w;
     db_faults := db_faults w; uuid_seed := uuid_seed w; trace := trace w |}.

Definition emit (e : Event) (w : World) : World :=
  {| connections := connections w; db := db w; broken := broken w;
     db_faults := db_faults w; uuid_seed := uuid_seed w; trace := trace w ++ [e] |}.

Definition pop_fault (w : World) : World :=
  {| connections := connections w; db := db w; broken := broken w;
     db_faults := tail (db_faults w); uuid_seed := uuid_seed w; trace := trace w |}.

Definition next_uuid (w : World) : World :=
  {| connections := connections w; db := db w; broken := broken w;
     db_faults := db_faults w; uuid_seed := N.succ (uuid_seed w); trace := trace w |}.

(* ===================================================================== *)
(** ** [app/services/websocket_service.py]: ConnectionManager *)
(* ===================================================================== *)

(** [list.remove(x)]: drops the first occurrence; [None] is [ValueError]. *)
Fixpoint list_remove_first (x : WebSocket) (l : list WebSocket) : option (list WebSocket) :=
  match l with
  | [] => None
  | y :: rest =>
      if decide (x = y) then Some rest
      else match list_remove_first x rest with
           | Some rest' => Some (y :: rest')
           | None => None
           end
  end.

(** [await websocket.accept()]. *)
Definition ws_accept (websocket : WebSocket) : M unit :=
  fun w => (Ok tt, emit (WsAccept websocket) w).

(** [await ws.send_text(message)]. *)
Definition send_text (ws : WebSocket) (message : string) : M unit :=
  fun w =>
    if decide (ws ∈ broken w)
    then (Raise WebSocketError, emit (WsSendText ws message false) w)
    else (Ok tt, emit (WsSendText ws message true) w).

(** [await websocket.close(code=..., reason=...)]. *)
Definition ws_close (websocket : WebSocket) (code : Z) (reason : string) : M unit :=
  fun w => (Ok tt, emit (WsClose websocket code reason) w).

(** [self._connections.get(user_id, [])]. *)
Definition handles_of (c : gmap string (list WebSocket)) (user_id : string)
    : list WebSocket :=
  default [] (c !! user_id).

Definition handles (w : World) (user_id : string) : list WebSocket :=
  handles_of (connections w) user_id.

Definition connect_registry (websocket : WebSocket) (user_id : string)
    (c : gmap string (list WebSocket)) : gmap string (list WebSocket) :=
  let c1 := match c !! user_id with
            | None => <[user_id := []]> c          (* self._connections[user_id] = [] *)
            | Some _ => c
            end in
  <[user_id := handles_of c1 user_id ++ [websocket]]> c1.

Definition connect (websocket : WebSocket) (user_id : string) : M unit :=
  await ws_accept websocket in
  fun w => (Ok tt, set_connections (connect_registry websocket user_id) w).

(** [try: l.remove(ws)  except ValueError: pass]. *)
Definition remove_or_keep (ws : WebSocket) (l : list WebSocket) : list WebSocket :=
  match list_remove_first ws l with
  | Some l' => l'
  | None => l
  end.

Definition disconnect_registry (websocket : WebSocket) (user_id : string)
    (c : gmap string (list WebSocket)) : gmap string (list WebSocket) :=
  match c !! user_id with
  | Some l =>
      let l' := remove_or_keep websocket l in
      match l' with
      | [] => delete user_id c                     (* del self._connections[user_id] *)
      | _ :: _ => <[user_id := l']> c
      end
  | None => c
  end.

Definition disconnect (websocket : WebSocket) (user_id : string) : M unit :=
  fun w => (Ok tt, set_connections (disconnect_registry websocket user_id) w).

Definition is_connected_registry (c : gmap string (list WebSocket)) (user_id : string) : bool :=
  match c !! user_id with
  | Some l => match l with [] => false | _ :: _ => true end
  | None => false
  end.

Definition is_connected (user_id : string) : M bool :=
  fun w => (Ok (is_connected_registry (connections w) user_id), w).

Definition connected_user_count : M nat :=
  fun w => (Ok (size (connections w)), w).

Section Runtime.
Context (py : PyRuntime).

(** The send loop shared by [send_personal_message] and [broadcast]:
    [dead] collects what the [except] branch appends. *)
Definition send_or_mark {D} (mark : WebSocket -> D) (message : string)
    (ws : WebSocket) (dead : list D) : M (list D) :=
  try_except (await send_text ws message in ret dead)
             (fun _ => ret (dead ++ [mark ws])).

Definition send_personal_message (user_id : string) (data : Json) : M unit :=
  fun w =>
    let conns := handles w user_id in
    match conns with
    | [] => (Ok tt, w)                               (* if not connections: return *)
    | _ :: _ =>
        (let message := json_dumps py data in
         let* dead := for_each conns [] (send_or_mark id message) in
         await for_each dead tt (fun ws _ => disconnect ws user_id) in
         ret tt) w
    end.

(** [send_ping]: a heartbeat frame, failures ignored. *)
Definition send_ping (websocket : WebSocket) : M unit :=
  try_except (send_text websocket (json_dumps py (JObj [("type", JStr "ping")])))
             (fun _ => ret tt).

(** [broadcast]. A Python dict is visited in the order its keys were
    inserted, which a finite map does not record: the loop below visits the
    users in the map's own order, and what is stated of [broadcast] does not
    depend on the order in which the users are visited. *)
Definition broadcast (data : Json) : M unit :=
  fun w =>
    (let message := json_dumps py data in
     let* all_dead := for_each (map_to_list (connections w)) []
                   (fun '(user_id, conns) dead =>
                      for_each conns dead
                        (send_or_mark (fun ws => (ws, user_id)) message)) in
     await for_each all_dead tt (fun '(ws, user_id) _ => disconnect ws user_id) in
     ret tt) w.

(* ===================================================================== *)
(** ** The database session *)
(* ===================================================================== *)

(** [await db.flush()]: the database decides whether the pending write
    goes through. *)
Definition db_flush : M unit :=
  fun w =>
    match db_faults w with
    | true :: _ => (Raise SQLAlchemyError, emit (DbFlush false) (pop_fault w))
    | _ => (Ok tt, emit (DbFlush true) (pop_fault w))
    end.

(** A flush the database rejects for a constraint the model tracks. *)
Definition db_flush_rejected {A} (e : Exception) : M A :=
  fun w => (Raise e, emit (DbFlush false) (pop_fault w)).

(** [uuid.uuid4()], the column default of every [id]. *)
Definition uuid4 : M UUID :=
  fun w => (Ok (uuid_seed w), next_uuid w).

(** A read-only query. *)
Definition query {A} (f : Database -> A) : M A :=
  fun w => (Ok (f (db w)), w).

Definition write (f : Database -> Database) : M unit :=
  fun w => (Ok tt, set_db f w).

Definition logger_error (msg : string) : M unit :=
  fun w => (Ok tt, emit (LoggerError msg) w).

Definition set_team_members (f : gmap (UUID * UUID) MemberRole -> gmap (UUID * UUID) MemberRole)
    (d : Database) : Database :=
  {| users := users d; teams := teams d; team_members := f (team_members d);
     tasks := tasks d; notifications := notifications d;
     activity_logs := activity_logs d; now := now d |}.

Definition set_tasks (f : gmap UUID Task -> gmap UUID Task) (d : Database) : Database :=
  {| users := users d; teams := teams d; team_members := team_members d;
     tasks := f (tasks d); notifications := notifications d;
     activity_logs := activity_logs d; now := now d |}.

Definition set_teams (f : gmap UUID Team -> gmap UUID Team) (d : Database) : Database :=
  {| users := users d; teams := f (teams d); team_members := team_members d;
     tasks := tasks d; notifications := notifications d;
     activity_logs := activity_logs d; now := now d |}.

Definition add_notification (n : Notification) (d : Database) : Database :=
  {| users := users d; teams := teams d; team_members := team_members d;
     tasks := tasks d; notifications := notifications d ++ [n];
     activity_logs := activity_logs d; now := now d |}.

Definition add_activity_log (a : ActivityLog) (d : Database) : Database :=
  {| users := users d; teams := teams d; team_members := team_members d;
     tasks := tasks d; notifications := notifications d;
     activity_logs := activity_logs d ++ [a]; now := now d |}.

(* ===================================================================== *)
(** ** [app/crud/notification.py], [app/services/activity_service.py] *)
(* ===================================================================== *)

Definition create_notification (user_id : UUID) (message : string)
    (type : NotificationType) (reference_id : option UUID) : M Notification :=
  let* i := uuid4 in
  await db_flush in
  let* created := query now in
  let notification :=
    {| n_id := i; n_user_id := user_id; n_message := message; n_type := type;
       n_reference_id := reference_id; n_is_read := false;
       n_created_at := created |} in
  await write (add_notification notification) in
  ret notification.

Definition exception_str (e : Exception) : string :=
  match e with
  | NotFoundException d | ForbiddenException d | ConflictException d => d
  | JWTError => "JWTError"
  | SQLAlchemyError => "SQLAlchemyError"
  | IntegrityError => "IntegrityError"
  | WebSocketError => "WebSocketError"
  | TypeError => "TypeError"
  end.

(** The line [logger.error] writes when the entry cannot be stored. *)
Definition log_message (user_id : UUID) (action entity_type : string)
    (exc : Exception) : string :=
  "Failed to write activity log: user_id=" +:+ uuid_str py user_id
    +:+ " action=" +:+ action +:+ " entity_type=" +:+ entity_type
    +:+ ": " +:+ exception_str exc.

(** What [json.dumps], the serializer of the JSONB column [meta], accepts:
    strings, [None], lists of strings; for a [uuid.UUID] or a [datetime] it
    raises [TypeError]. *)
Definition json_serializable (v : MetaValue) : bool :=
  match v with
  | MNone | MStr _ | MTags _ => true
  | MUuid _ | MDatetime _ => false
  end.

Definition meta_serializable (meta : option (list (string * MetaValue))) : bool :=
  match meta with
  | Some fields => forallb (fun field => json_serializable field.2) fields
  | None => true
  end.

(** [ActivityService.log]. The flush serializes [meta]; where that fails it
    raises [StatementError], an [SQLAlchemyError]. *)
Definition log (user_id : UUID) (action entity_type : string) (entity_id : UUID)
    (meta : option (list (string * MetaValue))) : M ActivityLog :=
  try_except
    (let* i := uuid4 in
     let entry :=
       {| al_id := i; al_user_id := user_id; al_action := action;
          al_entity_type := entity_type; al_entity_id := entity_id;
          al_meta := meta |} in
     await (if meta_serializable meta then db_flush
            else db_flush_rejected SQLAlchemyError) in
     await write (add_activity_log entry) in
     ret entry)
    (fun exc =>
       await logger_error (log_message user_id action entity_type exc) in
       raise exc).

(* ===================================================================== *)
(** ** [app/services/notification_service.py] *)
(* ===================================================================== *)

Definition notification_type_str (t : NotificationType) : string :=
  match t with
  | TaskAssigned => "task_assigned"
  | TaskUpdated => "task_updated"
  | TaskCompleted => "task_completed"
  | CommentAdded => "comment_added"
  | TeamInvite => "team_invite"
  | TeamRemoved => "team_removed"
  | SystemNotice => "system"
  end.

Definition notification_payload (notification : Notification) (message : string)
    (type : NotificationType) (reference_id : option UUID) : Json :=
  JObj [("type", JStr "notification");
        ("data",
         JObj [("id", JStr (uuid_str py (n_id notification)));
               ("message", JStr message);
               ("notification_type", JStr (notification_type_str type));
               ("reference_id",
                match reference_id with
                | Some r => JStr (uuid_str py r)
                | None => JNull
                end);
               ("is_read", JBool false);
               ("created_at", JStr (isoformat py (n_created_at notification)))])].

Definition notify_user (user_id : UUID) (message : string)
    (type : NotificationType) (reference_id : option UUID) : M unit :=
  let* notification := create_notification user_id message type reference_id in
  (* Push real-time if connected *)
  let* connected := is_connected (uuid_str py user_id) in
  if (connected : bool) then
    send_personal_message (uuid_str py user_id)
      (notification_payload notification message type reference_id)
  else ret tt.

Definition notify_task_assigned (assignee_id task_id : UUID)
    (task_title assigner_name : string) : M unit :=
  notify_user assignee_id
    (assigner_name +:+ " assigned you to task: " +:+ py_repr py task_title)
    TaskAssigned (Some task_id).

Definition notify_task_updated (user_id task_id : UUID)
    (task_title updater_name : string) : M unit :=
  notify_user user_id
    (updater_name +:+ " updated task: " +:+ py_repr py task_title)
    TaskUpdated (Some task_id).

Definition notify_team_invite (user_id team_id : UUID)
    (team_name inviter_name : string) : M unit :=
  notify_user user_id
    (inviter_name +:+ " added you to team: " +:+ py_repr py team_name)
    TeamInvite (Some team_id).

Definition notify_team_removed (user_id team_id : UUID) (team_name : string) : M unit :=
  notify_user user_id
    ("You have been removed from team: " +:+ py_repr py team_name)
    TeamRemoved (Some team_id).

(* ===================================================================== *)
(** ** [app/crud/team.py] *)
(* ===================================================================== *)

(** [CRUDBase.get] on [teams] and on [users]. *)
Definition crud_team_get (team_id : UUID) : M (option Team) :=
  query (fun d => teams d !! team_id).

Definition crud_user_get (user_id : UUID) : M (option User) :=
  query (fun d => users d !! user_id).

Definition crud_create_team (name : string) (owner_id : UUID) : M (UUID * Team) :=
  let* i := uuid4 in
  let team := {| team_name := name; team_owner_id := owner_id |} in
  await db_flush in
  await write (set_teams (insert i team)) in
  ret (i, team).

Definition get_member (team_id user_id : UUID) : M (option TeamMember) :=
  query (fun d =>
    (fun r => {| tm_team_id := team_id; tm_user_id := user_id; tm_role := r |})
      <$> team_members d !! (team_id, user_id)).

(** [db.add(member); await db.flush()]: the insert violates the primary
    key when the pair is already there. *)
Definition crud_add_member (team_id user_id : UUID) (role : MemberRole) : M TeamMember :=
  let member := {| tm_team_id := team_id; tm_user_id := user_id; tm_role := role |} in
  let* existing := query (fun d => team_members d !! (team_id, user_id)) in
  match existing with
  | Some _ => db_flush_rejected IntegrityError
  | None =>
      await db_flush in
      await write (set_team_members (insert (team_id, user_id) role)) in
      ret member
  end.

Definition crud_remove_member (team_id user_id : UUID) : M (option TeamMember) :=
  let* member := get_member team_id user_id in
  match member with
  | None => ret None
  | Some m =>
      await db_flush in
      await write (set_team_members (delete (team_id, user_id))) in
      ret (Some m)
  end.

(** The query of [get_user_team_ids]: [teams] outer-joined with
    [team_members], the ids of the teams the user owns or has a row in,
    distinct. *)
Definition user_team_ids (d : Database) (user_id : UUID) : list UUID :=
  (map_to_list
     (filter (fun '(tid, team) =>
                team_owner_id team = user_id
                ∨ is_Some (team_members d !! (tid, user_id)))
             (teams d))).*1.

(** Team ids the user belongs to, "as owner or member". *)
Definition get_user_team_ids (user_id : UUID) : M (list UUID) :=
  query (fun d => user_team_ids d user_id).

(* ===================================================================== *)
(** ** [app/services/team_service.py] *)
(* ===================================================================== *)

Record TeamMemberAdd := {
  tma_user_id : UUID;
  tma_role : MemberRole           (* default "member" *)
}.

Definition member_role_str (r : MemberRole) : string :=
  match r with RoleMember => "member" | RoleManager => "manager" end.

Definition _assert_member_or_admin (team_id : UUID) (team : Team) (user : User) : M unit :=
  if decide (u_role user = RoleAdmin) then ret tt
  else
    let* member := get_member team_id (u_id user) in
    match member with
    | None =>
        if decide (team_owner_id team ≠ u_id user)
        then raise (ForbiddenException "You are not a member of this team")
        else ret tt
    | Some _ => ret tt
    end.

Definition _assert_manager_or_admin (team_id : UUID) (team : Team) (user : User) : M unit :=
  if decide (u_role user = RoleAdmin ∨ team_owner_id team = u_id user) then ret tt
  else
    let* member := get_member team_id (u_id user) in
    match member with
    | Some m =>
        if decide (tm_role m ≠ RoleManager)
        then raise (ForbiddenException
                      "Only team managers or admins can perform this action")
        else ret tt
    | None =>
        raise (ForbiddenException
                 "Only team managers or admins can perform this action")
    end.

Definition _assert_owner_or_admin (team : Team) (user : User) : M unit :=
  if decide (u_role user = RoleAdmin ∨ team_owner_id team = u_id user) then ret tt
  else raise (ForbiddenException
                "Only the team owner or admin can perform this action").

Definition create_team (name : string) (current_user : User) : M (UUID * Team) :=
  let* '(tid, team) := crud_create_team name (u_id current_user) in
  (* Auto-add owner as manager *)
  await crud_add_member tid (u_id current_user) RoleManager in
  await log (u_id current_user) "team_created" "team" tid
          (Some [("name", MStr (team_name team))]) in
  ret (tid, team).

Definition add_member (team_id : UUID) (member_in : TeamMemberAdd)
    (current_user : User) : M TeamMember :=
  let* team := crud_team_get team_id in
  match team with
  | None => raise (not_found "Team" (Some (uuid_str py team_id)))
  | Some team =>
      await _assert_manager_or_admin team_id team current_user in
      (* Verify target user exists *)
      let* target_user := crud_user_get (tma_user_id member_in) in
      match target_user with
      | None => raise (not_found "User" (Some (uuid_str py (tma_user_id member_in))))
      | Some _ =>
          (* Check not already a member *)
          let* existing := get_member team_id (tma_user_id member_in) in
          match existing with
          | Some _ => raise (ConflictException "User is already a member of this team")
          | None =>
              let* member := crud_add_member team_id (tma_user_id member_in)
                               (tma_role member_in) in
              await notify_team_invite (tma_user_id member_in) team_id
                      (team_name team) (u_username current_user) in
              await log (u_id current_user) "team_member_added" "team" team_id
                      (Some [("user_id", MStr (uuid_str py (tma_user_id member_in)));
                             ("role", MStr (member_role_str (tma_role member_in)))]) in
              ret member
          end
      end
  end.

Definition remove_member (team_id user_id : UUID) (current_user : User) : M unit :=
  let* team := crud_team_get team_id in
  match team with
  | None => raise (not_found "Team" (Some (uuid_str py team_id)))
  | Some team =>
      (* Owner cannot be removed *)
      if decide (team_owner_id team = user_id)
      then raise (ForbiddenException "Cannot remove the team owner")
      else
        await _assert_manager_or_admin team_id team current_user in
        let* removed := crud_remove_member team_id user_id in
        match removed with
        | None => raise (not_found "TeamMember" None)
        | Some _ =>
            await notify_team_removed user_id team_id (team_name team) in
            await log (u_id current_user) "team_member_removed" "team" team_id
                    (Some [("user_id", MStr (uuid_str py user_id))]) in
            ret tt
        end
  end.

(* ===================================================================== *)
(** ** [app/schemas/task.py], [app/crud/task.py] *)
(* ===================================================================== *)

(** [TaskUpdate]: a field is unset ([None]), or set to a value that may be
    null ([Some None]); [model_dump(exclude_unset=True)] keeps the set ones. *)
Record TaskUpdate := {
  upd_title : option (option string);
  upd_description : option (option string);
  upd_status : option (option TaskStatus);
  upd_priority : option (option TaskPriority);
  upd_due_date : option (option Z);
  upd_assigned_to_id : option (option UUID);
  upd_team_id : option (option UUID);
  upd_tags : option (option (list string))
}.

(** Reading an attribute of the schema object: the default is [None]. *)
Definition attr {A} (field : option (option A)) : option A :=
  match field with Some v => v | None => None end.

Record TaskFilter := {
  f_status : option TaskStatus;
  f_priority : option TaskPriority;
  f_assigned_to_id : option UUID;
  f_team_id : option UUID;
  f_is_archived : bool;
  f_due_date_from : option Z;
  f_due_date_to : option Z;
  f_search : option string;
  f_page : positive;                (* ge=1 *)
  f_size : positive                 (* ge=1, le=100 *)
}.

Definition crud_task_get (task_id : UUID) : M (option Task) :=
  query (fun d => tasks d !! task_id).

(** [setattr] on a nullable column. *)
Definition set_nullable {A} (field : option (option A)) (old : option A) : option A :=
  match field with Some v => v | None => old end.

(** [setattr] on a NOT NULL column; [None]: the flush will be rejected. *)
Definition set_required {A} (field : option (option A)) (old : A) : option A :=
  match field with
  | Some (Some v) => Some v
  | Some None => None
  | None => Some old
  end.

Definition apply_task_update (obj_in : TaskUpdate) (t : Task) : option Task :=
  title' ← set_required (upd_title obj_in) (title t);
  status' ← set_required (upd_status obj_in) (status t);
  priority' ← set_required (upd_priority obj_in) (priority t);
  Some {| title := title';
          description := set_nullable (upd_description obj_in) (description t);
          status := status';
          priority := priority';
          due_date := set_nullable (upd_due_date obj_in) (due_date t);
          owner_id := owner_id t;
          assigned_to_id := set_nullable (upd_assigned_to_id obj_in) (assigned_to_id t);
          task_team_id := set_nullable (upd_team_id obj_in) (task_team_id t);
          tags := set_nullable (upd_tags obj_in) (tags t);
          is_archived := is_archived t;
          created_at := created_at t |}.

(** A foreign key column that an UPDATE changes: the new value is null or
    the key of a row of the referenced table. (A column whose value stays is
    not part of the UPDATE.) *)
Definition reference_ok {A} (table : gmap UUID A) (old new : option UUID) : Prop :=
  match new with
  | Some key => new = old ∨ is_Some (table !! key)
  | None => True
  end.

#[global] Instance reference_ok_dec {A} (table : gmap UUID A) old new :
  Decision (reference_ok table old new).
Proof. unfold reference_ok. destruct new; apply _. Defined.

(** The foreign keys of a task row: [assigned_to_id] is a user's id and
    [team_id] a team's. *)
Definition references_exist (d : Database) (old new : Task) : Prop :=
  reference_ok (users d) (assigned_to_id old) (assigned_to_id new)
  ∧ reference_ok (teams d) (task_team_id old) (task_team_id new).

#[global] Instance references_exist_dec d old new : Decision (references_exist d old new).
Proof. unfold references_exist. apply _. Defined.

(** [CRUDBase.update] on a task; the result is the updated [db_obj]. The
    flush is rejected for a null in a NOT NULL column and for a reference to
    a user or team that does not exist. *)
Definition crud_task_update (task_id : UUID) (db_obj : Task) (obj_in : TaskUpdate) : M Task :=
  match apply_task_update obj_in db_obj with
  | None => db_flush_rejected IntegrityError
  | Some t' =>
      let* valid := query (fun d => bool_decide (references_exist d db_obj t')) in
      if (valid : bool) then
        await db_flush in
        await write (set_tasks (insert task_id t')) in
        ret t'
      else db_flush_rejected IntegrityError
  end.

Definition archive (task_id : UUID) (task : Task) : M Task :=
  let t' := {| title := title task; description := description task;
               status := status task; priority := priority task;
               due_date := due_date task; owner_id := owner_id task;
               assigned_to_id := assigned_to_id task;
               task_team_id := task_team_id task; tags := tags task;
               is_archived := true; created_at := created_at task |} in
  await db_flush in
  await write (set_tasks (insert task_id t')) in
  ret t'.

(** [or_(Task.owner_id == owner_id, Task.assigned_to_id == owner_id,
    Task.team_id.in_(team_ids))], the last only [if team_ids]. *)
Definition visibility_filter (owner : option UUID) (team_ids : option (list UUID))
    (t : Task) : bool :=
  match owner with
  | None => true
  | Some o =>
      bool_decide (owner_id t = o)
      || bool_decide (assigned_to_id t = Some o)
      || match team_ids, task_team_id t with
         | Some (i :: ids), Some tid => bool_decide (tid ∈ i :: ids)
         | _, _ => false
         end
  end.

(** A filter that applies only when its parameter is given. *)
Definition when_set {A} (param : option A) (cond : A -> bool) : bool :=
  match param with Some a => cond a | None => true end.

Definition search_filter (search : option string) (t : Task) : bool :=
  match search with
  | None => true
  | Some s =>
      if bool_decide (s = "") then true
      else
        let search_term := "%" +:+ s +:+ "%" in
        ilike py (title t) search_term
        || match description t with
           | Some d => ilike py d search_term
           | None => false
           end
  end.

Definition where_filters (filters : TaskFilter) (t : Task) : bool :=
  bool_decide (is_archived t = f_is_archived filters)
  && when_set (f_status filters) (fun s => bool_decide (status t = s))
  && when_set (f_priority filters) (fun p => bool_decide (priority t = p))
  && when_set (f_assigned_to_id filters) (fun a => bool_decide (assigned_to_id t = Some a))
  && when_set (f_team_id filters) (fun i => bool_decide (task_team_id t = Some i))
  && when_set (f_due_date_from filters)
       (fun lo => match due_date t with Some d => bool_decide (lo ≤ d)%Z | None => false end)
  && when_set (f_due_date_to filters)
       (fun hi => match due_date t with Some d => bool_decide (d ≤ hi)%Z | None => false end)
  && search_filter (f_search filters) t.

(** [ORDER BY created_at DESC]. *)
Definition newest_first (a b : UUID * Task) : Prop :=
  (created_at b.2 ≤ created_at a.2)%Z.

#[global] Instance newest_first_dec a b : Decision (newest_first a b).
Proof. unfold newest_first. apply _. Defined.

Definition selected (filters : TaskFilter) (owner : option UUID)
    (team_ids : option (list UUID)) (row : UUID * Task) : bool :=
  visibility_filter owner team_ids row.2 && where_filters filters row.2.

Definition list_with_filters (filters : TaskFilter) (owner : option UUID)
    (team_ids : option (list UUID)) : M (list (UUID * Task) * nat) :=
  query (fun d =>
    let rows := filter (fun row => selected filters owner team_ids row)
                       (map_to_list (tasks d)) in
    (* Count *)
    let total := length rows in
    (* Paginate *)
    let skip := (Pos.to_nat (f_page filters) - 1) * Pos.to_nat (f_size filters) in
    (take (Pos.to_nat (f_size filters)) (drop skip (merge_sort newest_first rows)),
     total)).

(* ===================================================================== *)
(** ** [app/services/task_service.py] *)
(* ===================================================================== *)

Definition _assert_can_view (task : Task) (user : User) : M unit :=
  if decide (u_role user = RoleAdmin) then ret tt
  else if decide (owner_id task = u_id user ∨ assigned_to_id task = Some (u_id user))
  then ret tt
  else
    let deny := raise (ForbiddenException "You do not have access to this task") in
    match task_team_id task with
    | Some tid =>
        let* member := get_member tid (u_id user) in
        match member with
        | Some _ => ret tt
        | None => deny
        end
    | None => deny
    end.

Definition _assert_can_modify (task : Task) (user : User) : M unit :=
  if decide (u_role user = RoleAdmin) then ret tt
  else if decide (owner_id task = u_id user) then ret tt
  else
    let deny := raise (ForbiddenException
                  "Only the task owner, team manager, or admin can modify this task") in
    match task_team_id task with
    | Some tid =>
        let* member := get_member tid (u_id user) in
        match member with
        | Some m => if decide (tm_role m = RoleManager) then ret tt else deny
        | None => deny
        end
    | None => deny
    end.

Definition get_task (task_id : UUID) (current_user : User) : M Task :=
  let* task := crud_task_get task_id in
  match task with
  | None => raise (not_found "Task" (Some (uuid_str py task_id)))
  | Some task =>
      await _assert_can_view task current_user in
      ret task
  end.

Definition status_str (s : TaskStatus) : string :=
  match s with
  | Pending => "pending" | InProgress => "in_progress"
  | Completed => "completed" | Cancelled => "cancelled"
  end.

Definition priority_str (p : TaskPriority) : string :=
  match p with
  | Low => "low" | Medium => "medium" | High => "high" | Critical => "critical"
  end.

(** [task_in.model_dump(exclude_unset=True)]. *)
Definition dump_field {A} (name : string) (conv : A -> MetaValue)
    (field : option (option A)) : list (string * MetaValue) :=
  match field with
  | None => []
  | Some None => [(name, MNone)]
  | Some (Some v) => [(name, conv v)]
  end.

Definition model_dump (task_in : TaskUpdate) : list (string * MetaValue) :=
  dump_field "title" MStr (upd_title task_in)
  ++ dump_field "description" MStr (upd_description task_in)
  ++ dump_field "status" (fun s => MStr (status_str s)) (upd_status task_in)
  ++ dump_field "priority" (fun p => MStr (priority_str p)) (upd_priority task_in)
  ++ dump_field "due_date" MDatetime (upd_due_date task_in)
  ++ dump_field "assigned_to_id" MUuid (upd_assigned_to_id task_in)
  ++ dump_field "team_id" MUuid (upd_team_id task_in)
  ++ dump_field "tags" MTags (upd_tags task_in).

Definition update_task (task_id : UUID) (task_in : TaskUpdate)
    (current_user : User) : M Task :=
  let* task := crud_task_get task_id in
  match task with
  | None => raise (not_found "Task" (Some (uuid_str py task_id)))
  | Some task =>
      await _assert_can_modify task current_user in
      let old_assignee := assigned_to_id task in
      (* [updated] is the object [task], changed in place *)
      let* updated := crud_task_update task_id task task_in in
      await log (u_id current_user) "task_updated" "task" task_id
              (Some (model_dump task_in)) in
      (* Notify new assignee *)
      await
        match attr (upd_assigned_to_id task_in) with
        | Some new_assignee =>
            if decide (Some new_assignee ≠ old_assignee
                       ∧ new_assignee ≠ u_id current_user)
            then notify_task_assigned new_assignee task_id (title updated)
                   (u_username current_user)
            else ret tt
        | None => ret tt
        end in
      (* Notify owner if someone else updated their task *)
      await
        (if decide (owner_id updated ≠ u_id current_user)
         then notify_task_updated (owner_id updated) task_id (title updated)
                (u_username current_user)
         else ret tt) in
      ret updated
  end.

Definition delete_task (task_id : UUID) (current_user : User) : M Task :=
  let* task := crud_task_get task_id in
  match task with
  | None => raise (not_found "Task" (Some (uuid_str py task_id)))
  | Some task =>
      await _assert_can_modify task current_user in
      let* archived := archive task_id task in
      await log (u_id current_user) "task_archived" "task" task_id None in
      ret archived
  end.

(** The plain dict [{"assigned_to_id": assignee_id}] given to
    [CRUDBase.update]. *)
Definition assign_only (assignee_id : UUID) : TaskUpdate :=
  {| upd_title := None; upd_description := None; upd_status := None;
     upd_priority := None; upd_due_date := None;
     upd_assigned_to_id := Some (Some assignee_id);
     upd_team_id := None; upd_tags := None |}.

Definition assign_task (task_id assignee_id : UUID) (current_user : User) : M Task :=
  let* task := crud_task_get task_id in
  match task with
  | None => raise (not_found "Task" (Some (uuid_str py task_id)))
  | Some task =>
      await _assert_can_modify task current_user in
      let* updated := crud_task_update task_id task (assign_only assignee_id) in
      await
        (if decide (assignee_id ≠ u_id current_user)
         then notify_task_assigned assignee_id task_id (title updated)
                (u_username current_user)
         else ret tt) in
      await log (u_id current_user) "task_assigned" "task" task_id
              (Some [("assigned_to_id", MStr (uuid_str py assignee_id))]) in
      ret updated
  end.

Definition list_tasks (filters : TaskFilter) (current_user : User)
    : M (list (UUID * Task) * nat) :=
  if decide (u_role current_user = RoleAdmin)
  then (* Admins see all tasks *)
    list_with_filters filters None None
  else
    let* team_ids := get_user_team_ids (u_id current_user) in
    list_with_filters filters (Some (u_id current_user)) (Some team_ids).

(* ===================================================================== *)
(** ** [app/core/security.py], [app/api/v1/websocket.py] *)
(* ===================================================================== *)

Definition decode_access_token (token : string) : Result Claims :=
  match jwt_decode py token with
  | None => Raise JWTError
  | Some payload =>
      if decide (claim_type payload ≠ Some "access")
      then Raise JWTError                       (* "Invalid token type" *)
      else Ok payload
  end.

Definition HEARTBEAT_INTERVAL : Z := 30.

(** [websocket_endpoint], for a channel whose query string carries
    [token] ([None]: no such parameter). After [connect] the handler sends
    the acknowledgement and then only waits for the client to go away (the
    receive loop logs, the heartbeat is a timer task and is not modelled);
    the [finally] clause disconnects. *)
Definition websocket_endpoint (websocket : WebSocket) (user_id : string)
    (token : option string) : M unit :=
  match token with
  | None => ws_close websocket 4001 "Missing authentication token"
  | Some token =>
      if bool_decide (token = "")                 (* if not token *)
      then ws_close websocket 4001 "Missing authentication token"
      else
        match decode_access_token token with
        | Raise _ => ws_close websocket 4001 "Invalid or expired token"
        | Ok payload =>
            let token_user_id := claim_sub payload in
            (* Ensure the token subject matches the path parameter *)
            if decide (token_user_id ≠ Some user_id)
            then ws_close websocket 4003 "Token user_id mismatch"
            else
              await connect websocket user_id in
              await try_except
                      (* websocket.send_json *)
                      (send_text websocket
                         (json_dumps_compact py
                            (JObj [("type", JStr "connected");
                                   ("user_id", JStr user_id)])))
                      (fun exc =>
                         logger_error ("WebSocket error for user_id=" +:+ user_id
                                         +:+ ": " +:+ exception_str exc)) in
              disconnect websocket user_id
        end
  end.

End Runtime.

(* ===================================================================== *)
(** ** What the statements are written with *)
(* ===================================================================== *)

(** *** The registry *)

(** No empty entries: every user in the mapping has at least one handle. *)
Definition registry_ok (c : gmap string (list WebSocket)) : Prop :=
  ∀ u l, c !! u = Some l → l ≠ [].

(** The world after the events [evs] have been observed. *)
Definition emits (evs : list Event) (w : World) : World :=
  {| connections := connections w; db := db w; broken := broken w;
     db_faults := db_faults w; uuid_seed := uuid_seed w; trace := trace w ++ evs |}.

(** What sending [message] on [ws] looks like in [w]: delivered unless the
    channel is broken. *)
Definition send_event (w : World) (message : string) (ws : WebSocket) : Event :=
  WsSendText ws message (bool_decide (ws ∉ broken w)).

(** The operations of the registry, and the states they lead to from an
    empty mapping; between two operations anything but the mapping may change
    (channels break, the database moves on). *)
Inductive RegistryOp : Type :=
  | OpConnect (ws : WebSocket) (user_id : string)
  | OpDisconnect (ws : WebSocket) (user_id : string)
  | OpSendPersonal (user_id : string) (data : Json)
  | OpBroadcast (data : Json).

Definition run_op (py : PyRuntime) (op : RegistryOp) : M unit :=
  match op with
  | OpConnect ws u => connect ws u
  | OpDisconnect ws u => disconnect ws u
  | OpSendPersonal u data => send_personal_message py u data
  | OpBroadcast data => broadcast py data
  end.

Inductive reachable (py : PyRuntime) : World → Prop :=
  | reach_start w : connections w = ∅ → reachable py w
  | reach_op w op : reachable py w → reachable py (run_op py op w).2
  | reach_env w w' : reachable py w → connections w' = connections w → reachable py w'.

(** One step of [broadcast]'s clean-up loop over [(ws, user_id)] pairs. *)
Definition pair_disconnect (c : gmap string (list WebSocket)) (d : WebSocket * string) :=
  disconnect_registry d.1 d.2 c.

(** *** Notifications and the activity log *)

(** The next flush goes through. *)
Definition flush_ok (w : World) : bool :=
  match db_faults w with true :: _ => false | _ => true end.

(** The row [create_notification] builds in [w]. *)
Definition new_notification (w : World) (user_id : UUID) (message : string)
    (type : NotificationType) (reference_id : option UUID) : Notification :=
  {| n_id := uuid_seed w; n_user_id := user_id; n_message := message;
     n_type := type; n_reference_id := reference_id; n_is_read := false;
     n_created_at := now (db w) |}.

(** The world once the notification row is stored. *)
Definition stored (n : Notification) (w : World) : World :=
  set_db (add_notification n) (emit (DbFlush true) (pop_fault (next_uuid w))).

(** The entry [log] builds in [w]. *)
Definition new_entry (w : World) (user_id : UUID) (action entity_type : string)
    (entity_id : UUID) (meta : option (list (string * MetaValue))) : ActivityLog :=
  {| al_id := uuid_seed w; al_user_id := user_id; al_action := action;
     al_entity_type := entity_type; al_entity_id := entity_id; al_meta := meta |}.

(** *** Permissions *)

(** Who may add and remove members: admins, the team's owner, its managers. *)
Definition can_manage (d : Database) (team_id : UUID) (team : Team) (user : User) : Prop :=
  u_role user = RoleAdmin
  ∨ team_owner_id team = u_id user
  ∨ team_members d !! (team_id, u_id user) = Some RoleManager.

#[global] Instance can_manage_dec d team_id team user :
  Decision (can_manage d team_id team user).
Proof. unfold can_manage. apply _. Defined.

(** The errors the services raise, by name. *)
Definition managers_only : Exception :=
  ForbiddenException "Only team managers or admins can perform this action".

Definition already_member : Exception :=
  ConflictException "User is already a member of this team".

(** The user is a manager of, or has any row in, the task's team. *)
Definition manages_team_of (d : Database) (task : Task) (user : User) : Prop :=
  match task_team_id task with
  | Some tid => team_members d !! (tid, u_id user) = Some RoleManager
  | None => False
  end.

Definition member_of_team_of (d : Database) (task : Task) (user : User) : Prop :=
  match task_team_id task with
  | Some tid => is_Some (team_members d !! (tid, u_id user))
  | None => False
  end.

(** The modify rule and the view rule. *)
Definition can_modify (d : Database) (task : Task) (user : User) : Prop :=
  u_role user = RoleAdmin ∨ owner_id task = u_id user ∨ manages_team_of d task user.

Definition can_view (d : Database) (task : Task) (user : User) : Prop :=
  u_role user = RoleAdmin
  ∨ owner_id task = u_id user
  ∨ assigned_to_id task = Some (u_id user)
  ∨ member_of_team_of d task user.

#[global] Instance manages_team_of_dec d task user : Decision (manages_team_of d task user).
Proof. unfold manages_team_of. destruct (task_team_id task); apply _. Defined.
#[global] Instance member_of_team_of_dec d task user :
  Decision (member_of_team_of d task user).
Proof. unfold member_of_team_of. destruct (task_team_id task); apply _. Defined.
#[global] Instance can_modify_dec d task user : Decision (can_modify d task user).
Proof. unfold can_modify. apply _. Defined.
#[global] Instance can_view_dec d task user : Decision (can_view d task user).
Proof. unfold can_view. apply _. Defined.

Definition modify_denied : Exception :=
  ForbiddenException "Only the task owner, team manager, or admin can modify this task".

Definition view_denied : Exception :=
  ForbiddenException "You do not have access to this task".

(** The outcome is a Forbidden error. *)
Definition forbidden {A} (r : Result A * World) : Prop :=
  match r.1 with
  | Raise e => is_forbidden e = true
  | Ok _ => False
  end.

(** A computation that raises no Forbidden error. *)
Definition never_forbidden {A} (c : M A) : Prop :=
  ∀ w e w', c w = (Raise e, w') → is_forbidden e = false.

(** *** Task updates and listings *)

(** Who a notification is for, of what kind, about what. *)
Definition notice (n : Notification) : UUID * NotificationType * option UUID :=
  (n_user_id n, n_type n, n_reference_id n).

(** The notifications the update of [task] by [user] calls for: who is told,
    what, about which task. *)
Definition expected_notices (task_id : UUID) (task : Task) (task_in : TaskUpdate)
    (user : User) : list (UUID * NotificationType * option UUID) :=
  match upd_assigned_to_id task_in with
  | Some (Some new_assignee) =>
      if decide (Some new_assignee ≠ assigned_to_id task ∧ new_assignee ≠ u_id user)
      then [(new_assignee, TaskAssigned, Some task_id)]
      else []
  | _ => []
  end
  ++ (if decide (owner_id task ≠ u_id user)
      then [(owner_id task, TaskUpdated, Some task_id)]
      else []).

(** The database accepts every write. *)
Definition calm (w : World) : Prop := db_faults w = [].

(** The user owns the team or holds a membership in it. *)
Definition team_visible (d : Database) (u : UUID) (tid : UUID) : Prop :=
  match teams d !! tid with
  | Some team => team_owner_id team = u ∨ is_Some (team_members d !! (tid, u))
  | None => False
  end.

(** What a non-admin sees in a listing. *)
Definition in_scope (d : Database) (user : User) (t : Task) : Prop :=
  owner_id t = u_id user
  ∨ assigned_to_id t = Some (u_id user)
  ∨ match task_team_id t with
    | Some tid => team_visible d (u_id user) tid
    | None => False
    end.

(** The scope in the specification's words: owned by the actor, assigned
    to the actor, or of a team the actor holds membership in. *)
Definition claimed_scope (d : Database) (user : User) (t : Task) : Prop :=
  owner_id t = u_id user
  ∨ assigned_to_id t = Some (u_id user)
  ∨ member_of_team_of d t user.

(** The rows of a listing: in scope (or any, for an admin) and passing the
    filters. *)
Definition listed (py : PyRuntime) (d : Database) (filters : TaskFilter) (user : User)
    (row : UUID * Task) : Prop :=
  (u_role user = RoleAdmin ∨ in_scope d user row.2) ∧ where_filters py filters row.2.

#[global] Instance team_visible_dec d u tid : Decision (team_visible d u tid).
Proof. unfold team_visible. destruct (teams d !! tid); apply _. Defined.
#[global] Instance in_scope_dec d user t : Decision (in_scope d user t).
Proof. unfold in_scope. destruct (task_team_id t); apply _. Defined.
#[global] Instance claimed_scope_dec d user t : Decision (claimed_scope d user t).
Proof. unfold claimed_scope. apply _. Defined.
#[global] Instance listed_dec py d filters user row : Decision (listed py d filters user row).
Proof. unfold listed. apply _. Defined.

(** The page of a listing: [OFFSET (page - 1) * size LIMIT size] of the rows,
    newest first. *)
Definition page_of (filters : TaskFilter) (rows : list (UUID * Task)) : list (UUID * Task) :=
  take (Pos.to_nat (f_size filters))
    (drop ((Pos.to_nat (f_page filters) - 1) * Pos.to_nat (f_size filters))
       (merge_sort newest_first rows)).

(** When every team's owner holds a membership row in it and every membership
    row belongs to an existing team, the two scopes coincide. *)
Definition owners_are_members (d : Database) : Prop :=
  ∀ tid team, teams d !! tid = Some team →
    is_Some (team_members d !! (tid, team_owner_id team)).

Definition memberships_have_teams (d : Database) : Prop :=
  ∀ tid u, is_Some (team_members d !! (tid, u)) → is_Some (teams d !! tid).

(** *** Admission to the push channel *)

Inductive Rejection : Type :=
  | MissingToken          (* no credential token *)
  | InvalidToken          (* the token does not validate: bad, expired, not an access token *)
  | IdentityMismatch.     (* the token's identity is not the requested one *)

(** Why a connection attempt is turned away ([None]: it is admitted). *)
Definition rejection (py : PyRuntime) (user_id : string) (token : option string)
    : option Rejection :=
  match token with
  | None => Some MissingToken
  | Some t =>
      if bool_decide (t = EmptyString) then Some MissingToken
      else match jwt_decode py t with
           | None => Some InvalidToken
           | Some claims =>
               if bool_decide (claim_type claims = Some "access")
               then if bool_decide (claim_sub claims = Some user_id)
                    then None
                    else Some IdentityMismatch
               else Some InvalidToken
           end
  end.

(** The code of the close frame that ends a trace, if it ends with one. *)
Definition closing_code (evs : list Event) : option Z :=
  match last evs with
  | Some (WsClose _ code _) => Some code
  | _ => None
  end.

(** The three rejections close with three different codes. *)
Definition close_codes_pairwise_distinct (py : PyRuntime) : Prop :=
  ∀ ws user_id w ta tb tc,
    rejection py user_id ta = Some MissingToken →
    rejection py user_id tb = Some InvalidToken →
    rejection py user_id tc = Some IdentityMismatch →
    let code t := closing_code (trace (websocket_endpoint py ws user_id t w).2) in
    code ta ≠ code tb ∧ code tb ≠ code tc ∧ code ta ≠ code tc.

(* --------------------------------------------------------------------- *)
(** *** A concrete runtime and database, for the examples *)
(* --------------------------------------------------------------------- *)

(** A small [json.dumps] and friends. *)
Definition quote : string := String (Ascii.ascii_of_nat 34) EmptyString.

Fixpoint render_json (j : Json) : string :=
  match j with
  | JNull => "null"
  | JBool true => "true"
  | JBool false => "false"
  | JStr s => quote +:+ s +:+ quote
  | JObj fields =>
      "{" +:+
      (fix members (l : list (string * Json)) : string :=
         match l with
         | [] => EmptyString
         | [(k, v)] => quote +:+ k +:+ quote +:+ ": " +:+ render_json v
         | (k, v) :: rest =>
             quote +:+ k +:+ quote +:+ ": " +:+ render_json v +:+ ", " +:+ members rest
         end) fields
      +:+ "}"
  end.

Fixpoint render_json_compact (j : Json) : string :=
  match j with
  | JNull => "null"
  | JBool true => "true"
  | JBool false => "false"
  | JStr s => quote +:+ s +:+ quote
  | JObj fields =>
      "{" +:+
      (fix members (l : list (string * Json)) : string :=
         match l with
         | [] => EmptyString
         | [(k, v)] => quote +:+ k +:+ quote +:+ ":" +:+ render_json_compact v
         | (k, v) :: rest =>
             quote +:+ k +:+ quote +:+ ":" +:+ render_json_compact v +:+ ","
               +:+ members rest
         end) fields
      +:+ "}"
  end.

Definition demo_jwt (token : string) : option Claims :=
  if bool_decide (token = "access-1")
  then Some {| claim_type := Some "access"; claim_sub := Some "1" |}
  else if bool_decide (token = "refresh-1")
  then Some {| claim_type := Some "refresh"; claim_sub := Some "1" |}
  else None.

Definition demo_py : PyRuntime :=
  {| json_dumps := render_json;
     json_dumps_compact := render_json_compact;
     uuid_str := fun u => pretty u;
     py_repr := fun s => "'" +:+ s +:+ "'";
     isoformat := fun t => pretty t;
     jwt_decode := demo_jwt;
     ilike := fun column pattern => bool_decide (pattern = "%" +:+ column +:+ "%") |}.

Definition alice : User := {| u_id := 1%N; u_username := "alice"; u_role := RoleUser |}.
Definition bob : User := {| u_id := 2%N; u_username := "bob"; u_role := RoleUser |}.
Definition carol : User := {| u_id := 3%N; u_username := "carol"; u_role := RoleAdmin |}.
Definition dave : User := {| u_id := 4%N; u_username := "dave"; u_role := RoleUser |}.

Definition demo_task : Task :=
  {| title := "write report"; description := None; status := Pending;
     priority := Medium; due_date := None; owner_id := 1%N;
     assigned_to_id := Some 2%N; task_team_id := Some 10%N; tags := Some [];
     is_archived := false; created_at := 5%Z |}.

(** Alice owns team 10 and manages it, bob is a plain member, carol is an
    admin, dave is nobody in particular; task 100 is alice's, in team 10,
    assigned to bob. *)
Definition demo_db : Database :=
  {| users := {[ 1%N := alice; 2%N := bob; 3%N := carol; 4%N := dave ]};
     teams := {[ 10%N := {| team_name := "core"; team_owner_id := 1%N |} ]};
     team_members := {[ (10%N, 1%N) := RoleManager; (10%N, 2%N) := RoleMember ]};
     tasks := {[ 100%N := demo_task ]};
     notifications := [];
     activity_logs := [];
     now := 1000%Z |}.

Definition demo_world : World :=
  {| connections := ∅; db := demo_db; broken := ∅; db_faults := [];
     uuid_seed := 500%N; trace := [] |}.

Definition with_faults (faults : list bool) (w : World) : World :=
  {| connections := connections w; db := db w; broken := broken w;
     db_faults := faults; uuid_seed := uuid_seed w; trace := trace w |}.

Definition with_broken (b : gset WebSocket) (w : World) : World :=
  {| connections := connections w; db := db w; broken := b;
     db_faults := db_faults w; uuid_seed := uuid_seed w; trace := trace w |}.

Definition retitle : TaskUpdate :=
  {| upd_title := Some (Some "write the report"); upd_description := None;
     upd_status := None; upd_priority := None; upd_due_date := None;
     upd_assigned_to_id := Some (Some 4%N); upd_team_id := None; upd_tags := None |}.

(** A task of a team whose owner holds no membership row in it. *)
Definition orphan_task : Task :=
  {| title := "plan offsite"; description := None; status := Pending;
     priority := Low; due_date := None; owner_id := 1%N;
     assigned_to_id := None; task_team_id := Some 20%N; tags := None;
     is_archived := false; created_at := 7%Z |}.

(** Team 20 is dave's; nobody has a membership row. *)
Definition owner_without_row_db : Database :=
  {| users := users demo_db;
     teams := {[ 20%N := {| team_name := "ops"; team_owner_id := 4%N |} ]};
     team_members := ∅;
     tasks := {[ 200%N := orphan_task ]};
     notifications := []; activity_logs := []; now := 1000%Z |}.

Definition owner_without_row_world : World :=
  {| connections := ∅; db := owner_without_row_db; broken := ∅; db_faults := [];
     uuid_seed := 500%N; trace := [] |}.

Definition all_tasks : TaskFilter :=
  {| f_status := None; f_priority := None; f_assigned_to_id := None;
     f_team_id := None; f_is_archived := false; f_due_date_from := None;
     f_due_date_to := None; f_search := None; f_page := 1; f_size := 20 |}.

(** Bob is connected twice; the second channel is broken. *)
Definition two_devices : World :=
  {| connections := {[ "2" := [7; 8] ]}; db := demo_db; broken := {[ 8 ]};
     db_faults := []; uuid_seed := 500%N; trace := [] |}.

Definition invite_dave : TeamMemberAdd := {| tma_user_id := 4%N; tma_role := RoleMember |}.

(* ===================================================================== *)
(** ** The rest of the service layer *)
(* ===================================================================== *)

Section Services.
Context (py : PyRuntime).

(* --------------------------------------------------------------------- *)
(** *** [app/crud/notification.py], [app/api/v1/notifications.py] *)
(* --------------------------------------------------------------------- *)

Definition set_notifications (f : list Notification → list Notification)
    (d : Database) : Database :=
  {| users := users d; teams := teams d; team_members := team_members d;
     tasks := tasks d; notifications := f (notifications d);
     activity_logs := activity_logs d; now := now d |}.

(** [obj.is_read = True]. *)
Definition mark_read (n : Notification) : Notification :=
  {| n_id := n_id n; n_user_id := n_user_id n; n_message := n_message n;
     n_type := n_type n; n_reference_id := n_reference_id n; n_is_read := true;
     n_created_at := n_created_at n |}.

(** [WHERE user_id = :user_id], with [AND is_read IS FALSE] when
    [unread_only]. *)
Definition user_notification (user_id : UUID) (unread_only : bool)
    (n : Notification) : Prop :=
  n_user_id n = user_id ∧ (unread_only = true → n_is_read n = false).

#[global] Instance user_notification_dec user_id unread_only n :
  Decision (user_notification user_id unread_only n).
Proof. unfold user_notification. apply _. Defined.

(** [WHERE user_id = :user_id AND is_read IS FALSE]. *)
Definition unread_of (user_id : UUID) (n : Notification) : Prop :=
  n_user_id n = user_id ∧ n_is_read n = false.

#[global] Instance unread_of_dec user_id n : Decision (unread_of user_id n).
Proof. unfold unread_of. apply _. Defined.

(** [WHERE id = :notification_id AND user_id = :user_id]. *)
Definition own_notification (notification_id user_id : UUID) (n : Notification) : Prop :=
  n_id n = notification_id ∧ n_user_id n = user_id.

#[global] Instance own_notification_dec notification_id user_id n :
  Decision (own_notification notification_id user_id n).
Proof. unfold own_notification. apply _. Defined.

(** [ORDER BY created_at DESC]. *)
Definition newest_notification_first (a b : Notification) : Prop :=
  (n_created_at b ≤ n_created_at a)%Z.

#[global] Instance newest_notification_first_dec a b :
  Decision (newest_notification_first a b).
Proof. unfold newest_notification_first. apply _. Defined.

(** [CRUDNotification.list_by_user]. *)
Definition notification_list_by_user (user_id : UUID) (skip limit : nat)
    (unread_only : bool) : M (list Notification * nat) :=
  query (fun d =>
    let rows := filter (user_notification user_id unread_only) (notifications d) in
    let total := length rows in
    (take limit (drop skip (merge_sort newest_notification_first rows)), total)).

(** The [UPDATE] the flush sends for [obj]: by primary key. *)
Definition mark_read_by_id (notification_id : UUID) (n : Notification) : Notification :=
  if decide (n_id n = notification_id) then mark_read n else n.

(** [CRUDNotification.mark_as_read]; [scalar_one_or_none] raises
    [MultipleResultsFound], an [SQLAlchemyError], on more than one row. *)
Definition crud_mark_as_read (notification_id user_id : UUID) : M (option Notification) :=
  let* found := query (fun d =>
                  filter (own_notification notification_id user_id) (notifications d)) in
  match found with
  | [] => ret None
  | [obj] =>
      await db_flush in
      await write (set_notifications (fmap (mark_read_by_id notification_id))) in
      ret (Some (mark_read obj))
  | _ :: _ :: _ => raise SQLAlchemyError
  end.

(** [UPDATE notifications SET is_read = true WHERE user_id = :user_id AND
    is_read IS FALSE]. *)
Definition mark_unread_of (user_id : UUID) (n : Notification) : Notification :=
  if decide (unread_of user_id n) then mark_read n else n.

(** [CRUDNotification.mark_all_read]: the result is [result.rowcount]. *)
Definition crud_mark_all_read (user_id : UUID) : M nat :=
  let* rowcount := query (fun d => length (filter (unread_of user_id) (notifications d))) in
  await write (set_notifications (fmap (mark_unread_of user_id))) in
  ret rowcount.

Definition count_unread (user_id : UUID) : M nat :=
  query (fun d => length (filter (unread_of user_id) (notifications d))).

(** The routes: [GET /notifications/], [PUT /notifications/read-all],
    [PUT /notifications/{notification_id}/read]. The first returns the
    [items] and the [total] of the page object. *)
Definition list_notifications (current_user : User) (page size : positive)
    (unread_only : bool) : M (list Notification * nat) :=
  notification_list_by_user (u_id current_user)
    ((Pos.to_nat page - 1) * Pos.to_nat size) (Pos.to_nat size) unread_only.

Definition mark_all_read (current_user : User) : M unit :=
  await crud_mark_all_read (u_id current_user) in
  ret tt.

Definition mark_as_read (notification_id : UUID) (current_user : User) : M Notification :=
  let* notification := crud_mark_as_read notification_id (u_id current_user) in
  match notification with
  | None => raise (not_found "Notification" (Some (uuid_str py notification_id)))
  | Some n => ret n
  end.

(* --------------------------------------------------------------------- *)
(** *** [app/crud/team.py], [app/services/team_service.py]: the
        operations of the owner *)
(* --------------------------------------------------------------------- *)

(** [TeamUpdate]; [description] is a column no modelled function reads, it
    shows in the activity log only. *)
Record TeamUpdate := {
  tu_name : option (option string);
  tu_description : option (option string)
}.

(** [CRUDBase.update] on a team; [name] is NOT NULL. *)
Definition crud_team_update (team_id : UUID) (db_obj : Team) (obj_in : TeamUpdate)
    : M Team :=
  match set_required (tu_name obj_in) (team_name db_obj) with
  | None => db_flush_rejected IntegrityError
  | Some name' =>
      let team' := {| team_name := name'; team_owner_id := team_owner_id db_obj |} in
      await db_flush in
      await write (set_teams (insert team_id team')) in
      ret team'
  end.

(** A task that loses its team: [ForeignKey("teams.id", ondelete="SET NULL")]. *)
Definition detach (team_id : UUID) (t : Task) : Task :=
  if decide (task_team_id t = Some team_id)
  then {| title := title t; description := description t; status := status t;
          priority := priority t; due_date := due_date t; owner_id := owner_id t;
          assigned_to_id := assigned_to_id t; task_team_id := None; tags := tags t;
          is_archived := is_archived t; created_at := created_at t |}
  else t.

(** Deleting the row of a team: its membership rows go with it
    ([cascade="all, delete-orphan"], [ondelete="CASCADE"]), its tasks stay
    and lose the team. *)
Definition delete_team_rows (team_id : UUID) (d : Database) : Database :=
  {| users := users d;
     teams := delete team_id (teams d);
     team_members := filter (fun row => row.1.1 ≠ team_id) (team_members d);
     tasks := detach team_id <$> tasks d;
     notifications := notifications d;
     activity_logs := activity_logs d; now := now d |}.

(** [CRUDBase.remove] on a team. *)
Definition crud_team_remove (team_id : UUID) : M (option Team) :=
  let* db_obj := crud_team_get team_id in
  match db_obj with
  | None => ret None
  | Some team =>
      await db_flush in
      await write (delete_team_rows team_id) in
      ret (Some team)
  end.

Definition crud_update_member_role (team_id user_id : UUID) (role : MemberRole)
    : M (option TeamMember) :=
  let* member := get_member team_id user_id in
  match member with
  | None => ret None
  | Some _ =>
      await db_flush in
      await write (set_team_members (insert (team_id, user_id) role)) in
      ret (Some {| tm_team_id := team_id; tm_user_id := user_id; tm_role := role |})
  end.

(** The rows [selectinload(Team.members)] loads, in no particular order. *)
Definition members_of (d : Database) (team_id : UUID) : list TeamMember :=
  (fun row : UUID * UUID * MemberRole =>
     {| tm_team_id := row.1.1; tm_user_id := row.1.2; tm_role := row.2 |})
    <$> map_to_list (filter (fun row : UUID * UUID * MemberRole => row.1.1 = team_id)
                            (team_members d)).

(** [CRUDTeam.get_with_members]: the team and its [members]. *)
Definition get_with_members (team_id : UUID) : M (option (Team * list TeamMember)) :=
  query (fun d => (fun team => (team, members_of d team_id)) <$> teams d !! team_id).

Definition get_team (team_id : UUID) (current_user : User)
    : M (Team * list TeamMember) :=
  let* team := get_with_members team_id in
  match team with
  | None => raise (not_found "Team" (Some (uuid_str py team_id)))
  | Some team =>
      await _assert_member_or_admin team_id team.1 current_user in
      ret team
  end.

(** [await self._assert_owner_or_admin(...)]: the helper is a plain [def],
    not a coroutine; the call raises Forbidden or returns [None], and
    [await None] raises [TypeError]. *)
Definition await_none (call : M unit) : M unit :=
  await call in
  raise TypeError.

Definition update_team (team_id : UUID) (team_in : TeamUpdate) (current_user : User)
    : M Team :=
  let* team := crud_team_get team_id in
  match team with
  | None => raise (not_found "Team" (Some (uuid_str py team_id)))
  | Some team =>
      await await_none (_assert_owner_or_admin team current_user) in
      let* updated := crud_team_update team_id team team_in in
      await log py (u_id current_user) "team_updated" "team" team_id
              (Some (dump_field "name" MStr (tu_name team_in)
                     ++ dump_field "description" MStr (tu_description team_in))) in
      ret updated
  end.

Definition delete_team (team_id : UUID) (current_user : User) : M (option Team) :=
  let* team := crud_team_get team_id in
  match team with
  | None => raise (not_found "Team" (Some (uuid_str py team_id)))
  | Some team =>
      await await_none (_assert_owner_or_admin team current_user) in
      let* deleted := crud_team_remove team_id in
      await log py (u_id current_user) "team_deleted" "team" team_id None in
      ret deleted
  end.

Definition update_member_role (team_id user_id : UUID) (role : MemberRole)
    (current_user : User) : M TeamMember :=
  let* team := crud_team_get team_id in
  match team with
  | None => raise (not_found "Team" (Some (uuid_str py team_id)))
  | Some team =>
      await await_none (_assert_owner_or_admin team current_user) in
      let* member := crud_update_member_role team_id user_id role in
      match member with
      | None => raise (not_found "TeamMember" None)
      | Some m => ret m
      end
  end.

(* --------------------------------------------------------------------- *)
(** *** [app/crud/task.py], [app/services/task_service.py],
        [app/api/v1/tasks.py]: creating tasks, the tasks of a team *)
(* --------------------------------------------------------------------- *)

Record TaskCreate := {
  tc_title : string;
  tc_description : option string;
  tc_status : TaskStatus;               (* default "pending" *)
  tc_priority : TaskPriority;           (* default "medium" *)
  tc_due_date : option Z;
  tc_assigned_to_id : option UUID;
  tc_team_id : option UUID;
  tc_tags : list string
}.

(** The foreign keys of the row a [TaskCreate] describes. ([owner_id] is the
    authenticated caller's.) *)
Definition create_references_exist (d : Database) (obj_in : TaskCreate) : Prop :=
  reference_ok (users d) None (tc_assigned_to_id obj_in)
  ∧ reference_ok (teams d) None (tc_team_id obj_in).

#[global] Instance create_references_exist_dec d obj_in :
  Decision (create_references_exist d obj_in).
Proof. unfold create_references_exist. apply _. Defined.

(** [CRUDTask.create_task]; the result is the new row and its [id]. The
    flush is rejected for an assignee or a team that does not exist. *)
Definition crud_create_task (obj_in : TaskCreate) (owner : UUID) : M (UUID * Task) :=
  let* i := uuid4 in
  let* valid := query (fun d => bool_decide (create_references_exist d obj_in)) in
  await (if (valid : bool) then db_flush else db_flush_rejected IntegrityError) in
  let* created := query now in
  let task :=
    {| title := tc_title obj_in; description := tc_description obj_in;
       status := tc_status obj_in; priority := tc_priority obj_in;
       due_date := tc_due_date obj_in; owner_id := owner;
       assigned_to_id := tc_assigned_to_id obj_in;
       task_team_id := tc_team_id obj_in;
       tags := Some (tc_tags obj_in);                  (* obj_in.tags or [] *)
       is_archived := false; created_at := created |} in
  await write (set_tasks (insert i task)) in
  ret (i, task).

Definition create_task (task_in : TaskCreate) (current_user : User) : M (UUID * Task) :=
  await
    match tc_team_id task_in with
    | Some team_id =>
        let* member := get_member team_id (u_id current_user) in
        match member with
        | None =>
            if decide (u_role current_user ≠ RoleAdmin)
            then raise (ForbiddenException
                          "You must be a member of the team to create tasks for it")
            else ret tt
        | Some _ => ret tt
        end
    | None => ret tt
    end in
  let* '(task_id, task) := crud_create_task task_in (u_id current_user) in
  await log py (u_id current_user) "task_created" "task" task_id
          (Some [("title", MStr (title task));
                 ("status", MStr (status_str (status task)));
                 ("priority", MStr (priority_str (priority task)))]) in
  (* Notify assignee if different from creator *)
  await
    match assigned_to_id task with
    | Some assignee =>
        if decide (assignee ≠ u_id current_user)
        then notify_task_assigned py assignee task_id (title task)
               (u_username current_user)
        else ret tt
    | None => ret tt
    end in
  ret (task_id, task).

(** [WHERE team_id = :team_id], with [AND is_archived IS FALSE] unless
    [include_archived]. *)
Definition team_task (team_id : UUID) (include_archived : bool)
    (row : UUID * Task) : Prop :=
  task_team_id row.2 = Some team_id
  ∧ (include_archived = false → is_archived row.2 = false).

#[global] Instance team_task_dec team_id include_archived row :
  Decision (team_task team_id include_archived row).
Proof. unfold team_task. apply _. Defined.

(** [CRUDTask.list_by_team]. *)
Definition list_by_team (team_id : UUID) (skip limit : nat) (include_archived : bool)
    : M (list (UUID * Task) * nat) :=
  query (fun d =>
    let rows := filter (team_task team_id include_archived) (map_to_list (tasks d)) in
    let total := length rows in
    (take limit (drop skip (merge_sort newest_first rows)), total)).

(** [GET /tasks/team/{team_id}]. *)
Definition list_team_tasks (team_id : UUID) (current_user : User)
    (page size : positive) (include_archived : bool) : M (list (UUID * Task) * nat) :=
  list_by_team team_id ((Pos.to_nat page - 1) * Pos.to_nat size) (Pos.to_nat size)
    include_archived.

End Services.

(* --------------------------------------------------------------------- *)
(** *** What the further statements are written with *)
(* --------------------------------------------------------------------- *)

(** Who may rename or delete a team and change roles in it. *)
Definition owner_or_admin (team : Team) (user : User) : Prop :=
  u_role user = RoleAdmin ∨ team_owner_id team = u_id user.

#[global] Instance owner_or_admin_dec team user : Decision (owner_or_admin team user).
Proof. unfold owner_or_admin. apply _. Defined.

Definition owner_only : Exception :=
  ForbiddenException "Only the team owner or admin can perform this action".

(** What an operation reserved to the team's owner raises. *)
Definition owner_operation_error (py : PyRuntime) (d : Database) (team_id : UUID)
    (user : User) : Exception :=
  match teams d !! team_id with
  | None => not_found "Team" (Some (uuid_str py team_id))
  | Some team => if decide (owner_or_admin team user) then TypeError else owner_only
  end.

Definition members_only : Exception :=
  ForbiddenException "You must be a member of the team to create tasks for it".

(** The number of a user's unread notifications. *)
Definition unread (d : Database) (user_id : UUID) : nat :=
  length (filter (unread_of user_id) (notifications d)).

(** Every team has its owner among its members, every membership belongs to
    a team. *)
Definition teams_ok (d : Database) : Prop :=
  owners_are_members d ∧ memberships_have_teams d.

(** The operations of the team service that write. *)
Inductive TeamOp : Type :=
  | OpCreateTeam (name : string) (current_user : User)
  | OpAddMember (team_id : UUID) (member_in : TeamMemberAdd) (current_user : User)
  | OpRemoveMember (team_id user_id : UUID) (current_user : User).

Definition run_team_op (py : PyRuntime) (op : TeamOp) : M unit :=
  match op with
  | OpCreateTeam name u => await create_team py name u in ret tt
  | OpAddMember tid member_in u => await add_member py tid member_in u in ret tt
  | OpRemoveMember tid uid u => remove_member py tid uid u
  end.

(** The operations of the task service that write. *)
Inductive TaskOp : Type :=
  | OpCreateTask (task_in : TaskCreate) (current_user : User)
  | OpUpdateTask (task_id : UUID) (task_in : TaskUpdate) (current_user : User)
  | OpAssignTask (task_id assignee_id : UUID) (current_user : User)
  | OpDeleteTask (task_id : UUID) (current_user : User).

Definition run_task_op (py : PyRuntime) (op : TaskOp) : M unit :=
  match op with
  | OpCreateTask task_in u => await create_task py task_in u in ret tt
  | OpUpdateTask task_id task_in u => await update_task py task_id task_in u in ret tt
  | OpAssignTask task_id a u => await assign_task py task_id a u in ret tt
  | OpDeleteTask task_id u => await delete_task py task_id u in ret tt
  end.


(** A task with the archive flag set. *)
Definition archive_of (task : Task) : Task :=
  {| title := title task; description := description task; status := status task;
     priority := priority task; due_date := due_date task; owner_id := owner_id task;
     assigned_to_id := assigned_to_id task; task_team_id := task_team_id task;
     tags := tags task; is_archived := true; created_at := created_at task |}.

(** Who may create a task for the team given in [task_in], if any: the
    holders of a membership row and admins. *)
Definition may_create_for (d : Database) (task_in : TaskCreate) (user : User) : Prop :=
  match tc_team_id task_in with
  | Some team_id =>
      is_Some (team_members d !! (team_id, u_id user)) ∨ u_role user = RoleAdmin
  | None => True
  end.

#[global] Instance may_create_for_dec d task_in user :
  Decision (may_create_for d task_in user).
Proof. unfold may_create_for. destruct (tc_team_id task_in); apply _. Defined.


(** A computation that leaves users, teams and memberships as they are,
    whatever its outcome. *)
Definition keeps_teams {A} (c : M A) : Prop :=
  ∀ w, users (db (c w).2) = users (db w)
       ∧ teams (db (c w).2) = teams (db w)
       ∧ team_members (db (c w).2) = team_members (db w).

(** A task for team 20, dave's team without membership rows. *)
Definition task_for_ops : TaskCreate :=
  {| tc_title := "rota"; tc_description := None; tc_status := Pending;
     tc_priority := Medium; tc_due_date := None; tc_assigned_to_id := Some 2%N;
     tc_team_id := Some 20%N; tc_tags := [] |}.


(** [TaskUpdate(team_id=...)]: nothing set but the team. *)
Definition move_to (team_id : UUID) : TaskUpdate :=
  {| upd_title := None; upd_description := None; upd_status := None;
     upd_priority := None; upd_due_date := None; upd_assigned_to_id := None;
     upd_team_id := Some (Some team_id); upd_tags := None |}.

(* ===================================================================== *)
(** ** Registry: one step *)
(* ===================================================================== *)

Lemma emits_nil w : emits [] w = w.
Proof. destruct w; unfold emits; simpl. by rewrite app_nil_r. Qed.

Lemma emit_emits e evs w : emits evs (emit e w) = emits (e :: evs) w.
Proof. unfold emits, emit; simpl. by rewrite <- app_assoc. Qed.

Lemma connect_registry_lookup ws u c :
  connect_registry ws u c !! u = Some (handles_of c u ++ [ws]).
Proof.
  unfold connect_registry, handles_of.
  destruct (c !! u) as [l|] eqn:E; simpl.
  - rewrite lookup_insert_eq. by rewrite E.
  - rewrite lookup_insert_eq. by rewrite lookup_insert_eq.
Qed.

Lemma connect_registry_other ws u u' c :
  u' ≠ u → connect_registry ws u c !! u' = c !! u'.
Proof.
  intros Hne. unfold connect_registry.
  destruct (c !! u); rewrite ?lookup_insert_ne by done; done.
Qed.

Lemma disconnect_registry_handles ws u c :
  handles_of (disconnect_registry ws u c) u = remove_or_keep ws (handles_of c u).
Proof.
  unfold disconnect_registry, handles_of.
  destruct (c !! u) as [l|] eqn:E; simpl.
  - destruct (remove_or_keep ws l) eqn:El.
    + by rewrite lookup_delete_eq.
    + by rewrite lookup_insert_eq.
  - by rewrite E.
Qed.

Lemma disconnect_registry_other ws u u' c :
  u' ≠ u → disconnect_registry ws u c !! u' = c !! u'.
Proof.
  intros Hne. unfold disconnect_registry.
  destruct (c !! u) as [l|]; [|done].
  destruct (remove_or_keep ws l).
  - by rewrite lookup_delete_ne.
  - by rewrite lookup_insert_ne.
Qed.

Lemma connect_registry_ok ws u c : registry_ok c → registry_ok (connect_registry ws u c).
Proof.
  intros Hok u' l. destruct (decide (u' = u)) as [->|Hne].
  - rewrite connect_registry_lookup. intros [= <-]. by destruct (handles_of c u).
  - rewrite connect_registry_other by done. apply Hok.
Qed.

Lemma disconnect_registry_ok ws u c :
  registry_ok c → registry_ok (disconnect_registry ws u c).
Proof.
  intros Hok u' l. destruct (decide (u' = u)) as [->|Hne].
  - unfold disconnect_registry. destruct (c !! u) as [l0|] eqn:E.
    + destruct (remove_or_keep ws l0) eqn:El.
      * by rewrite lookup_delete_eq.
      * rewrite lookup_insert_eq. by intros [= <-].
    + by rewrite E.
  - rewrite disconnect_registry_other by done. apply Hok.
Qed.

(** Removing, one occurrence each, the broken handles of a list leaves its
    working handles. *)
Lemma remove_broken_aux (bad : WebSocket → Prop) `{!∀ x, Decision (bad x)} l pre :
  Forall (λ x, ¬ bad x) pre →
  foldl (λ acc ws, remove_or_keep ws acc) (pre ++ l) (filter bad l)
  = pre ++ filter (λ x, ¬ bad x) l.
Proof.
  revert pre. induction l as [|x l IH]; intros pre Hpre; [done|].
  rewrite !filter_cons. destruct (decide (bad x)) as [Hx|Hx].
  - rewrite decide_False by tauto. simpl.
    assert (remove_or_keep x (pre ++ x :: l) = pre ++ l) as ->; [|by apply IH].
    unfold remove_or_keep. clear IH. induction pre as [|p pre IHp]; simpl.
    + by rewrite decide_True.
    + inversion Hpre as [|? ? Hp Hpre']; subst.
      rewrite decide_False by (intros ->; tauto).
      specialize (IHp Hpre').
      destruct (list_remove_first x (pre ++ x :: l)); simpl in *; congruence.
  - rewrite decide_True by done.
    replace (pre ++ x :: l) with ((pre ++ [x]) ++ l) by (by rewrite <- app_assoc).
    replace (pre ++ x :: filter (λ x, ¬ bad x) l)
      with ((pre ++ [x]) ++ filter (λ x, ¬ bad x) l) by (by rewrite <- app_assoc).
    apply IH. apply Forall_app; split; [done|]. by constructor.
Qed.

Lemma remove_broken (bad : WebSocket → Prop) `{!∀ x, Decision (bad x)} l :
  foldl (λ acc ws, remove_or_keep ws acc) l (filter bad l) = filter (λ x, ¬ bad x) l.
Proof. apply (remove_broken_aux bad l []). constructor. Qed.

(* ---- loops ---- *)
Lemma send_loop {D} (mark : WebSocket → D) message conns dead w :
  for_each conns dead (send_or_mark mark message) w
  = (Ok (dead ++ (mark <$> filter (λ ws, ws ∈ broken w) conns)),
     emits (send_event w message <$> conns) w).
Proof.
  revert dead w. induction conns as [|ws conns IH]; intros dead w; simpl.
  - unfold ret. by rewrite app_nil_r, emits_nil.
  - unfold bind at 1. unfold send_or_mark at 1, try_except, bind, send_text, ret.
    rewrite filter_cons. destruct (decide (ws ∈ broken w)) as [Hb|Hb].
    + rewrite IH. simpl. rewrite emit_emits. unfold send_event at 2.
      rewrite bool_decide_eq_false_2 by tauto.
      rewrite <- app_assoc. done.
    + rewrite IH. simpl. rewrite emit_emits. unfold send_event at 2.
      rewrite bool_decide_eq_true_2 by done. done.
Qed.

Lemma disconnect_loop user_id dead w :
  for_each dead tt (λ ws _, disconnect ws user_id) w
  = (Ok tt, set_connections
              (λ c, foldl (λ c ws, disconnect_registry ws user_id c) c dead) w).
Proof.
  revert w. induction dead as [|ws dead IH]; intros w; simpl.
  - by destruct w.
  - unfold bind, disconnect at 1. rewrite IH. by destruct w.
Qed.

Lemma disconnect_all_handles user_id dead c :
  handles_of (foldl (λ c ws, disconnect_registry ws user_id c) c dead) user_id
  = foldl (λ acc ws, remove_or_keep ws acc) (handles_of c user_id) dead.
Proof.
  revert c. induction dead as [|ws dead IH]; intros c; simpl; [done|].
  by rewrite IH, disconnect_registry_handles.
Qed.

Lemma disconnect_all_other user_id u' dead c :
  u' ≠ user_id →
  foldl (λ c ws, disconnect_registry ws user_id c) c dead !! u' = c !! u'.
Proof.
  intros Hne. revert c. induction dead as [|ws dead IH]; intros c; simpl; [done|].
  by rewrite IH, disconnect_registry_other.
Qed.

Lemma disconnect_all_ok user_id dead c :
  registry_ok c → registry_ok (foldl (λ c ws, disconnect_registry ws user_id c) c dead).
Proof.
  revert c. induction dead as [|ws dead IH]; intros c Hc; simpl; [done|].
  apply IH. by apply disconnect_registry_ok.
Qed.

(** What [send_personal_message] does, in one equation. *)
Lemma send_personal_message_eq py user_id data w :
  send_personal_message py user_id data w
  = (Ok tt,
     set_connections
       (λ c, foldl (λ c ws, disconnect_registry ws user_id c) c
               (filter (λ ws, ws ∈ broken w) (handles w user_id)))
       (emits (send_event w (json_dumps py data) <$> handles w user_id) w)).
Proof.
  unfold send_personal_message. destruct (handles w user_id) as [|ws l] eqn:E.
  - simpl. destruct w; unfold set_connections, emits; simpl. by rewrite app_nil_r.
  - unfold bind at 1. rewrite send_loop. unfold bind. rewrite disconnect_loop.
    simpl. unfold ret. by rewrite list_fmap_id.
Qed.

(* ===================================================================== *)
(** ** Registry: reachable states *)
(* ===================================================================== *)

Lemma emits_emits a b w : emits a (emits b w) = emits (b ++ a) w.
Proof. unfold emits; simpl. by rewrite <- app_assoc. Qed.

Lemma broadcast_send_loop message pairs dead w :
  for_each pairs dead
    (λ '(user_id, conns) dead,
       for_each conns dead (send_or_mark (λ ws, (ws, user_id)) message)) w
  = (Ok (dead ++ mjoin ((λ p : string * list WebSocket,
                           (λ ws, (ws, p.1)) <$> filter (λ ws, ws ∈ broken w) p.2)
                        <$> pairs)),
     emits (mjoin ((λ p : string * list WebSocket,
                      send_event w message <$> p.2) <$> pairs)) w).
Proof.
  revert dead w. induction pairs as [|[u conns] pairs IH]; intros dead w; simpl.
  - unfold ret. by rewrite app_nil_r, emits_nil.
  - unfold bind. rewrite send_loop, IH. simpl.
    rewrite emits_emits, <- app_assoc. done.
Qed.

Lemma pair_disconnect_loop (dead : list (WebSocket * string)) w :
  for_each dead tt (λ '(ws, user_id) _, disconnect ws user_id) w
  = (Ok tt, set_connections (λ c, foldl pair_disconnect c dead) w).
Proof.
  revert w. induction dead as [|[ws u] dead IH]; intros w; simpl.
  - by destruct w.
  - unfold bind, disconnect at 1. rewrite IH. by destruct w.
Qed.

Lemma pair_disconnect_ok dead c :
  registry_ok c → registry_ok (foldl pair_disconnect c dead).
Proof.
  revert c. induction dead as [|d dead IH]; intros c Hc; simpl; [done|].
  apply IH. by apply disconnect_registry_ok.
Qed.

Lemma broadcast_eq py data w :
  ∃ dead evs,
    broadcast py data w
    = (Ok tt, set_connections (λ c, foldl pair_disconnect c dead) (emits evs w)).
Proof.
  unfold broadcast. unfold bind at 1. rewrite broadcast_send_loop.
  unfold bind. rewrite pair_disconnect_loop. unfold ret. eauto.
Qed.

Lemma run_op_ok py op w :
  registry_ok (connections w) → registry_ok (connections (run_op py op w).2).
Proof.
  intros Hok. destruct op as [ws u|ws u|u data|data]; simpl.
  - by apply connect_registry_ok.
  - by apply disconnect_registry_ok.
  - rewrite send_personal_message_eq. simpl. by apply disconnect_all_ok.
  - destruct (broadcast_eq py data w) as (dead & evs & ->). simpl.
    by apply pair_disconnect_ok.
Qed.

Lemma run_op_returns py op w : (run_op py op w).1 = Ok tt.
Proof.
  destruct op as [ws u|ws u|u data|data]; simpl; try done.
  - by rewrite send_personal_message_eq.
  - by destruct (broadcast_eq py data w) as (dead & evs & ->).
Qed.

Lemma reachable_ok py w : reachable py w → registry_ok (connections w).
Proof.
  induction 1 as [w Hw|w op _ IH|w w' _ IH Heq].
  - rewrite Hw. intros u l. by rewrite lookup_empty.
  - by apply run_op_ok.
  - by rewrite Heq.
Qed.

Lemma is_connected_handles c u :
  is_connected_registry c u = true ↔ handles_of c u ≠ [].
Proof.
  unfold is_connected_registry, handles_of.
  destruct (c !! u) as [[|x l]|]; simpl; split; try done.
Qed.

Lemma is_connected_handles_false c u :
  is_connected_registry c u = false ↔ handles_of c u = [].
Proof.
  unfold is_connected_registry, handles_of.
  destruct (c !! u) as [[|x l]|]; simpl; split; try done.
Qed.

Lemma registry_ok_absent c u : registry_ok c → handles_of c u = [] → c !! u = None.
Proof.
  unfold handles_of. intros Hok. destruct (c !! u) as [l|] eqn:E; [|done].
  simpl. intros ->. by destruct (Hok _ _ E).
Qed.

Lemma connect_disconnect_registry ws u c :
  c !! u = None → disconnect_registry ws u (connect_registry ws u c) = c.
Proof.
  intros Hc. unfold disconnect_registry. rewrite connect_registry_lookup.
  unfold handles_of. rewrite Hc. simpl. unfold remove_or_keep. simpl.
  rewrite decide_True by done. unfold connect_registry. rewrite Hc.
  rewrite delete_insert_eq, delete_insert_eq. by apply delete_id.
Qed.

Lemma registry_facts py w :
  reachable py w →
  registry_ok (connections w)
  ∧ (∀ u, is_connected_registry (connections w) u = true ↔ handles w u ≠ [])
  ∧ (∀ u, is_Some (connections w !! u) ↔ handles w u ≠ [])
  ∧ (∀ ws u, handles w u = [] →
       let w1 := (connect ws u w).2 in
       let w2 := (disconnect ws u w1).2 in
       (is_connected u w).1 = Ok false
       ∧ (is_connected u w1).1 = Ok true
       ∧ (is_connected u w2).1 = Ok false
       ∧ connections w2 = connections w).
Proof.
  intros Hr. pose proof (reachable_ok py w Hr) as Hok.
  split; [done|]. split; [intros u; apply is_connected_handles|]. split.
  - intros u. unfold handles, handles_of. split.
    + intros [l Hl]. rewrite Hl. simpl. by apply (Hok u).
    + destruct (connections w !! u); [eauto|done].
  - intros ws u Hu. simpl. unfold is_connected. simpl.
    pose proof (registry_ok_absent _ _ Hok Hu) as Hnone.
    rewrite connect_disconnect_registry by done.
    repeat split; f_equal.
    + by apply is_connected_handles_false.
    + unfold is_connected_registry. rewrite connect_registry_lookup.
      by destruct (handles_of (connections w) u).
    + by apply is_connected_handles_false.
Qed.

(* ===================================================================== *)
(** ** Personal messages *)
(* ===================================================================== *)

Lemma filter_nil_not_Exists {A} (P : A → Prop) `{!∀ x, Decision (P x)} (l : list A) :
  filter P l = [] ↔ ¬ Exists P l.
Proof.
  induction l as [|x l IH]; simpl.
  - split; [|done]. intros _ He. inversion He.
  - rewrite filter_cons. destruct (decide (P x)) as [Hx|Hx].
    + split; [done|]. intros He. destruct He. by left.
    + rewrite IH. split.
      * intros Hn He. inversion He; subst; tauto.
      * intros Hn He. apply Hn. by right.
Qed.

Lemma send_personal_message_facts py user_id data w :
  let l := handles w user_id in
  let message := json_dumps py data in
  ∃ w',
    send_personal_message py user_id data w = (Ok tt, w')
    ∧ trace w' = trace w ++ ((λ ws, WsSendText ws message (bool_decide (ws ∉ broken w))) <$> l)
    ∧ handles w' user_id = filter (λ ws, ws ∉ broken w) l
    ∧ delete user_id (connections w') = delete user_id (connections w)
    ∧ (is_connected user_id w').1
      = Ok (bool_decide (Exists (λ ws, ws ∉ broken w) l))
    ∧ db w' = db w ∧ broken w' = broken w
    ∧ (l = [] → w' = w).
Proof.
  intros l message. rewrite send_personal_message_eq. eexists. split; [done|].
  simpl. fold l. split; [done|]. split; [|split; [|split; [|split; [done|split; [done|]]]]].
  - unfold handles. simpl. rewrite disconnect_all_handles.
    apply (remove_broken (λ ws, ws ∈ broken w)).
  - apply map_eq. intros u. destruct (decide (u = user_id)) as [->|Hne].
    + by rewrite !lookup_delete_eq.
    + rewrite !lookup_delete_ne by done. by apply disconnect_all_other.
  - unfold is_connected. simpl. f_equal.
    pose proof (disconnect_all_handles user_id
                  (filter (λ ws, ws ∈ broken w) l) (connections w)) as Hh.
    fold (handles w user_id) in Hh. fold l in Hh.
    rewrite (remove_broken (λ ws, ws ∈ broken w)) in Hh.
    destruct (is_connected_registry _ user_id) eqn:E.
    + apply is_connected_handles in E. rewrite Hh in E.
      symmetry. apply bool_decide_eq_true_2.
      destruct (decide (Exists (λ ws, ws ∉ broken w) l)) as [|Hn]; [done|].
      destruct E. by apply (filter_nil_not_Exists (λ ws, ws ∉ broken w) l).
    + apply is_connected_handles_false in E. rewrite Hh in E.
      symmetry. apply bool_decide_eq_false_2.
      by apply (filter_nil_not_Exists (λ ws, ws ∉ broken w) l).
  - intros ->. simpl. destruct w; unfold set_connections, emits; simpl.
    by rewrite app_nil_r.
Qed.

(* ===================================================================== *)
(** ** Running computations; notifications *)
(* ===================================================================== *)

Lemma bind_Ok {A B} (c : M A) (k : A → M B) w a w1 :
  c w = (Ok a, w1) → bind c k w = k a w1.
Proof. intros H. unfold bind. by rewrite H. Qed.

Lemma bind_Ok_inv {A B} (c : M A) (k : A → M B) w b w' :
  bind c k w = (Ok b, w') → ∃ a w1, c w = (Ok a, w1) ∧ k a w1 = (Ok b, w').
Proof.
  unfold bind. destruct (c w) as [[a|e] w1]; [eauto|done].
Qed.

Lemma db_flush_eq w :
  db_flush w = (if flush_ok w then Ok tt else Raise SQLAlchemyError,
                emit (DbFlush (flush_ok w)) (pop_fault w)).
Proof. unfold db_flush, flush_ok. by destruct (db_faults w) as [|[] ?]. Qed.

Lemma create_notification_eq user_id message type reference_id w :
  create_notification user_id message type reference_id w
  = if flush_ok w
    then let n := new_notification w user_id message type reference_id in
         (Ok n, stored n w)
    else (Raise SQLAlchemyError, emit (DbFlush false) (pop_fault (next_uuid w))).
Proof.
  unfold create_notification, bind, uuid4. rewrite db_flush_eq.
  replace (flush_ok (next_uuid w)) with (flush_ok w) by done.
  by destruct (flush_ok w).
Qed.

Lemma notify_user_eq py user_id message type reference_id w :
  notify_user py user_id message type reference_id w
  = if flush_ok w
    then let n := new_notification w user_id message type reference_id in
         send_personal_message py (uuid_str py user_id)
           (notification_payload py n message type reference_id) (stored n w)
    else (Raise SQLAlchemyError, emit (DbFlush false) (pop_fault (next_uuid w))).
Proof.
  unfold notify_user. unfold bind at 1. rewrite create_notification_eq.
  destruct (flush_ok w); [|done]. simpl.
  unfold bind, is_connected.
  destruct (is_connected_registry _ _) eqn:E; [done|].
  apply is_connected_handles_false in E.
  rewrite send_personal_message_eq. unfold handles. rewrite E. simpl.
  unfold ret, stored, set_connections, emits, set_db, emit; simpl.
  by rewrite app_nil_r.
Qed.

(* ===================================================================== *)
(** ** Activity log, team privileges, membership *)
(* ===================================================================== *)

(** Unfold one [bind] of a hypothesis [H : bind c k w = (Ok b, w')]. *)
Ltac inv_bind H a w1 Hc :=
  apply bind_Ok_inv in H as (a & w1 & Hc & H).

Ltac inv_query H :=
  match type of H with
  | query _ _ = _ => unfold query in H; injection H as <- <-
  | crud_team_get _ _ = _ => unfold crud_team_get in H; inv_query H
  | crud_user_get _ _ = _ => unfold crud_user_get in H; inv_query H
  | crud_task_get _ _ = _ => unfold crud_task_get in H; inv_query H
  | get_member _ _ _ = _ => unfold get_member in H; inv_query H
  end.

Lemma log_eq py user_id action entity_type entity_id meta w :
  log py user_id action entity_type entity_id meta w
  = if meta_serializable meta && flush_ok w
    then let entry := new_entry w user_id action entity_type entity_id meta in
         (Ok entry,
          set_db (add_activity_log entry) (emit (DbFlush true) (pop_fault (next_uuid w))))
    else (Raise SQLAlchemyError,
          emit (LoggerError (log_message py user_id action entity_type SQLAlchemyError))
            (emit (DbFlush false) (pop_fault (next_uuid w)))).
Proof.
  unfold log, try_except, bind, uuid4.
  destruct (meta_serializable meta); [|done].
  rewrite db_flush_eq.
  replace (flush_ok (next_uuid w)) with (flush_ok w) by done.
  by destruct (flush_ok w).
Qed.

Lemma log_Ok py user_id action entity_type entity_id meta w entry w' :
  log py user_id action entity_type entity_id meta w = (Ok entry, w') →
  db w' = add_activity_log entry (db w) ∧ connections w' = connections w.
Proof.
  rewrite log_eq. destruct (meta_serializable meta && flush_ok w); [|done].
  simpl. by intros [= <- <-].
Qed.

Lemma notify_user_Ok py user_id message type reference_id w w' :
  notify_user py user_id message type reference_id w = (Ok tt, w') →
  db w' = add_notification (new_notification w user_id message type reference_id) (db w).
Proof.
  rewrite notify_user_eq. destruct (flush_ok w); [|done]. simpl.
  rewrite send_personal_message_eq. by intros [= <-].
Qed.

Lemma _assert_manager_or_admin_eq team_id team user w :
  _assert_manager_or_admin team_id team user w
  = (if decide (can_manage (db w) team_id team user) then Ok tt else Raise managers_only,
     w).
Proof.
  unfold _assert_manager_or_admin.
  destruct (decide (can_manage (db w) team_id team user)) as [Hc|Hc];
    unfold can_manage in Hc.
  - destruct (decide (u_role user = RoleAdmin ∨ team_owner_id team = u_id user))
      as [Ha|Ha]; [done|].
    unfold bind, get_member, query. simpl.
    destruct Hc as [?|[?|Hc]]; [tauto|tauto|]. by rewrite Hc.
  - rewrite decide_False by tauto.
    unfold bind, get_member, query. simpl.
    destruct (team_members (db w) !! (team_id, u_id user)) as [[]|] eqn:E; simpl;
      [done| |done].
    destruct Hc. by right; right.
Qed.

Lemma crud_add_member_Ok team_id user_id role w member w' :
  crud_add_member team_id user_id role w = (Ok member, w') →
  team_members (db w) !! (team_id, user_id) = None
  ∧ db w' = set_team_members (insert (team_id, user_id) role) (db w)
  ∧ member = {| tm_team_id := team_id; tm_user_id := user_id; tm_role := role |}.
Proof.
  unfold crud_add_member, bind, query. simpl.
  destruct (team_members (db w) !! (team_id, user_id)); [done|].
  rewrite db_flush_eq. destruct (flush_ok w); [|done].
  unfold write, ret. simpl. by intros [= <- <-].
Qed.

Lemma add_member_existing py team_id member_in current_user w team :
  teams (db w) !! team_id = Some team →
  can_manage (db w) team_id team current_user →
  is_Some (users (db w) !! tma_user_id member_in) →
  is_Some (team_members (db w) !! (team_id, tma_user_id member_in)) →
  add_member py team_id member_in current_user w = (Raise already_member, w).
Proof.
  intros Ht Hc [target Hu] [r Hm].
  unfold add_member, bind, crud_team_get, crud_user_get, get_member, query.
  rewrite Ht, _assert_manager_or_admin_eq, decide_True by done.
  simpl. rewrite Hu, Hm. done.
Qed.

Lemma add_member_never_duplicates py team_id member_in current_user w :
  is_Some (team_members (db w) !! (team_id, tma_user_id member_in)) →
  ∃ e, add_member py team_id member_in current_user w = (Raise e, w).
Proof.
  intros [r Hm].
  unfold add_member, bind, crud_team_get, crud_user_get, get_member, query.
  destruct (teams (db w) !! team_id) as [team|]; [|by eexists].
  rewrite _assert_manager_or_admin_eq.
  destruct (decide (can_manage _ _ _ _)); [|by eexists]. simpl.
  destruct (users (db w) !! tma_user_id member_in); [|by eexists].
  rewrite Hm. simpl. by eexists.
Qed.

Lemma add_member_Ok py team_id member_in current_user w member w' :
  add_member py team_id member_in current_user w = (Ok member, w') →
  ∃ team,
    teams (db w) !! team_id = Some team
    ∧ can_manage (db w) team_id team current_user
    ∧ is_Some (users (db w) !! tma_user_id member_in)
    ∧ team_members (db w) !! (team_id, tma_user_id member_in) = None
    ∧ member = {| tm_team_id := team_id; tm_user_id := tma_user_id member_in;
                  tm_role := tma_role member_in |}
    ∧ users (db w') = users (db w) ∧ teams (db w') = teams (db w)
    ∧ tasks (db w') = tasks (db w)
    ∧ team_members (db w')
      = <[(team_id, tma_user_id member_in) := tma_role member_in]> (team_members (db w)).
Proof.
  intros H. unfold add_member in H.
  inv_bind H team w1 H1. inv_query H1.
  destruct (teams (db w) !! team_id) as [team|] eqn:Ht; [|done].
  inv_bind H x w1 H1. rewrite _assert_manager_or_admin_eq in H1.
  destruct (decide (can_manage (db w) team_id team current_user)) as [Hc|]; [|done].
  injection H1 as _ <-.
  inv_bind H target w1 H1. inv_query H1.
  destruct (users (db w) !! tma_user_id member_in) as [tu|] eqn:Hu; [|done].
  inv_bind H existing w1 H1. inv_query H1.
  destruct (team_members (db w) !! (team_id, tma_user_id member_in)) eqn:Hm; [done|].
  simpl in H.
  inv_bind H m w1 H1. apply crud_add_member_Ok in H1 as (_ & Hdb1 & ->).
  inv_bind H x1 w2 H2. destruct x1. apply notify_user_Ok in H2.
  inv_bind H entry w3 H3. apply log_Ok in H3 as [H3 _].
  injection H as <- <-.
  exists team. rewrite H3, H2, Hdb1. simpl. eauto 10.
Qed.

Lemma add_member_facts py team_id member_in current_user w member w' :
  add_member py team_id member_in current_user w = (Ok member, w') →
  team_members (db w) !! (team_id, tma_user_id member_in) = None
  ∧ team_members (db w')
    = <[(team_id, tma_user_id member_in) := tma_role member_in]> (team_members (db w))
  ∧ size (team_members (db w')) = S (size (team_members (db w)))
  ∧ (∀ role',
       add_member py team_id
         {| tma_user_id := tma_user_id member_in; tma_role := role' |} current_user w'
       = (Raise already_member, w')).
Proof.
  intros H. apply add_member_Ok in H
    as (team & Ht & Hc & Hu & Hm & -> & Hus & Hts & _ & Hms).
  split; [done|]. split; [done|]. split.
  { rewrite Hms. by apply map_size_insert_None. }
  intros role'. apply (add_member_existing _ _ _ _ _ team); simpl.
  - by rewrite Hts.
  - destruct Hc as [?|[?|Hc]]; [by left|by right; left|right; right].
    rewrite Hms. rewrite lookup_insert_ne; [done|]. intros [= E]. congruence.
  - by rewrite Hus.
  - rewrite Hms, lookup_insert_eq. eauto.
Qed.

(* ===================================================================== *)
(** ** Task permissions *)
(* ===================================================================== *)

Lemma _assert_can_modify_eq task user w :
  _assert_can_modify task user w
  = (if decide (can_modify (db w) task user) then Ok tt else Raise modify_denied, w).
Proof.
  unfold _assert_can_modify.
  destruct (decide (can_modify (db w) task user)) as [Hc|Hc];
    unfold can_modify, manages_team_of in Hc.
  - destruct (decide (u_role user = RoleAdmin)); [done|].
    destruct (decide (owner_id task = u_id user)); [done|].
    destruct Hc as [?|[?|Hc]]; [tauto|tauto|].
    destruct (task_team_id task) as [tid|]; [|done].
    unfold bind, get_member, query. simpl. by rewrite Hc.
  - rewrite !decide_False by tauto.
    destruct (task_team_id task) as [tid|]; [|done].
    unfold bind, get_member, query. simpl.
    destruct (team_members (db w) !! (tid, u_id user)) as [[]|]; simpl; [done| |done].
    destruct Hc. by right; right.
Qed.

Lemma _assert_can_view_eq task user w :
  _assert_can_view task user w
  = (if decide (can_view (db w) task user) then Ok tt else Raise view_denied, w).
Proof.
  unfold _assert_can_view.
  destruct (decide (can_view (db w) task user)) as [Hc|Hc];
    unfold can_view, member_of_team_of in Hc.
  - destruct (decide (u_role user = RoleAdmin)); [done|].
    destruct (decide (owner_id task = u_id user ∨ assigned_to_id task = Some (u_id user)));
      [done|].
    destruct Hc as [?|[?|[?|Hc]]]; [tauto|tauto|tauto|].
    destruct (task_team_id task) as [tid|]; [|done].
    unfold bind, get_member, query. simpl. destruct Hc as [r Hr]. by rewrite Hr.
  - rewrite !decide_False by tauto.
    destruct (task_team_id task) as [tid|]; [|done].
    unfold bind, get_member, query. simpl.
    destruct (team_members (db w) !! (tid, u_id user)) as [r|] eqn:E; simpl; [|done].
    destruct Hc. right; right; right. eauto.
Qed.

Lemma never_forbidden_bind {A B} (c : M A) (k : A → M B) :
  never_forbidden c → (∀ a, never_forbidden (k a)) → never_forbidden (bind c k).
Proof.
  intros Hc Hk w e w'. unfold bind. destruct (c w) as [[a|e1] w1] eqn:E.
  - apply Hk.
  - intros [= <- <-]. by apply (Hc _ _ _ E).
Qed.

Lemma never_forbidden_ret {A} (a : A) : never_forbidden (ret a).
Proof. by intros w e w'. Qed.

Lemma never_forbidden_log py user_id action entity_type entity_id meta :
  never_forbidden (log py user_id action entity_type entity_id meta).
Proof.
  intros w e w'. rewrite log_eq.
  destruct (meta_serializable meta && flush_ok w); [done|]. by intros [= <- _].
Qed.

Lemma never_forbidden_notify_user py user_id message type reference_id :
  never_forbidden (notify_user py user_id message type reference_id).
Proof.
  intros w e w'. rewrite notify_user_eq. destruct (flush_ok w).
  - simpl. by rewrite send_personal_message_eq.
  - by intros [= <- _].
Qed.

Lemma never_forbidden_flush : never_forbidden db_flush.
Proof.
  intros w e w'. rewrite db_flush_eq. destruct (flush_ok w); [done|]. by intros [= <- _].
Qed.

Lemma never_forbidden_crud_task_update task_id db_obj obj_in :
  never_forbidden (crud_task_update task_id db_obj obj_in).
Proof.
  unfold crud_task_update. destruct (apply_task_update obj_in db_obj).
  - apply never_forbidden_bind; [by intros ???|]. intros [|].
    + apply never_forbidden_bind; [apply never_forbidden_flush|]. intros _.
      apply never_forbidden_bind; [by intros ???|]. intros _. apply never_forbidden_ret.
    + by intros w e w' [= <- _].
  - by intros w e w' [= <- _].
Qed.

Lemma never_forbidden_archive task_id task : never_forbidden (archive task_id task).
Proof.
  unfold archive.
  apply never_forbidden_bind; [apply never_forbidden_flush|]. intros _.
  apply never_forbidden_bind; [by intros ???|]. intros _. apply never_forbidden_ret.
Qed.

Create HintDb forbid.
#[local] Hint Resolve never_forbidden_ret never_forbidden_log never_forbidden_notify_user
  never_forbidden_crud_task_update never_forbidden_archive : forbid.

Ltac forbid :=
  repeat first
    [ solve [eauto with forbid]
    | apply never_forbidden_bind; [|intros ?]
    | progress unfold notify_task_assigned, notify_task_updated
    | case_match ].

(** Once the task is found, a modify operation is the permission check
    followed by work that raises no Forbidden error. *)
Lemma gated_forbidden {A} (k : M A) task user w :
  never_forbidden k →
  (forbidden ((await _assert_can_modify task user in k) w)
     ↔ ¬ can_modify (db w) task user)
  ∧ (¬ can_modify (db w) task user →
       (await _assert_can_modify task user in k) w = (Raise modify_denied, w)).
Proof.
  intros Hk. unfold bind. rewrite _assert_can_modify_eq.
  destruct (decide (can_modify (db w) task user)) as [Hc|Hc].
  - split; [|done]. split; [|done]. unfold forbidden.
    destruct (k w) as [[a|e] w1] eqn:E; simpl; [done|].
    rewrite (Hk _ _ _ E). done.
  - split; [|done]. by split.
Qed.

Lemma update_task_gate py task_id task_in user w task :
  tasks (db w) !! task_id = Some task →
  ∃ k, never_forbidden k
       ∧ update_task py task_id task_in user w
         = (await _assert_can_modify task user in k) w.
Proof.
  intros Ht. eexists. split; last first.
  { unfold update_task, bind at 1, crud_task_get, query. by rewrite Ht. }
  forbid.
Qed.

Lemma delete_task_gate py task_id user w task :
  tasks (db w) !! task_id = Some task →
  ∃ k, never_forbidden k
       ∧ delete_task py task_id user w = (await _assert_can_modify task user in k) w.
Proof.
  intros Ht. eexists. split; last first.
  { unfold delete_task, bind at 1, crud_task_get, query. by rewrite Ht. }
  forbid.
Qed.

Lemma assign_task_gate py task_id assignee_id user w task :
  tasks (db w) !! task_id = Some task →
  ∃ k, never_forbidden k
       ∧ assign_task py task_id assignee_id user w
         = (await _assert_can_modify task user in k) w.
Proof.
  intros Ht. eexists. split; last first.
  { unfold assign_task, bind at 1, crud_task_get, query. by rewrite Ht. }
  forbid.
Qed.

(* ===================================================================== *)
(** ** Task updates *)
(* ===================================================================== *)

Lemma crud_task_update_Ok task_id db_obj obj_in w t' w' :
  crud_task_update task_id db_obj obj_in w = (Ok t', w') →
  apply_task_update obj_in db_obj = Some t'
  ∧ db w' = set_tasks (insert task_id t') (db w).
Proof.
  unfold crud_task_update. destruct (apply_task_update obj_in db_obj) as [t|]; [|done].
  unfold bind, query. destruct (bool_decide (references_exist (db w) db_obj t)); [|done].
  rewrite db_flush_eq. destruct (flush_ok w); [|done].
  unfold write, ret. simpl. by intros [= <- <-].
Qed.

Lemma apply_task_update_owner obj_in t t' :
  apply_task_update obj_in t = Some t' → owner_id t' = owner_id t.
Proof.
  unfold apply_task_update.
  destruct (set_required (upd_title obj_in) (title t)); [|done].
  destruct (set_required (upd_status obj_in) (status t)); [|done].
  destruct (set_required (upd_priority obj_in) (priority t)); [|done].
  simpl. by intros [= <-].
Qed.

(** A notification step that may be skipped. *)
Lemma optional_notify_Ok py (cond : bool) user_id message type reference_id w w' :
  (if cond then notify_user py user_id message type reference_id else ret tt) w
  = (Ok tt, w') →
  ∃ ns,
    db w' = {| users := users (db w); teams := teams (db w);
               team_members := team_members (db w); tasks := tasks (db w);
               notifications := notifications (db w) ++ ns;
               activity_logs := activity_logs (db w); now := now (db w) |}
    ∧ notice <$> ns = if cond then [(user_id, type, reference_id)] else [].
Proof.
  destruct cond.
  - intros H. apply notify_user_Ok in H. eexists [_]. rewrite H. done.
  - intros [= <-]. exists []. rewrite app_nil_r. by destruct (db w).
Qed.

Lemma update_task_Ok py task_id task_in user w updated w' :
  update_task py task_id task_in user w = (Ok updated, w') →
  ∃ task ns,
    tasks (db w) !! task_id = Some task
    ∧ can_modify (db w) task user
    ∧ apply_task_update task_in task = Some updated
    ∧ tasks (db w') = <[task_id := updated]> (tasks (db w))
    ∧ notifications (db w') = notifications (db w) ++ ns
    ∧ notice <$> ns = expected_notices task_id task task_in user.
Proof.
  intros H. unfold update_task in H.
  inv_bind H t w1 H1. inv_query H1.
  destruct (tasks (db w) !! task_id) as [task|] eqn:Ht; [|done].
  inv_bind H x w1 H1. rewrite _assert_can_modify_eq in H1.
  destruct (decide (can_modify (db w) task user)) as [Hc|]; [|done].
  injection H1 as _ <-.
  inv_bind H upd w1 H1. apply crud_task_update_Ok in H1 as [Happ Hdb1].
  inv_bind H entry w2 H2. apply log_Ok in H2 as [Hdb2 _].
  pose proof (apply_task_update_owner _ _ _ Happ) as Hown.
  inv_bind H x1 w3 H3. destruct x1.
  inv_bind H x2 w4 H4. destruct x2. injection H as -> ->.
  assert (∃ ns1,
            db w3 = {| users := users (db w2); teams := teams (db w2);
                       team_members := team_members (db w2); tasks := tasks (db w2);
                       notifications := notifications (db w2) ++ ns1;
                       activity_logs := activity_logs (db w2); now := now (db w2) |}
            ∧ notice <$> ns1
              = match upd_assigned_to_id task_in with
                | Some (Some a) =>
                    if decide (Some a ≠ assigned_to_id task ∧ a ≠ u_id user)
                    then [(a, TaskAssigned, Some task_id)] else []
                | _ => []
                end) as (ns1 & Hdb3 & Hns1).
  { unfold attr in H3. destruct (upd_assigned_to_id task_in) as [[a|]|].
    - destruct (decide (Some a ≠ assigned_to_id task ∧ a ≠ u_id user)).
      + apply (optional_notify_Ok py true) in H3. exact H3.
      + apply (optional_notify_Ok py false a EmptyString TaskAssigned None) in H3.
        exact H3.
    - apply (optional_notify_Ok py false 0%N EmptyString TaskAssigned None) in H3.
      exact H3.
    - apply (optional_notify_Ok py false 0%N EmptyString TaskAssigned None) in H3.
      exact H3. }
  assert (∃ ns2,
            db w' = {| users := users (db w3); teams := teams (db w3);
                       team_members := team_members (db w3); tasks := tasks (db w3);
                       notifications := notifications (db w3) ++ ns2;
                       activity_logs := activity_logs (db w3); now := now (db w3) |}
            ∧ notice <$> ns2
              = if decide (owner_id task ≠ u_id user)
                then [(owner_id task, TaskUpdated, Some task_id)] else [])
    as (ns2 & Hdb4 & Hns2).
  { rewrite Hown in H4. destruct (decide (owner_id task ≠ u_id user)).
    - apply (optional_notify_Ok py true) in H4. exact H4.
    - apply (optional_notify_Ok py false 0%N EmptyString TaskUpdated None) in H4.
      exact H4. }
  exists task, (ns1 ++ ns2). split; [done|]. split; [done|]. split; [done|].
  rewrite Hdb4, Hdb3, Hdb2, Hdb1. simpl. split; [done|]. split.
  - by rewrite app_assoc.
  - rewrite fmap_app, Hns1, Hns2. done.
Qed.

Lemma calm_flush_ok w : calm w → flush_ok w = true.
Proof. unfold calm, flush_ok. by intros ->. Qed.

Lemma log_calm py user_id action entity_type entity_id meta w :
  calm w → meta_serializable meta = true →
  ∃ entry w',
    log py user_id action entity_type entity_id meta w = (Ok entry, w') ∧ calm w'.
Proof.
  intros Hc Hm. rewrite log_eq, Hm, (calm_flush_ok _ Hc). simpl. eexists _, _.
  split; [done|]. unfold calm in *. simpl. by rewrite Hc.
Qed.

Lemma notify_user_calm py user_id message type reference_id w :
  calm w →
  ∃ w', notify_user py user_id message type reference_id w = (Ok tt, w') ∧ calm w'.
Proof.
  intros Hc. rewrite notify_user_eq, (calm_flush_ok _ Hc). simpl.
  rewrite send_personal_message_eq. eexists. split; [done|].
  unfold calm in *. simpl. by rewrite Hc.
Qed.

Lemma crud_task_update_calm task_id db_obj obj_in w t' :
  calm w → apply_task_update obj_in db_obj = Some t' →
  references_exist (db w) db_obj t' →
  ∃ w', crud_task_update task_id db_obj obj_in w = (Ok t', w') ∧ calm w'.
Proof.
  intros Hc Ha Hr. unfold crud_task_update. rewrite Ha. unfold bind, query.
  rewrite (bool_decide_eq_true_2 _ Hr).
  rewrite db_flush_eq, (calm_flush_ok _ Hc). unfold write, ret. simpl.
  eexists. split; [done|]. unfold calm in *. simpl. by rewrite Hc.
Qed.

Lemma update_task_returns py task_id task_in user w task updated :
  calm w →
  tasks (db w) !! task_id = Some task →
  can_modify (db w) task user →
  apply_task_update task_in task = Some updated →
  references_exist (db w) task updated →
  meta_serializable (Some (model_dump task_in)) = true →
  ∃ w', update_task py task_id task_in user w = (Ok updated, w').
Proof.
  intros Hc Ht Hm Ha Hr Hs. unfold update_task.
  rewrite (bind_Ok _ _ w (Some task) w)
    by (unfold crud_task_get, query; by rewrite Ht).
  cbv beta iota.
  rewrite (bind_Ok _ _ w tt w)
    by (by rewrite _assert_can_modify_eq, decide_True).
  destruct (crud_task_update_calm task_id task task_in w updated Hc Ha Hr)
    as (w1 & H1 & Hc1).
  rewrite (bind_Ok _ _ _ _ _ H1).
  destruct (log_calm py (u_id user) "task_updated" "task" task_id
              (Some (model_dump task_in)) w1 Hc1 Hs) as (entry & w2 & H2 & Hc2).
  rewrite (bind_Ok _ _ _ _ _ H2).
  assert (∃ w3, match attr (upd_assigned_to_id task_in) with
                | Some new_assignee =>
                    if decide (Some new_assignee ≠ assigned_to_id task
                               ∧ new_assignee ≠ u_id user)
                    then notify_task_assigned py new_assignee task_id (title updated)
                           (u_username user)
                    else ret tt
                | None => ret tt
                end w2 = (Ok tt, w3) ∧ calm w3) as (w3 & H3 & Hc3).
  { destruct (attr (upd_assigned_to_id task_in)) as [a|]; [|by eexists].
    destruct (decide _); [|by eexists]. by apply notify_user_calm. }
  rewrite (bind_Ok _ _ _ _ _ H3).
  assert (∃ w4, (if decide (owner_id updated ≠ u_id user)
                 then notify_task_updated py (owner_id updated) task_id (title updated)
                        (u_username user)
                 else ret tt) w3 = (Ok tt, w4)) as (w4 & H4).
  { destruct (decide _); [|by eexists].
    destruct (notify_user_calm py (owner_id updated)
                (u_username user +:+ " updated task: " +:+ py_repr py (title updated))
                TaskUpdated (Some task_id) w3 Hc3) as (w4 & H4 & _). by exists w4. }
  rewrite (bind_Ok _ _ _ _ _ H4). by eexists.
Qed.

Lemma archive_calm task_id task w :
  calm w →
  ∃ t' w', archive task_id task w = (Ok t', w') ∧ is_archived t' = true ∧ calm w'.
Proof.
  intros Hc. unfold archive, bind. rewrite db_flush_eq, (calm_flush_ok _ Hc).
  unfold write, ret. simpl. eexists _, _. split; [done|]. split; [done|].
  unfold calm in *. simpl. by rewrite Hc.
Qed.

Lemma delete_task_returns py task_id user w task :
  calm w →
  tasks (db w) !! task_id = Some task →
  can_modify (db w) task user →
  ∃ archived w',
    delete_task py task_id user w = (Ok archived, w') ∧ is_archived archived = true.
Proof.
  intros Hc Ht Hm. unfold delete_task.
  rewrite (bind_Ok _ _ w (Some task) w)
    by (unfold crud_task_get, query; by rewrite Ht).
  cbv beta iota.
  rewrite (bind_Ok _ _ w tt w)
    by (by rewrite _assert_can_modify_eq, decide_True).
  destruct (archive_calm task_id task w Hc) as (t' & w1 & H1 & Ha & Hc1).
  rewrite (bind_Ok _ _ _ _ _ H1).
  destruct (log_calm py (u_id user) "task_archived" "task" task_id None w1 Hc1 eq_refl)
    as (entry & w2 & H2 & _).
  rewrite (bind_Ok _ _ _ _ _ H2). by eexists _, _.
Qed.

Lemma assign_task_returns py task_id assignee_id user w task :
  calm w →
  tasks (db w) !! task_id = Some task →
  can_modify (db w) task user →
  reference_ok (users (db w)) (assigned_to_id task) (Some assignee_id) →
  ∃ updated w',
    assign_task py task_id assignee_id user w = (Ok updated, w')
    ∧ assigned_to_id updated = Some assignee_id.
Proof.
  intros Hc Ht Hm Hr. unfold assign_task.
  rewrite (bind_Ok _ _ w (Some task) w)
    by (unfold crud_task_get, query; by rewrite Ht).
  cbv beta iota.
  rewrite (bind_Ok _ _ w tt w)
    by (by rewrite _assert_can_modify_eq, decide_True).
  assert (references_exist (db w) task
            (default task (apply_task_update (assign_only assignee_id) task))) as Hrefs.
  { split; [exact Hr|]. simpl. unfold reference_ok.
    destruct (task_team_id task); [by left|done]. }
  destruct (crud_task_update_calm task_id task (assign_only assignee_id) w _ Hc eq_refl
              Hrefs) as (w1 & H1 & Hc1).
  rewrite (bind_Ok _ _ _ _ _ H1).
  assert (∃ w2, (if decide (assignee_id ≠ u_id user)
                 then notify_task_assigned py assignee_id task_id
                        (title (default task (apply_task_update (assign_only assignee_id) task)))
                        (u_username user)
                 else ret tt) w1 = (Ok tt, w2) ∧ calm w2) as (w2 & H2 & Hc2).
  { destruct (decide _); [|by eexists]. by apply notify_user_calm. }
  simpl in H2. rewrite (bind_Ok _ _ _ _ _ H2).
  destruct (log_calm py (u_id user) "task_assigned" "task" task_id
              (Some [("assigned_to_id", MStr (uuid_str py assignee_id))]) w2 Hc2 eq_refl)
    as (entry & w3 & H3 & _).
  rewrite (bind_Ok _ _ _ _ _ H3). by eexists _, _.
Qed.

Lemma crud_add_member_calm team_id user_id role w :
  calm w → team_members (db w) !! (team_id, user_id) = None →
  ∃ w', crud_add_member team_id user_id role w
        = (Ok {| tm_team_id := team_id; tm_user_id := user_id; tm_role := role |}, w')
        ∧ calm w'.
Proof.
  intros Hc Hm. unfold crud_add_member, bind, query. simpl. rewrite Hm.
  rewrite db_flush_eq, (calm_flush_ok _ Hc). unfold write, ret. simpl.
  eexists. split; [done|]. unfold calm in *. simpl. by rewrite Hc.
Qed.

Lemma add_member_returns py team_id member_in current_user w team :
  calm w →
  teams (db w) !! team_id = Some team →
  can_manage (db w) team_id team current_user →
  is_Some (users (db w) !! tma_user_id member_in) →
  team_members (db w) !! (team_id, tma_user_id member_in) = None →
  ∃ member w', add_member py team_id member_in current_user w = (Ok member, w').
Proof.
  intros Hc Ht Hm [target Hu] Hnone. unfold add_member.
  rewrite (bind_Ok _ _ w (Some team) w)
    by (unfold crud_team_get, query; by rewrite Ht).
  cbv beta iota.
  rewrite (bind_Ok _ _ w tt w)
    by (by rewrite _assert_manager_or_admin_eq, decide_True).
  rewrite (bind_Ok _ _ w (Some target) w)
    by (unfold crud_user_get, query; by rewrite Hu).
  cbv beta iota.
  rewrite (bind_Ok _ _ w None w)
    by (unfold get_member, query; by rewrite Hnone).
  cbv beta iota.
  destruct (crud_add_member_calm team_id (tma_user_id member_in) (tma_role member_in)
              w Hc Hnone) as (w1 & H1 & Hc1).
  rewrite (bind_Ok _ _ _ _ _ H1).
  destruct (notify_user_calm py (tma_user_id member_in)
              (u_username current_user +:+ " added you to team: "
                 +:+ py_repr py (team_name team))
              TeamInvite (Some team_id) w1 Hc1) as (w2 & H2 & Hc2).
  unfold notify_team_invite. rewrite (bind_Ok _ _ _ _ _ H2).
  destruct (log_calm py (u_id current_user) "team_member_added" "team" team_id
              (Some [("user_id", MStr (uuid_str py (tma_user_id member_in)));
                     ("role", MStr (member_role_str (tma_role member_in)))]) w2 Hc2
              eq_refl)
    as (entry & w3 & H3 & _).
  rewrite (bind_Ok _ _ _ _ _ H3). by eexists _, _.
Qed.

Lemma log_raises py user_id action entity_type entity_id meta w :
  flush_ok w = false →
  ∃ w', log py user_id action entity_type entity_id meta w = (Raise SQLAlchemyError, w')
        ∧ db w' = db w.
Proof. intros Hf. rewrite log_eq, Hf, andb_false_r. by eexists. Qed.

(* ===================================================================== *)
(** ** Task listings *)
(* ===================================================================== *)

Lemma elem_of_user_team_ids d u tid :
  tid ∈ user_team_ids d u ↔ team_visible d u tid.
Proof.
  unfold user_team_ids, team_visible. rewrite list_elem_of_fmap. split.
  - intros ([tid' team] & -> & Hin). simpl.
    apply elem_of_map_to_list in Hin.
    apply map_lookup_filter_Some in Hin as [Ht Hp]. by rewrite Ht.
  - destruct (teams d !! tid) as [team|] eqn:Ht; [|done]. intros Hp.
    exists (tid, team). split; [done|].
    apply elem_of_map_to_list. by apply map_lookup_filter_Some.
Qed.

Lemma visibility_filter_scope d user t :
  visibility_filter (Some (u_id user)) (Some (user_team_ids d (u_id user))) t = true
  ↔ in_scope d user t.
Proof.
  unfold visibility_filter, in_scope.
  rewrite !orb_true_iff, !bool_decide_eq_true.
  assert (match user_team_ids d (u_id user), task_team_id t with
          | i :: ids, Some tid => bool_decide (tid ∈ i :: ids)
          | _, _ => false
          end = true
          ↔ match task_team_id t with
            | Some tid => team_visible d (u_id user) tid
            | None => False
            end) as Hteam.
  { destruct (task_team_id t) as [tid|].
    - rewrite <- elem_of_user_team_ids.
      destruct (user_team_ids d (u_id user)) as [|i ids].
      + split; [done|]. by intros ?%elem_of_nil.
      + by rewrite bool_decide_eq_true.
    - by destruct (user_team_ids d (u_id user)). }
  rewrite Hteam. tauto.
Qed.

Lemma selected_listed py d filters user row :
  selected py filters
    (if decide (u_role user = RoleAdmin) then None else Some (u_id user))
    (if decide (u_role user = RoleAdmin) then None
     else Some (user_team_ids d (u_id user))) row
  ↔ listed py d filters user row.
Proof.
  unfold selected, listed. rewrite andb_True.
  destruct (decide (u_role user = RoleAdmin)) as [Ha|Ha].
  - simpl. split; intros [? ?]; split; auto.
  - rewrite Is_true_true, visibility_filter_scope. tauto.
Qed.

Lemma list_tasks_eq py filters user w :
  list_tasks py filters user w
  = (Ok (page_of filters
           (filter (listed py (db w) filters user) (map_to_list (tasks (db w)))),
         length (filter (listed py (db w) filters user) (map_to_list (tasks (db w))))),
     w).
Proof.
  assert (∀ o ids,
            o = (if decide (u_role user = RoleAdmin) then None else Some (u_id user)) →
            ids = (if decide (u_role user = RoleAdmin) then None
                   else Some (user_team_ids (db w) (u_id user))) →
            filter (λ row, selected py filters o ids row) (map_to_list (tasks (db w)))
            = filter (listed py (db w) filters user) (map_to_list (tasks (db w))))
    as Hf.
  { intros o ids -> ->. apply list_filter_iff. intros row. apply selected_listed. }
  unfold list_tasks. destruct (decide (u_role user = RoleAdmin)) as [Ha|Ha].
  - unfold list_with_filters, query. unfold page_of.
    by rewrite (Hf None None).
  - unfold bind, get_user_team_ids, list_with_filters, query. simpl.
    unfold page_of.
    by rewrite (Hf (Some (u_id user)) (Some (user_team_ids (db w) (u_id user)))).
Qed.

Lemma page_of_subseteq filters rows : page_of filters rows ⊆ rows.
Proof.
  unfold page_of. intros x Hx.
  apply subseteq_take, subseteq_drop in Hx.
  by rewrite merge_sort_Permutation in Hx.
Qed.

Lemma page_of_whole filters rows :
  f_page filters = 1%positive → (length rows ≤ Pos.to_nat (f_size filters))%nat →
  page_of filters rows ≡ₚ rows.
Proof.
  intros Hp Hs. unfold page_of. rewrite Hp. simpl. rewrite drop_0.
  rewrite take_ge; [apply merge_sort_Permutation|].
  by rewrite merge_sort_Permutation.
Qed.

Lemma in_scope_claimed d user t :
  owners_are_members d → memberships_have_teams d →
  in_scope d user t ↔ claimed_scope d user t.
Proof.
  intros Ho Hm. unfold in_scope, claimed_scope, member_of_team_of, team_visible.
  destruct (task_team_id t) as [tid|]; [|done].
  destruct (teams d !! tid) as [team|] eqn:Ht.
  - specialize (Ho _ _ Ht). split; (intros [?|[?|H]]; [by left|by right; left|]).
    + right; right. destruct H as [<-|?]; done.
    + right; right. by right.
  - split; (intros [?|[?|H]]; [by left|by right; left|]); [done|].
    apply Hm in H. rewrite Ht in H. by destruct H.
Qed.

Lemma demo_teams_ok : teams_ok demo_db.
Proof.
  split.
  - intros tid team Ht. simpl in Ht.
    apply lookup_singleton_Some in Ht as [<- <-].
    apply (bool_decide_unpack _). by vm_compute.
  - intros tid u [r Hr]. simpl in Hr.
    apply lookup_insert_Some in Hr as [[[= <- <-] _]|[_ Hr]].
    { apply (bool_decide_unpack _). by vm_compute. }
    apply lookup_singleton_Some in Hr as [[= <- <-] _].
    apply (bool_decide_unpack _). by vm_compute.
Qed.

Lemma dump_field_serializable {A} name (conv : A → MetaValue) field :
  (∀ v, json_serializable (conv v) = true) →
  forallb (λ f : string * MetaValue, json_serializable f.2) (dump_field name conv field)
  = true.
Proof. intros Hconv. destruct field as [[v|]|]; simpl; [|done|done]. by rewrite Hconv. Qed.

(** The dump of an update can be stored exactly when the update sets no
    due date, no assignee and no team (it may clear them). *)
Lemma model_dump_serializable task_in :
  meta_serializable (Some (model_dump task_in)) = true
  ↔ attr (upd_due_date task_in) = None
    ∧ attr (upd_assigned_to_id task_in) = None
    ∧ attr (upd_team_id task_in) = None.
Proof.
  unfold meta_serializable, model_dump. rewrite !forallb_app.
  rewrite !(dump_field_serializable _ MStr) by done.
  rewrite (dump_field_serializable "status") by done.
  rewrite (dump_field_serializable "priority") by done.
  rewrite (dump_field_serializable "tags") by done.
  destruct (upd_due_date task_in) as [[?|]|], (upd_assigned_to_id task_in) as [[?|]|],
    (upd_team_id task_in) as [[?|]|]; simpl; split; try done; by intros (? & ? & ?).
Qed.

Lemma model_dump_assignee task_in a :
  upd_assigned_to_id task_in = Some (Some a) →
  meta_serializable (Some (model_dump task_in)) = false.
Proof.
  intros Ha. apply not_true_iff_false. rewrite model_dump_serializable, Ha.
  by intros (_ & ? & _).
Qed.

Lemma model_dump_team task_in team_id :
  upd_team_id task_in = Some (Some team_id) →
  meta_serializable (Some (model_dump task_in)) = false.
Proof.
  intros Ha. apply not_true_iff_false. rewrite model_dump_serializable, Ha.
  by intros (_ & _ & ?).
Qed.

Lemma crud_task_update_raises task_id db_obj obj_in w e w' :
  crud_task_update task_id db_obj obj_in w = (Raise e, w') → db w' = db w.
Proof.
  unfold crud_task_update. destruct (apply_task_update obj_in db_obj) as [t|].
  - unfold bind, query. destruct (bool_decide (references_exist (db w) db_obj t)).
    + rewrite db_flush_eq. destruct (flush_ok w); [done|]. by intros [= _ <-].
    + by intros [= _ <-].
  - by intros [= _ <-].
Qed.

(** An update whose dump cannot be stored raises, and has stored no
    notification. *)
Lemma update_task_unstorable py task_id task_in user w :
  meta_serializable (Some (model_dump task_in)) = false →
  ∃ e w', update_task py task_id task_in user w = (Raise e, w')
          ∧ notifications (db w') = notifications (db w).
Proof.
  intros Hs. unfold update_task, bind at 1, crud_task_get, query.
  destruct (tasks (db w) !! task_id) as [task|]; [|by eexists _, _].
  unfold bind at 1. rewrite _assert_can_modify_eq.
  destruct (decide (can_modify (db w) task user)); [|by eexists _, _].
  unfold bind at 1.
  destruct (crud_task_update task_id task task_in w) as [[upd|e] w1] eqn:E1.
  - apply crud_task_update_Ok in E1 as [_ Hdb1].
    unfold bind at 1. rewrite log_eq, Hs. simpl.
    eexists _, _. split; [done|]. simpl. by rewrite Hdb1.
  - apply crud_task_update_raises in E1. eexists _, _. split; [done|]. by rewrite E1.
Qed.

(** When it is permitted and valid and the row is written, what it raises is
    the database error of the log. *)
Lemma update_task_unstorable_raises py task_id task_in user w task updated :
  meta_serializable (Some (model_dump task_in)) = false →
  flush_ok w = true →
  tasks (db w) !! task_id = Some task →
  can_modify (db w) task user →
  apply_task_update task_in task = Some updated →
  references_exist (db w) task updated →
  ∃ w',
    update_task py task_id task_in user w = (Raise SQLAlchemyError, w')
    ∧ tasks (db w') = <[task_id := updated]> (tasks (db w))
    ∧ notifications (db w') = notifications (db w).
Proof.
  intros Hs Hf Ht Hm Happ Hr. unfold update_task.
  rewrite (bind_Ok _ _ w (Some task) w)
    by (unfold crud_task_get, query; by rewrite Ht).
  cbv beta iota.
  rewrite (bind_Ok _ _ w tt w)
    by (by rewrite _assert_can_modify_eq, decide_True).
  unfold bind at 1, crud_task_update. rewrite Happ.
  unfold bind at 1, query. rewrite (bool_decide_eq_true_2 _ Hr).
  unfold bind at 1. rewrite db_flush_eq, Hf.
  unfold bind at 1, write. unfold ret at 1.
  unfold bind at 1. rewrite log_eq, Hs. simpl.
  by eexists.
Qed.

Lemma update_task_Ok_serializable py task_id task_in user w updated w' :
  update_task py task_id task_in user w = (Ok updated, w') →
  meta_serializable (Some (model_dump task_in)) = true.
Proof.
  intros H. unfold update_task in H.
  inv_bind H t w1 H1. inv_query H1.
  destruct (tasks (db w) !! task_id) as [task|] eqn:Ht; [|done].
  inv_bind H x w1 H1. inv_bind H upd w2 H2. inv_bind H entry w3 H3.
  rewrite log_eq in H3.
  by destruct (meta_serializable (Some (model_dump task_in))).
Qed.

(* ===================================================================== *)
(** ** Admission to the push channel *)
(* ===================================================================== *)

Lemma websocket_endpoint_rejects py ws user_id token w r :
  rejection py user_id token = Some r →
  websocket_endpoint py ws user_id token w
  = (Ok tt,
     emit (match r with
           | MissingToken => WsClose ws 4001 "Missing authentication token"
           | InvalidToken => WsClose ws 4001 "Invalid or expired token"
           | IdentityMismatch => WsClose ws 4003 "Token user_id mismatch"
           end) w).
Proof.
  unfold rejection, websocket_endpoint, decode_access_token.
  destruct token as [t|]; [|by intros [= <-]].
  destruct (bool_decide (t = EmptyString)); [by intros [= <-]|].
  destruct (jwt_decode py t) as [claims|]; [|by intros [= <-]].
  destruct (decide (claim_type claims ≠ Some "access")) as [Hty|Hty].
  - rewrite bool_decide_eq_false_2 by done. by intros [= <-].
  - rewrite bool_decide_eq_true_2 by (by apply dec_stable).
    destruct (decide (claim_sub claims ≠ Some user_id)) as [Hs|Hs].
    + rewrite bool_decide_eq_false_2 by done. by intros [= <-].
    + rewrite bool_decide_eq_true_2 by (by apply dec_stable). done.
Qed.

Lemma websocket_endpoint_admits py ws user_id token w :
  rejection py user_id token = None →
  ∃ evs, (websocket_endpoint py ws user_id token w).1 = Ok tt
         ∧ trace (websocket_endpoint py ws user_id token w).2
           = trace w ++ WsAccept ws :: evs.
Proof.
  unfold rejection, websocket_endpoint, decode_access_token.
  destruct token as [t|]; [|done].
  destruct (bool_decide (t = EmptyString)); [done|].
  destruct (jwt_decode py t) as [claims|]; [|done].
  destruct (decide (claim_type claims ≠ Some "access")) as [Hty|Hty].
  { by rewrite bool_decide_eq_false_2. }
  rewrite bool_decide_eq_true_2 by (by apply dec_stable).
  destruct (decide (claim_sub claims ≠ Some user_id)) as [Hs|Hs].
  { by rewrite bool_decide_eq_false_2. }
  intros _. unfold bind, connect, bind, ws_accept, try_except, send_text. simpl.
  destruct (decide (ws ∈ broken w)); simpl; eexists; (split; [done|]);
    by rewrite <- !app_assoc.
Qed.

(* ===================================================================== *)
(** ** The claims: teams, notifications, permissions, registry *)
(* ===================================================================== *)

(** C1: removing the team's owner raises Forbidden ("Cannot remove the team
    owner") and changes nothing, whoever asks; the check precedes the
    privilege check, which is what an unprivileged caller meets when the
    target is anyone else. *)
Theorem remove_member_protects_owner py team_id user_id current_user w team :
  teams (db w) !! team_id = Some team →
  team_owner_id team = user_id →
  remove_member py team_id user_id current_user w
  = (Raise (ForbiddenException "Cannot remove the team owner"), w)
  ∧ (∀ other,
       other ≠ team_owner_id team →
       ¬ can_manage (db w) team_id team current_user →
       remove_member py team_id other current_user w = (Raise managers_only, w)).
Proof.
  intros Ht Ho. split.
  { unfold remove_member, bind, crud_team_get, query. rewrite Ht.
    by rewrite decide_True. }
  intros other Hne Hc. unfold remove_member, bind, crud_team_get, query. rewrite Ht.
  rewrite decide_False by done. rewrite _assert_manager_or_admin_eq.
  by rewrite decide_False.
Qed.

Lemma remove_member_protects_owner_witness :
  remove_member demo_py 10%N 1%N carol demo_world
  = (Raise (ForbiddenException "Cannot remove the team owner"), demo_world)
  ∧ remove_member demo_py 10%N 1%N dave demo_world
    = (Raise (ForbiddenException "Cannot remove the team owner"), demo_world).
Proof.
  split.
  - apply (remove_member_protects_owner demo_py 10%N 1%N carol demo_world
             {| team_name := "core"; team_owner_id := 1%N |}); reflexivity.
  - apply (remove_member_protects_owner demo_py 10%N 1%N dave demo_world
             {| team_name := "core"; team_owner_id := 1%N |}); reflexivity.
Defined.

(** C2: [notify_user] stores exactly one unread notification and does so
    before any push (the flush is the first event, the sends follow, one per
    live handle); with no live handle nothing is sent; a failing send changes
    neither the outcome nor the stored row. The only other outcome is that the
    flush of the row itself raises: the error reaches the caller, nothing is
    stored and nothing is pushed. *)
Theorem notify_user_persists_before_push py user_id message type reference_id w :
  let u := uuid_str py user_id in
  (flush_ok w = true ∧
   ∃ n w' sends,
     notify_user py user_id message type reference_id w = (Ok tt, w')
     ∧ notifications (db w') = notifications (db w) ++ [n]
     ∧ n_user_id n = user_id ∧ n_message n = message ∧ n_type n = type
     ∧ n_reference_id n = reference_id ∧ n_is_read n = false
     ∧ trace w' = trace w ++ DbFlush true :: sends
     ∧ sends = (λ ws, WsSendText ws
                        (json_dumps py (notification_payload py n message type reference_id))
                        (bool_decide (ws ∉ broken w))) <$> handles w u
     ∧ handles w' u = filter (λ ws, ws ∉ broken w) (handles w u)
     ∧ ((is_connected u w).1 = Ok false → sends = [] ∧ connections w' = connections w))
  ∨
  (flush_ok w = false ∧
   ∃ w',
     notify_user py user_id message type reference_id w = (Raise SQLAlchemyError, w')
     ∧ db w' = db w ∧ connections w' = connections w
     ∧ trace w' = trace w ++ [DbFlush false]).
Proof.
  intros u. rewrite notify_user_eq. destruct (flush_ok w) eqn:Hf.
  - left. split; [done|]. simpl.
    set (n := new_notification w user_id message type reference_id).
    destruct (send_personal_message_facts py u
                (notification_payload py n message type reference_id) (stored n w))
      as (w' & Hrun & Htr & Hh & Hdel & _ & Hdb & _ & Hnil).
    exists n, w', ((λ ws, WsSendText ws
                        (json_dumps py (notification_payload py n message type reference_id))
                        (bool_decide (ws ∉ broken w))) <$> handles w u).
    split; [done|]. rewrite Hdb. simpl. split; [done|].
    do 5 (split; [done|]). split.
    { rewrite Htr. simpl. by rewrite <- app_assoc. }
    split; [done|]. split; [done|].
    unfold is_connected. simpl. intros [= E].
    apply is_connected_handles_false in E. fold (handles w u) in E.
    rewrite E. split; [done|]. by rewrite (Hnil E).
  - right. split; [done|]. eexists. split; [done|]. done.
Qed.

(** C3: once the task is found, each modify operation ([update_task],
    [delete_task], [assign_task]) is refused with Forbidden exactly when the
    actor is neither an admin, nor the task's owner, nor a manager of the
    task's team, and a refusal changes nothing; an assignee or a plain member
    of the team may still read the task; and for an actor who may modify, with
    a database that accepts the writes, [delete_task] goes through,
    [assign_task] goes through for an assignee who is a user, and
    [update_task] goes through for an update that leaves no required column
    null, names no user or team that does not exist and whose dump the
    activity log can store (it sets no assignee, team or due date). *)
Theorem modify_permission py task_id task user w :
  tasks (db w) !! task_id = Some task →
  _assert_can_modify task user w
  = (if decide (can_modify (db w) task user) then Ok tt else Raise modify_denied, w)
  ∧ (∀ task_in,
       (forbidden (update_task py task_id task_in user w) ↔ ¬ can_modify (db w) task user)
       ∧ (¬ can_modify (db w) task user →
            update_task py task_id task_in user w = (Raise modify_denied, w)))
  ∧ ((forbidden (delete_task py task_id user w) ↔ ¬ can_modify (db w) task user)
     ∧ (¬ can_modify (db w) task user →
          delete_task py task_id user w = (Raise modify_denied, w)))
  ∧ (∀ assignee_id,
       (forbidden (assign_task py task_id assignee_id user w)
          ↔ ¬ can_modify (db w) task user)
       ∧ (¬ can_modify (db w) task user →
            assign_task py task_id assignee_id user w = (Raise modify_denied, w)))
  ∧ (assigned_to_id task = Some (u_id user) ∨ member_of_team_of (db w) task user →
       get_task py task_id user w = (Ok task, w))
  ∧ (calm w → can_modify (db w) task user →
       (∀ task_in updated,
          apply_task_update task_in task = Some updated →
          references_exist (db w) task updated →
          meta_serializable (Some (model_dump task_in)) = true →
          ∃ w', update_task py task_id task_in user w = (Ok updated, w'))
       ∧ (∃ archived w',
            delete_task py task_id user w = (Ok archived, w')
            ∧ is_archived archived = true)
       ∧ (∀ assignee_id,
            is_Some (users (db w) !! assignee_id) →
            ∃ updated w',
              assign_task py task_id assignee_id user w = (Ok updated, w')
              ∧ assigned_to_id updated = Some assignee_id)).
Proof.
  intros Ht. split; [apply _assert_can_modify_eq|]. split; [|split; [|split; [|split]]].
  - intros task_in.
    destruct (update_task_gate py task_id task_in user w task Ht) as (k & Hk & ->).
    by apply gated_forbidden.
  - destruct (delete_task_gate py task_id user w task Ht) as (k & Hk & ->).
    by apply gated_forbidden.
  - intros assignee_id.
    destruct (assign_task_gate py task_id assignee_id user w task Ht) as (k & Hk & ->).
    by apply gated_forbidden.
  - intros Hv. unfold get_task, bind, crud_task_get, query. rewrite Ht.
    rewrite _assert_can_view_eq, decide_True; [done|].
    unfold can_view. tauto.
  - intros Hc Hm. split; [|split].
    + intros task_in updated Ha Hr Hs. by apply (update_task_returns _ _ _ _ _ task).
    + by apply (delete_task_returns py task_id user w task).
    + intros assignee_id Hu.
      apply (assign_task_returns py task_id assignee_id user w task); [done..|].
      by right.
Qed.

Lemma modify_permission_witness :
  get_task demo_py 100%N bob demo_world = (Ok demo_task, demo_world)
  ∧ update_task demo_py 100%N retitle bob demo_world = (Raise modify_denied, demo_world)
  ∧ ¬ forbidden (update_task demo_py 100%N retitle carol demo_world)
  ∧ ∃ updated w',
      assign_task demo_py 100%N (u_id dave) carol demo_world = (Ok updated, w')
      ∧ assigned_to_id updated = Some (u_id dave).
Proof.
  destruct (modify_permission demo_py 100%N demo_task bob demo_world eq_refl)
    as (_ & Hupd & _ & _ & Hview & _).
  destruct (modify_permission demo_py 100%N demo_task carol demo_world eq_refl)
    as (_ & Hadmin & _ & _ & _ & Hgo).
  split; [apply Hview; by left|]. split; [|split].
  - apply (Hupd retitle).
    apply (bool_decide_eq_false_1 (can_modify (db demo_world) demo_task bob)).
    by vm_compute.
  - intros Hf. apply (Hadmin retitle) in Hf. apply Hf. by left.
  - destruct (Hgo eq_refl) as (_ & _ & Hassign); [by left|].
    apply Hassign. apply (bool_decide_unpack _). by vm_compute.
Defined.

(** C4 (as amended): a missing token and a token that does not validate both
    close the channel with code 4001 (only the reason text tells them apart),
    an identity mismatch closes it with 4003; in all three cases the close
    frame is the only effect: the registry is untouched and the channel is
    never accepted. *)
Theorem websocket_endpoint_close_codes py ws user_id token w r :
  rejection py user_id token = Some r →
  ∃ code reason,
    websocket_endpoint py ws user_id token w = (Ok tt, emit (WsClose ws code reason) w)
    ∧ (code, reason)
      = match r with
        | MissingToken => (4001%Z, "Missing authentication token")
        | InvalidToken => (4001%Z, "Invalid or expired token")
        | IdentityMismatch => (4003%Z, "Token user_id mismatch")
        end
    ∧ connections (emit (WsClose ws code reason) w) = connections w
    ∧ trace (emit (WsClose ws code reason) w) = trace w ++ [WsClose ws code reason].
Proof.
  intros Hr. rewrite (websocket_endpoint_rejects py ws user_id token w r Hr).
  destruct r; eexists _, _; done.
Qed.

Lemma websocket_endpoint_close_codes_witness :
  ∃ code reason,
    websocket_endpoint demo_py 5 "2" (Some "access-1") demo_world
    = (Ok tt, emit (WsClose 5 code reason) demo_world)
    ∧ code = 4003%Z.
Proof.
  destruct (websocket_endpoint_close_codes demo_py 5 "2" (Some "access-1") demo_world
              IdentityMismatch eq_refl) as (code & reason & H & Hc & _).
  exists code, reason. split; [exact H|]. by injection Hc.
Defined.

(** C4, as stated, fails: a missing token and a garbage token are closed
    with the same code. *)
Lemma close_codes_not_pairwise_distinct : ¬ close_codes_pairwise_distinct demo_py.
Proof.
  intros H.
  destruct (H 5 "2" demo_world None (Some "garbage") (Some "access-1")
              eq_refl eq_refl eq_refl) as [Hab _].
  by apply Hab.
Qed.

(** C5: the activity log does not swallow a failed write. With a database
    that rejects the flush, [log] reports the failure to the logger and raises
    it again; when the update of a task has gone through and the flush of its
    log entry fails, [update_task] raises, the task stays changed and nobody
    is notified. *)
Theorem activity_log_failure_reaches_caller :
  log demo_py 3%N "task_updated" "task" 100%N None (with_faults [true] demo_world)
  = (Raise SQLAlchemyError,
     emit (LoggerError (log_message demo_py 3%N "task_updated" "task" SQLAlchemyError))
       (emit (DbFlush false) (pop_fault (next_uuid (with_faults [true] demo_world)))))
  ∧ (let r := update_task demo_py 100%N retitle carol
                (with_faults [false; true] demo_world) in
     r.1 = Raise SQLAlchemyError
     ∧ title <$> tasks (db r.2) !! 100%N = Some "write the report"
     ∧ notifications (db r.2) = []).
Proof. split; by vm_compute. Qed.

(** C6: [send_personal_message] sends the serialized message once to each of
    the user's handles, in order; the handles whose send raised are removed,
    the others stay (so the user stays connected as long as one send went
    through); other users' entries are untouched; the call always returns, and
    with no handle it does nothing at all. *)
Theorem send_personal_message_best_effort py user_id data w :
  let l := handles w user_id in
  let message := json_dumps py data in
  ∃ w',
    send_personal_message py user_id data w = (Ok tt, w')
    ∧ trace w' = trace w ++ ((λ ws, WsSendText ws message (bool_decide (ws ∉ broken w))) <$> l)
    ∧ handles w' user_id = filter (λ ws, ws ∉ broken w) l
    ∧ delete user_id (connections w') = delete user_id (connections w)
    ∧ (is_connected user_id w').1
      = Ok (bool_decide (Exists (λ ws, ws ∉ broken w) l))
    ∧ db w' = db w ∧ broken w' = broken w
    ∧ (l = [] → w' = w).
Proof. exact (send_personal_message_facts py user_id data w). Qed.

Lemma send_personal_message_best_effort_witness :
  ∃ w',
    send_personal_message demo_py "2" JNull two_devices = (Ok tt, w')
    ∧ handles w' "2" = [7]
    ∧ (is_connected "2" w').1 = Ok true
    ∧ send_personal_message demo_py "9" JNull two_devices = (Ok tt, two_devices).
Proof.
  destruct (send_personal_message_best_effort demo_py "2" JNull two_devices)
    as (w' & Hrun & _ & Hh & _ & Hc & _).
  destruct (send_personal_message_best_effort demo_py "9" JNull two_devices)
    as (w9 & Hrun9 & _ & _ & _ & _ & _ & _ & Hnil).
  exists w'. split; [exact Hrun|]. split; [exact Hh|]. split; [exact Hc|].
  rewrite Hrun9. f_equal. by apply Hnil.
Defined.

(** C7: in every state the registry can reach from an empty mapping by
    [connect], [disconnect], [send_personal_message] and [broadcast], every
    user in the mapping has a non-empty handle list, and still has after any
    further operation; [is_connected] is true exactly for the users with a
    handle; for a user with none it is false, true after one [connect], and
    false again after the matching [disconnect], which leaves the mapping as
    it was. *)
Theorem registry_no_empty_entries py w :
  reachable py w →
  registry_ok (connections w)
  ∧ (∀ op, registry_ok (connections (run_op py op w).2))
  ∧ (∀ u, (is_connected u w).1 = Ok true ↔ handles w u ≠ [])
  ∧ (∀ u, is_Some (connections w !! u) ↔ handles w u ≠ [])
  ∧ (∀ ws u, handles w u = [] →
       let w1 := (connect ws u w).2 in
       let w2 := (disconnect ws u w1).2 in
       (is_connected u w).1 = Ok false
       ∧ (is_connected u w1).1 = Ok true
       ∧ (is_connected u w2).1 = Ok false
       ∧ connections w2 = connections w).
Proof.
  intros Hr. destruct (registry_facts py w Hr) as (Hok & Hc & Hs & Hcd).
  split; [done|]. split; [intros op; by apply run_op_ok|]. split; [|done].
  intros u. unfold is_connected. simpl. rewrite <- Hc. split; [by intros [= ->]|by intros ->].
Qed.

Lemma registry_no_empty_entries_witness :
  let w := (run_op demo_py (OpSendPersonal "2" JNull)
              (run_op demo_py (OpConnect 8 "2") (with_broken {[ 8 ]} demo_world)).2).2 in
  registry_ok (connections w) ∧ connections w !! "2" = None.
Proof.
  split; [|by vm_compute].
  refine (proj1 (registry_no_empty_entries demo_py _ _)).
  apply (reach_op demo_py _ (OpSendPersonal "2" JNull)).
  apply (reach_op demo_py _ (OpConnect 8 "2")).
  apply reach_start. reflexivity.
Defined.

(* ===================================================================== *)
(** ** The claims: listings, membership, task updates *)
(* ===================================================================== *)

(** C8: [list_tasks] counts and pages the same set of rows, the tasks that
    pass the filters and, for a non-admin, are in the query's scope: owned by
    the actor, assigned to the actor, or of a team the actor owns or holds a
    membership in; an admin gets every task that passes the filters. The
    total is the size of that set, the page is a slice of it, newest first,
    and the whole of it when it fits on the first page. In a database where
    every team's owner has a membership row in it and every membership row is
    of a team (which [create_team], [add_member] and [remove_member] keep
    so), that scope is: owned by the actor, assigned to the actor, or of a
    team the actor holds a membership in. *)
Theorem list_tasks_scope py filters user w :
  let rows := filter (listed py (db w) filters user) (map_to_list (tasks (db w))) in
  list_tasks py filters user w = (Ok (page_of filters rows, length rows), w)
  ∧ NoDup rows
  ∧ (∀ row, row ∈ rows
            ↔ tasks (db w) !! row.1 = Some row.2
              ∧ (u_role user = RoleAdmin ∨ in_scope (db w) user row.2)
              ∧ where_filters py filters row.2 = true)
  ∧ (owners_are_members (db w) → memberships_have_teams (db w) →
     ∀ row, row ∈ rows
            ↔ tasks (db w) !! row.1 = Some row.2
              ∧ (u_role user = RoleAdmin ∨ claimed_scope (db w) user row.2)
              ∧ where_filters py filters row.2 = true)
  ∧ page_of filters rows ⊆ rows
  ∧ (f_page filters = 1%positive → (length rows ≤ Pos.to_nat (f_size filters))%nat →
       page_of filters rows ≡ₚ rows).
Proof.
  intros rows.
  assert (∀ row, row ∈ rows
            ↔ tasks (db w) !! row.1 = Some row.2
              ∧ (u_role user = RoleAdmin ∨ in_scope (db w) user row.2)
              ∧ where_filters py filters row.2 = true) as Hrows.
  { intros [tid t]. unfold rows. rewrite list_elem_of_filter, elem_of_map_to_list.
    unfold listed. simpl. rewrite Is_true_true. tauto. }
  split; [apply list_tasks_eq|]. split; [|split; [|split; [|split]]].
  - apply NoDup_filter, NoDup_map_to_list.
  - exact Hrows.
  - intros Ho Hm row. rewrite Hrows.
    by rewrite (in_scope_claimed (db w) user row.2 Ho Hm).
  - apply page_of_subseteq.
  - apply page_of_whole.
Qed.

Lemma list_tasks_scope_witness :
  list_tasks demo_py all_tasks bob demo_world = (Ok ([(100%N, demo_task)], 1), demo_world)
  ∧ list_tasks demo_py all_tasks dave demo_world = (Ok ([], 0), demo_world)
  ∧ claimed_scope (db demo_world) bob demo_task
  ∧ ¬ claimed_scope (db demo_world) dave demo_task.
Proof.
  destruct (list_tasks_scope demo_py all_tasks bob demo_world)
    as (Hb & _ & Hrows & Hsb & _).
  destruct (list_tasks_scope demo_py all_tasks dave demo_world) as (Hd & _).
  destruct demo_teams_ok as [Ho Hm].
  split; [rewrite Hb; by vm_compute|]. split; [rewrite Hd; by vm_compute|]. split.
  - assert ((100%N, demo_task)
              ∈ filter (listed demo_py (db demo_world) all_tasks bob)
                  (map_to_list (tasks (db demo_world)))) as Hin.
    { apply Hrows. split; [done|]. split; [|done]. right. right. by left. }
    apply (Hsb Ho Hm) in Hin as (_ & [Hadmin|Hscope] & _); done.
  - apply (bool_decide_eq_false_1 (claimed_scope (db demo_world) dave demo_task)).
    by vm_compute.
Defined.

(** C9: with a database that accepts the writes, [add_member] by someone
    who may manage the team, for an existing user without a row, returns; a
    call that returns has added exactly one row, for a pair that had none, and
    the same call made again (with any role) raises Conflict and changes
    nothing; whoever calls, for a pair that already has a row the call raises
    without changing anything, and what it raises is Conflict when the team
    and the user exist and the caller may manage the team. *)
Theorem add_member_rejects_duplicates py team_id member_in current_user :
  (∀ w team,
     calm w →
     teams (db w) !! team_id = Some team →
     can_manage (db w) team_id team current_user →
     is_Some (users (db w) !! tma_user_id member_in) →
     team_members (db w) !! (team_id, tma_user_id member_in) = None →
     ∃ member w', add_member py team_id member_in current_user w = (Ok member, w'))
  ∧ (∀ w member w',
     add_member py team_id member_in current_user w = (Ok member, w') →
     team_members (db w) !! (team_id, tma_user_id member_in) = None
     ∧ team_members (db w')
       = <[(team_id, tma_user_id member_in) := tma_role member_in]> (team_members (db w))
     ∧ size (team_members (db w')) = S (size (team_members (db w)))
     ∧ (∀ role',
          add_member py team_id
            {| tma_user_id := tma_user_id member_in; tma_role := role' |} current_user w'
          = (Raise already_member, w')))
  ∧ (∀ w,
       is_Some (team_members (db w) !! (team_id, tma_user_id member_in)) →
       (∃ e, add_member py team_id member_in current_user w = (Raise e, w))
       ∧ (∀ team,
            teams (db w) !! team_id = Some team →
            can_manage (db w) team_id team current_user →
            is_Some (users (db w) !! tma_user_id member_in) →
            add_member py team_id member_in current_user w = (Raise already_member, w))).
Proof.
  split; [|split].
  - intros w team. apply add_member_returns.
  - intros w member w'. apply add_member_facts.
  - intros w Hm. split; [by apply add_member_never_duplicates|].
    intros team Ht Hc Hu. by apply (add_member_existing _ _ _ _ _ team).
Qed.

Lemma add_member_rejects_duplicates_witness :
  ∃ member w',
    add_member demo_py 10%N invite_dave alice demo_world = (Ok member, w')
    ∧ size (team_members (db w')) = 3
    ∧ add_member demo_py 10%N invite_dave alice w' = (Raise already_member, w').
Proof.
  destruct (add_member demo_py 10%N invite_dave alice demo_world) as [[member|e] w'] eqn:E;
    [|by vm_compute in E].
  exists member, w'. split; [done|].
  destruct (add_member_rejects_duplicates demo_py 10%N invite_dave alice)
    as (_ & Hfirst & _).
  destruct (Hfirst demo_world member w' E) as (_ & _ & Hsize & Hagain).
  split; [exact Hsize|]. exact (Hagain RoleMember).
Defined.

(** C10: [update_task] writes the activity log entry, whose [meta] is the
    dump of the update, after the task row and before it notifies anyone. The
    dump of an update that names a non-null assignee holds a UUID, which the
    JSONB column cannot store: the log raises and [update_task] with it.
    So an update that names an assignee never returns and stores no
    notification, whoever the assignee is; when it is permitted and valid and
    the database accepts the write of the row, what is raised is the
    database error of the log, with the row changed. When [update_task]
    returns, what it has stored is a task_updated notification for the
    task's owner exactly when the actor is not the owner, and no
    task_assigned notification; and it does return, with a database that
    accepts the writes, for a permitted and valid update whose dump can be
    stored. *)
Theorem update_task_notifications py task_id task_in user w :
  (∀ a,
     upd_assigned_to_id task_in = Some (Some a) →
     (∀ updated w', update_task py task_id task_in user w ≠ (Ok updated, w'))
     ∧ notifications (db (update_task py task_id task_in user w).2)
       = notifications (db w))
  ∧ (∀ a task updated,
       upd_assigned_to_id task_in = Some (Some a) →
       flush_ok w = true →
       tasks (db w) !! task_id = Some task →
       can_modify (db w) task user →
       apply_task_update task_in task = Some updated →
       references_exist (db w) task updated →
       ∃ w',
         update_task py task_id task_in user w = (Raise SQLAlchemyError, w')
         ∧ tasks (db w') = <[task_id := updated]> (tasks (db w))
         ∧ notifications (db w') = notifications (db w))
  ∧ (∀ updated w',
       update_task py task_id task_in user w = (Ok updated, w') →
       ∃ task ns,
         tasks (db w) !! task_id = Some task
         ∧ notifications (db w') = notifications (db w) ++ ns
         ∧ notice <$> ns
           = (if decide (owner_id task ≠ u_id user)
              then [(owner_id task, TaskUpdated, Some task_id)] else [])
         ∧ (∀ who, (who, TaskAssigned, Some task_id) ∉ notice <$> ns)
         ∧ (∀ who, (who, TaskUpdated, Some task_id) ∈ notice <$> ns
                   ↔ who = owner_id task ∧ owner_id task ≠ u_id user))
  ∧ (∀ task updated,
       calm w →
       tasks (db w) !! task_id = Some task →
       can_modify (db w) task user →
       apply_task_update task_in task = Some updated →
       references_exist (db w) task updated →
       meta_serializable (Some (model_dump task_in)) = true →
       ∃ w', update_task py task_id task_in user w = (Ok updated, w')).
Proof.
  split; [|split; [|split]].
  - intros a Ha.
    destruct (update_task_unstorable py task_id task_in user w
                (model_dump_assignee _ _ Ha)) as (e & w1 & H & Hn).
    rewrite H. split; [|done]. by intros updated w'.
  - intros a task updated Ha. apply update_task_unstorable_raises.
    by apply (model_dump_assignee _ a).
  - intros updated w' H.
    pose proof (update_task_Ok_serializable _ _ _ _ _ _ _ H) as Hs.
    apply update_task_Ok in H as (task & ns & Ht & _ & _ & _ & Hn & Hex).
    assert (notice <$> ns
            = (if decide (owner_id task ≠ u_id user)
               then [(owner_id task, TaskUpdated, Some task_id)] else [])) as Hns.
    { rewrite Hex. unfold expected_notices.
      destruct (upd_assigned_to_id task_in) as [[a|]|] eqn:Ha; [|done|done].
      by rewrite (model_dump_assignee _ _ Ha) in Hs. }
    exists task, ns. split; [done|]. split; [done|]. split; [done|].
    rewrite Hns. split; intros who.
    + destruct (decide _); [|apply not_elem_of_nil].
      by intros ?%list_elem_of_singleton.
    + destruct (decide _) as [Hd|Hd].
      * rewrite list_elem_of_singleton. split; [by intros [= ->]|by intros [-> _]].
      * split; [by intros ?%elem_of_nil|by intros [_ ?]].
  - intros task updated. by apply update_task_returns.
Qed.

Lemma update_task_notifications_witness :
  ∃ w',
    update_task demo_py 100%N retitle carol demo_world = (Raise SQLAlchemyError, w')
    ∧ assigned_to_id <$> tasks (db w') !! 100%N = Some (Some (u_id dave))
    ∧ notifications (db w') = [].
Proof.
  destruct (update_task_notifications demo_py 100%N retitle carol demo_world)
    as (_ & Hraise & _).
  destruct (Hraise (u_id dave) demo_task _ eq_refl eq_refl eq_refl (or_introl eq_refl)
              eq_refl) as (w' & H & Ht & Hn).
  { apply (bool_decide_unpack _). by vm_compute. }
  exists w'. split; [exact H|]. split; [|exact Hn].
  rewrite Ht. by rewrite lookup_insert_eq.
Defined.

(* ===================================================================== *)
(** ** Registry: broadcasts, unknown handles, a whole session *)
(* ===================================================================== *)

Lemma pair_disconnect_all_handles dead c u :
  handles_of (foldl pair_disconnect c dead) u
  = foldl (λ acc ws, remove_or_keep ws acc) (handles_of c u)
      (filter (λ d : WebSocket * string, d.2 = u) dead).*1.
Proof.
  revert c. induction dead as [|[ws u'] dead IH]; intros c; simpl; [done|].
  rewrite IH, filter_cons. simpl. unfold pair_disconnect. simpl.
  destruct (decide (u' = u)) as [->|Hne]; simpl.
  - by rewrite disconnect_registry_handles.
  - f_equal. unfold handles_of. by rewrite disconnect_registry_other.
Qed.

Lemma mjoin_cons {A} (l : list A) (ls : list (list A)) : mjoin (l :: ls) = l ++ mjoin ls.
Proof. done. Qed.

Lemma filter_pairs_of_user (u u' : string) (l : list WebSocket) :
  filter (λ d : WebSocket * string, d.2 = u) ((λ ws, (ws, u')) <$> l)
  = if decide (u' = u) then (λ ws, (ws, u')) <$> l else [].
Proof.
  induction l as [|x xs IH]; [by destruct (decide (u' = u))|].
  rewrite fmap_cons, filter_cons, IH. simpl. by destruct (decide (u' = u)).
Qed.

(** The dead pairs [broadcast] collects for one user. *)
Lemma dead_pairs_other (bad : WebSocket → Prop) `{!∀ x, Decision (bad x)}
    (pairs : list (string * list WebSocket)) u :
  u ∉ pairs.*1 →
  filter (λ d : WebSocket * string, d.2 = u)
    (mjoin ((λ p : string * list WebSocket, (λ ws, (ws, p.1)) <$> filter bad p.2)
            <$> pairs)) = [].
Proof.
  induction pairs as [|[u' l'] pairs IH]; [done|].
  rewrite !fmap_cons, mjoin_cons. intros Hn.
  apply not_elem_of_cons in Hn as [Hne Hn].
  rewrite filter_app, IH, app_nil_r by done. simpl in *.
  rewrite filter_pairs_of_user. by rewrite decide_False.
Qed.

Lemma dead_pairs_of_user (bad : WebSocket → Prop) `{!∀ x, Decision (bad x)}
    (pairs : list (string * list WebSocket)) u l :
  NoDup pairs.*1 → (u, l) ∈ pairs →
  (filter (λ d : WebSocket * string, d.2 = u)
     (mjoin ((λ p : string * list WebSocket, (λ ws, (ws, p.1)) <$> filter bad p.2)
             <$> pairs))).*1 = filter bad l.
Proof.
  induction pairs as [|[u' l'] pairs IH]; [by intros _ ?%elem_of_nil|].
  rewrite !fmap_cons, mjoin_cons. intros Hnd Hin.
  apply NoDup_cons in Hnd as [Hu' Hnd].
  rewrite filter_app, fmap_app. simpl in *. rewrite filter_pairs_of_user.
  apply elem_of_cons in Hin as [[= <- <-]|Hin].
  - rewrite (dead_pairs_other bad pairs u), app_nil_r by done.
    rewrite decide_True by done. rewrite <- list_fmap_compose.
    by rewrite list_fmap_id.
  - rewrite IH by done.
    rewrite decide_False; [done|].
    intros ->. apply Hu'. apply list_elem_of_fmap. by exists (u, l).
Qed.

Lemma broadcast_unfold py data w :
  broadcast py data w
  = (Ok tt,
     set_connections
       (λ c, foldl pair_disconnect c
               (mjoin ((λ p : string * list WebSocket,
                          (λ ws, (ws, p.1)) <$> filter (λ ws, ws ∈ broken w) p.2)
                       <$> map_to_list (connections w))))
       (emits (mjoin ((λ p : string * list WebSocket,
                         send_event w (json_dumps py data) <$> p.2)
                      <$> map_to_list (connections w))) w)).
Proof.
  unfold broadcast. unfold bind at 1. rewrite broadcast_send_loop.
  unfold bind. rewrite pair_disconnect_loop. unfold ret. done.
Qed.

(** X1: [broadcast] never raises; what it does is send the message, once on
    every handle of every user (in an order that is left open: the sends are
    the listed ones up to a permutation), and afterwards each user is left
    with exactly the handles on which the send went through; the database is
    not touched. *)
Theorem broadcast_keeps_working_handles py data w :
  ∃ w' sends,
    broadcast py data w = (Ok tt, w')
    ∧ trace w' = trace w ++ sends
    ∧ sends ≡ₚ mjoin ((λ p : string * list WebSocket,
                         send_event w (json_dumps py data) <$> p.2)
                      <$> map_to_list (connections w))
    ∧ (∀ u, handles w' u = filter (λ ws, ws ∉ broken w) (handles w u))
    ∧ (registry_ok (connections w) → registry_ok (connections w'))
    ∧ db w' = db w ∧ broken w' = broken w.
Proof.
  rewrite broadcast_unfold. eexists _, _. split; [done|]. simpl.
  split; [done|]. split; [done|]. split; [|split; [|done]].
  - intros u. unfold handles. simpl. rewrite pair_disconnect_all_handles.
    unfold handles_of.
    destruct (connections w !! u) as [l|] eqn:E; simpl.
    + rewrite (dead_pairs_of_user (λ ws, ws ∈ broken w) _ u l).
      * apply (remove_broken (λ ws, ws ∈ broken w)).
      * apply NoDup_fst_map_to_list.
      * by apply elem_of_map_to_list.
    + rewrite (dead_pairs_other (λ ws, ws ∈ broken w)); [done|].
      intros Hin. apply list_elem_of_fmap in Hin as ([u' l] & -> & Hin).
      apply elem_of_map_to_list in Hin. simpl in E. congruence.
  - apply pair_disconnect_ok.
Qed.

Lemma list_remove_first_absent ws l : ws ∉ l → list_remove_first ws l = None.
Proof.
  induction l as [|x l IH]; simpl; [done|].
  intros Hn. apply not_elem_of_cons in Hn as [Hne Hn].
  rewrite decide_False by done. by rewrite IH.
Qed.

Lemma list_remove_first_last ws l :
  ws ∉ l → list_remove_first ws (l ++ [ws]) = Some l.
Proof.
  induction l as [|x l IH]; simpl.
  - intros _. by rewrite decide_True.
  - intros Hn. apply not_elem_of_cons in Hn as [Hne Hn].
    rewrite decide_False by done. by rewrite IH.
Qed.

Lemma disconnect_registry_absent ws u c :
  registry_ok c → ws ∉ handles_of c u → disconnect_registry ws u c = c.
Proof.
  intros Hok Hn. unfold disconnect_registry, handles_of in *.
  destruct (c !! u) as [l|] eqn:E; [|done]. simpl in Hn.
  unfold remove_or_keep. rewrite list_remove_first_absent by done.
  destruct l as [|x l]; [by destruct (Hok _ _ E)|].
  by apply insert_id.
Qed.

Lemma set_connections_same f w :
  f (connections w) = connections w → set_connections f w = w.
Proof. intros H. destruct w. unfold set_connections. simpl in *. by rewrite H. Qed.

Lemma connect_then_disconnect ws u c :
  registry_ok c → ws ∉ handles_of c u →
  disconnect_registry ws u (connect_registry ws u c) = c.
Proof.
  intros Hok Hn. destruct (c !! u) as [l|] eqn:E.
  - unfold disconnect_registry. rewrite connect_registry_lookup.
    unfold handles_of in *. rewrite E in *. simpl in *.
    unfold remove_or_keep. rewrite list_remove_first_last by done.
    destruct l as [|x l]; [by destruct (Hok _ _ E)|].
    unfold connect_registry. rewrite E. unfold handles_of. rewrite E. simpl.
    rewrite insert_insert_eq. by apply insert_id.
  - by apply connect_disconnect_registry.
Qed.

(** X2: in a registry without empty entries, disconnecting a handle that is
    not registered for the user (a second disconnect, an unknown user) is
    accepted and changes nothing; and connecting such a handle and
    disconnecting it again leaves the registry as it was, whatever other
    handles the user has. *)
Theorem disconnect_unregistered_is_noop websocket user_id w :
  registry_ok (connections w) →
  websocket ∉ handles w user_id →
  disconnect websocket user_id w = (Ok tt, w)
  ∧ connections (disconnect websocket user_id (connect websocket user_id w).2).2
    = connections w.
Proof.
  intros Hok Hn. split.
  - unfold disconnect. f_equal.
    apply set_connections_same. by apply disconnect_registry_absent.
  - simpl. by apply connect_then_disconnect.
Qed.

Lemma two_devices_ok : registry_ok (connections two_devices).
Proof.
  intros u l. simpl. intros [_ <-]%lookup_singleton_Some. done.
Qed.

Lemma disconnect_unregistered_is_noop_witness :
  disconnect 9 "2" two_devices = (Ok tt, two_devices)
  ∧ disconnect 7 "4" two_devices = (Ok tt, two_devices).
Proof.
  split.
  - apply disconnect_unregistered_is_noop; [apply two_devices_ok|].
    vm_compute. intros H. by repeat (apply elem_of_cons in H as [H|H]; [done|]);
      apply elem_of_nil in H.
  - apply disconnect_unregistered_is_noop; [apply two_devices_ok|].
    vm_compute. by intros H%elem_of_nil.
Defined.

(* ===================================================================== *)
(** ** Pages *)
(* ===================================================================== *)

#[global] Instance newest_notification_first_total : Total newest_notification_first.
Proof. intros a b. unfold newest_notification_first. lia. Qed.

#[global] Instance newest_notification_first_trans : Transitive newest_notification_first.
Proof. intros a b c. unfold newest_notification_first. lia. Qed.

#[global] Instance newest_first_total : Total newest_first.
Proof. intros a b. unfold newest_first. lia. Qed.

#[global] Instance newest_first_trans : Transitive newest_first.
Proof. intros a b c. unfold newest_first. lia. Qed.

(** A page of a sorted listing is sorted. *)
Lemma page_StronglySorted {A} (R : relation A) `{!∀ a b, Decision (R a b)}
    `{!Transitive R, !Total R} n k (l : list A) :
  StronglySorted R (take n (drop k (merge_sort R l))).
Proof.
  pose proof (StronglySorted_merge_sort R l) as Hs.
  rewrite <- (take_drop k (merge_sort R l)) in Hs. apply StronglySorted_app_1_r in Hs.
  rewrite <- (take_drop n (drop k (merge_sort R l))) in Hs.
  by apply StronglySorted_app_1_l in Hs.
Qed.

(** Every row is on some page. *)
Lemma elem_of_some_page {A} (x : A) (l : list A) (size : positive) :
  x ∈ l →
  ∃ page : positive,
    x ∈ take (Pos.to_nat size) (drop ((Pos.to_nat page - 1) * Pos.to_nat size) l).
Proof.
  intros [i Hi]%list_elem_of_lookup.
  exists (Pos.of_nat (S (i / Pos.to_nat size))).
  rewrite Nat2Pos.id by done.
  replace (S (i / Pos.to_nat size) - 1)%nat with (i / Pos.to_nat size)%nat by lia.
  apply list_elem_of_lookup. exists (i mod Pos.to_nat size)%nat.
  rewrite lookup_take_lt by (apply Nat.mod_upper_bound; lia).
  rewrite lookup_drop, <- Hi. f_equal.
  pose proof (Nat.div_mod_eq i (Pos.to_nat size)). lia.
Qed.

Lemma page_subseteq {A} (R : relation A) `{!∀ a b, Decision (R a b)} n k (l : list A) :
  take n (drop k (merge_sort R l)) ⊆ l.
Proof.
  intros x Hx. apply subseteq_take, subseteq_drop in Hx.
  by rewrite merge_sort_Permutation in Hx.
Qed.

(* ===================================================================== *)
(** ** Reading and acknowledging notifications *)
(* ===================================================================== *)

(** X3: the notification listing shows a user nothing but their own
    notifications (the unread ones when asked so), newest first, at most
    [size] of them; the total counts all the matching rows whatever the page,
    each of them is on some page, and nothing is changed. *)
Theorem list_notifications_own current_user page size unread_only w :
  let mine := user_notification (u_id current_user) unread_only in
  ∃ items,
    list_notifications current_user page size unread_only w
    = (Ok (items, length (filter mine (notifications (db w)))), w)
    ∧ (∀ n, n ∈ items → n ∈ notifications (db w) ∧ mine n)
    ∧ (length items ≤ Pos.to_nat size)%nat
    ∧ StronglySorted newest_notification_first items
    ∧ (∀ n, n ∈ notifications (db w) → mine n →
         ∃ page' items' total,
           list_notifications current_user page' size unread_only w
           = (Ok (items', total), w) ∧ n ∈ items').
Proof.
  intros mine. unfold list_notifications, notification_list_by_user, query.
  eexists. split; [done|]. fold mine. split; [|split; [|split]].
  - intros n Hn. apply page_subseteq in Hn. by apply list_elem_of_filter in Hn as [? ?].
  - rewrite length_take. lia.
  - apply page_StronglySorted; apply _.
  - intros n Hn Hm.
    destruct (elem_of_some_page n
                (merge_sort newest_notification_first
                   (filter mine (notifications (db w)))) size) as [page' Hp].
    { rewrite merge_sort_Permutation. by apply list_elem_of_filter. }
    exists page'. eexists _, _. split; [done|]. exact Hp.
Qed.

Lemma filter_none {A} (P : A → Prop) `{!∀ x, Decision (P x)} (l : list A) :
  (∀ x, x ∈ l → ¬ P x) → filter P l = [].
Proof.
  induction l as [|x l IH]; [done|]. intros Hall.
  rewrite filter_cons, decide_False by (apply Hall; left).
  apply IH. intros y Hy. apply Hall. by right.
Qed.

Lemma fmap_unchanged {A} (f : A → A) (l : list A) :
  (∀ x, x ∈ l → f x = x) → f <$> l = l.
Proof.
  induction l as [|x l IH]; [done|]. intros Hall.
  rewrite fmap_cons, Hall by left. f_equal. apply IH. intros y Hy. apply Hall. by right.
Qed.

Lemma set_db_same f w : f (db w) = db w → set_db f w = w.
Proof. intros H. destruct w. unfold set_db. simpl in *. by rewrite H. Qed.

(** X4: acknowledging a notification the caller does not own, whether it
    is somebody else's or does not exist, answers "not found" and changes
    nothing. *)
Theorem mark_as_read_not_own py notification_id current_user w :
  (∀ n, n ∈ notifications (db w) → n_id n = notification_id →
        n_user_id n ≠ u_id current_user) →
  mark_as_read py notification_id current_user w
  = (Raise (not_found "Notification" (Some (uuid_str py notification_id))), w).
Proof.
  intros H. unfold mark_as_read, bind, crud_mark_as_read, bind, query.
  rewrite filter_none; [done|].
  intros n Hn [Hi Hu]. by apply (H n).
Qed.

Lemma mark_as_read_not_own_witness :
  let w := (notify_user demo_py 1%N "hello" SystemNotice None demo_world).2 in
  mark_as_read demo_py 500%N bob w
  = (Raise (not_found "Notification" (Some (uuid_str demo_py 500%N))), w).
Proof.
  intros w. apply mark_as_read_not_own. intros n Hn _.
  assert (notifications (db w)
          = [new_notification demo_world 1%N "hello" SystemNotice None]) as E
    by (by vm_compute).
  rewrite E in Hn. apply list_elem_of_singleton in Hn as ->. done.
Defined.

(** The table after one row was acknowledged, by user. *)
Lemma unread_after_mark notification_id v n (l : list Notification) :
  NoDup (n_id <$> l) → n ∈ l → n_id n = notification_id →
  (length (filter (unread_of v) (mark_read_by_id notification_id <$> l))
   + (if decide (unread_of v n) then 1 else 0)
   = length (filter (unread_of v) l))%nat.
Proof.
  intros Hnd Hin Hid. induction l as [|x l IH]; [by apply elem_of_nil in Hin|].
  rewrite fmap_cons in Hnd. apply NoDup_cons in Hnd as [Hx Hnd].
  rewrite fmap_cons, !filter_cons.
  apply elem_of_cons in Hin as [<-|Hin].
  - rewrite (fmap_unchanged (mark_read_by_id notification_id) l).
    + assert (mark_read_by_id notification_id n = mark_read n) as ->.
      { unfold mark_read_by_id. by rewrite decide_True. }
      destruct (decide (unread_of v (mark_read n))) as [[_ Hr]|_]; [done|].
      destruct (decide (unread_of v n)); simpl; lia.
    + intros y Hy. unfold mark_read_by_id. rewrite decide_False; [done|].
      intros Hy'. apply Hx. apply list_elem_of_fmap. exists y. split; [congruence|done].
  - assert (n_id x ≠ notification_id) as Hne.
    { intros Hx'. apply Hx. apply list_elem_of_fmap. exists n. split; [congruence|done]. }
    assert (mark_read_by_id notification_id x = x) as ->.
    { unfold mark_read_by_id. by rewrite decide_False. }
    specialize (IH Hnd Hin).
    destruct (decide (unread_of v x)); simpl; lia.
Qed.

Lemma filter_own_unique notification_id user_id n (l : list Notification) :
  NoDup (n_id <$> l) → n ∈ l → own_notification notification_id user_id n →
  filter (own_notification notification_id user_id) l = [n].
Proof.
  intros Hnd Hin [Hid Hu]. induction l as [|x l IH]; [by apply elem_of_nil in Hin|].
  rewrite fmap_cons in Hnd. apply NoDup_cons in Hnd as [Hx Hnd].
  rewrite filter_cons. apply elem_of_cons in Hin as [<-|Hin].
  - rewrite decide_True by done. f_equal. apply filter_none.
    intros y Hy [Hy' _]. apply Hx. apply list_elem_of_fmap. exists y.
    split; [congruence|done].
  - rewrite decide_False; [by apply IH|].
    intros [Hx' _]. apply Hx. apply list_elem_of_fmap. exists n.
    split; [congruence|done].
Qed.

(** X5: where ids are unique (the primary key), acknowledging one's own
    notification returns it with [is_read] set, sets the flag of that row and
    of no other, and lowers the owner's unread count by one if the row was
    unread; nobody else's count moves. *)
Theorem mark_as_read_own py notification_id current_user w n :
  NoDup (n_id <$> notifications (db w)) →
  n ∈ notifications (db w) →
  own_notification notification_id (u_id current_user) n →
  flush_ok w = true →
  ∃ w',
    mark_as_read py notification_id current_user w = (Ok (mark_read n), w')
    ∧ notifications (db w') = mark_read_by_id notification_id <$> notifications (db w)
    ∧ (∀ i, notifications (db w) !! i = Some n →
         notifications (db w') !! i = Some (mark_read n))
    ∧ (∀ i m, notifications (db w) !! i = Some m → m ≠ n →
         notifications (db w') !! i = Some m)
    ∧ (∀ v, (unread (db w') v + (if decide (unread_of v n) then 1 else 0)
             = unread (db w) v)%nat)
    ∧ (∀ v, v ≠ u_id current_user → unread (db w') v = unread (db w) v).
Proof.
  intros Hnd Hin Hown Hf.
  unfold mark_as_read, bind, crud_mark_as_read, bind, query.
  rewrite (filter_own_unique _ _ n) by done.
  rewrite db_flush_eq, Hf. unfold write, ret. simpl.
  eexists. split; [done|]. simpl. split; [done|].
  destruct Hown as [Hid Hu].
  assert (∀ v, (unread (set_notifications (fmap (mark_read_by_id notification_id)) (db w)) v
               + (if decide (unread_of v n) then 1 else 0) = unread (db w) v)%nat) as Hcount.
  { intros v. unfold unread. simpl. by apply unread_after_mark. }
  split; [|split; [|split; [done|]]].
  - intros i Hi. rewrite list_lookup_fmap, Hi. simpl. f_equal.
    unfold mark_read_by_id. by rewrite decide_True.
  - intros i m Hm Hne. rewrite list_lookup_fmap, Hm. simpl. f_equal.
    unfold mark_read_by_id. rewrite decide_False; [done|]. intros Hm'. apply Hne.
    apply list_elem_of_lookup in Hin as [j Hj].
    assert (i = j) as ->; [|congruence].
    apply (NoDup_lookup _ _ _ (n_id m) Hnd).
    + by rewrite list_lookup_fmap, Hm.
    + rewrite list_lookup_fmap, Hj. simpl. congruence.
  - intros v Hv. specialize (Hcount v).
    rewrite decide_False in Hcount; [lia|].
    intros [Hv' _]. congruence.
Qed.

Lemma mark_as_read_own_witness :
  ∃ w', mark_as_read demo_py 500%N bob
          (notify_user demo_py 2%N "hello" SystemNotice None demo_world).2
        = (Ok (mark_read (new_notification demo_world 2%N "hello" SystemNotice None)), w')
        ∧ unread (db w') 2%N = 0%nat.
Proof.
  destruct (mark_as_read_own demo_py 500%N bob
              (notify_user demo_py 2%N "hello" SystemNotice None demo_world).2
              (new_notification demo_world 2%N "hello" SystemNotice None))
    as (w' & H & _ & _ & _ & Hc & _).
  - vm_compute. apply NoDup_singleton.
  - vm_compute. apply list_elem_of_singleton. done.
  - by vm_compute.
  - by vm_compute.
  - exists w'. split; [exact H|]. specialize (Hc 2%N).
    rewrite decide_True in Hc by (by vm_compute).
    assert (unread (db (notify_user demo_py 2%N "hello" SystemNotice None demo_world).2)
              2%N = 1%nat) as Hone by (by vm_compute).
    rewrite Hone in Hc. lia.
Defined.

Lemma mark_unread_of_read user_id n : ¬ unread_of user_id (mark_unread_of user_id n).
Proof.
  unfold mark_unread_of. destruct (decide (unread_of user_id n)) as [Hu|Hu]; [|done].
  by intros [_ ?].
Qed.

Lemma mark_unread_of_other user_id v n :
  v ≠ user_id →
  (n_user_id (mark_unread_of user_id n) = v ↔ n_user_id n = v)
  ∧ (n_user_id n = v → mark_unread_of user_id n = n).
Proof.
  intros Hv. unfold mark_unread_of.
  destruct (decide (unread_of user_id n)) as [[Hu _]|Hu]; [|done].
  simpl. split; [done|]. congruence.
Qed.

Lemma filter_mark_unread_of user_id v (l : list Notification) :
  v ≠ user_id →
  filter (λ n, n_user_id n = v) (mark_unread_of user_id <$> l)
  = filter (λ n, n_user_id n = v) l.
Proof.
  intros Hv. induction l as [|x l IH]; [done|].
  rewrite fmap_cons, !filter_cons, IH.
  destruct (mark_unread_of_other user_id v x Hv) as [Hiff Heq].
  destruct (decide (n_user_id x = v)) as [Hx|Hx].
  - rewrite decide_True by (by apply Hiff). by rewrite Heq.
  - rewrite decide_False; [done|]. by rewrite Hiff.
Qed.

(** X6: "mark all as read" never fails; it reports how many of the
    caller's notifications were unread, leaves none of them unread, keeps
    every row of every other user as it was, removes nothing, and needs no
    flush. Repeating it reports zero and changes nothing. *)
Theorem mark_all_read_clears_own current_user w :
  ∃ w',
    mark_all_read current_user w = (Ok tt, w')
    ∧ crud_mark_all_read (u_id current_user) w
      = (Ok (unread (db w) (u_id current_user)), w')
    ∧ unread (db w') (u_id current_user) = 0%nat
    ∧ (∀ v, v ≠ u_id current_user →
         filter (λ n, n_user_id n = v) (notifications (db w'))
         = filter (λ n, n_user_id n = v) (notifications (db w)))
    ∧ length (notifications (db w')) = length (notifications (db w))
    ∧ trace w' = trace w
    ∧ crud_mark_all_read (u_id current_user) w' = (Ok 0%nat, w').
Proof.
  unfold mark_all_read, bind, crud_mark_all_read, bind, query, write, ret.
  eexists. split; [done|]. split; [done|]. simpl.
  assert (∀ l, length (filter (unread_of (u_id current_user))
                         (mark_unread_of (u_id current_user) <$> l)) = 0%nat) as Hzero.
  { intros l. rewrite filter_none; [done|].
    intros n [m [-> _]]%list_elem_of_fmap. apply mark_unread_of_read. }
  split; [apply Hzero|]. split; [intros v Hv; by apply filter_mark_unread_of|].
  split; [by rewrite length_fmap|]. split; [done|].
  rewrite Hzero. f_equal. apply set_db_same. simpl.
  destruct (db w) as [us ts ms tks ns ls nw]. unfold set_notifications. simpl.
  f_equal. apply fmap_unchanged. intros n [m [-> _]]%list_elem_of_fmap.
  unfold mark_unread_of at 1. rewrite decide_False; [done|]. apply mark_unread_of_read.
Qed.

(** X7: a notification that [notify_user] stores raises the recipient's
    unread count by one and nobody else's; if its id is new, the recipient
    can acknowledge it, which brings the count back. *)
Theorem notify_user_then_read py user_id message type reference_id w w' :
  notify_user py user_id message type reference_id w = (Ok tt, w') →
  let n := new_notification w user_id message type reference_id in
  count_unread user_id w' = (Ok (S (unread (db w) user_id)), w')
  ∧ (∀ v, v ≠ user_id → unread (db w') v = unread (db w) v)
  ∧ (∀ current_user,
       u_id current_user = user_id →
       (∀ m, m ∈ notifications (db w) → n_id m ≠ uuid_seed w) →
       flush_ok w' = true →
       ∃ w'',
         mark_as_read py (uuid_seed w) current_user w' = (Ok (mark_read n), w'')
         ∧ unread (db w'') user_id = unread (db w) user_id).
Proof.
  intros H n. apply notify_user_Ok in H. fold n in H.
  unfold count_unread, query, unread. rewrite H. simpl.
  assert (unread_of user_id n) as Hn by done.
  split; [|split].
  - rewrite filter_app, length_app, filter_cons, decide_True by done.
    simpl. f_equal. f_equal. lia.
  - intros v Hv. rewrite filter_app, length_app, filter_cons.
    rewrite decide_False by (intros [? _]; simpl in *; congruence).
    simpl. lia.
  - intros current_user Hu Hfresh Hf.
    unfold mark_as_read, bind, crud_mark_as_read, bind, query.
    rewrite H. simpl. rewrite filter_app, filter_cons.
    rewrite filter_none by (intros m Hm [Hid _]; by apply (Hfresh m)).
    rewrite decide_True by (by rewrite Hu).
    simpl. rewrite db_flush_eq, Hf. unfold write, ret. simpl.
    eexists. split; [done|]. simpl. rewrite H. simpl.
    rewrite fmap_app, filter_app, length_app.
    rewrite (fmap_unchanged _ (notifications (db w))).
    + simpl. unfold mark_read_by_id. simpl. rewrite decide_True by done.
      rewrite filter_cons, decide_False by (by intros [_ ?]). simpl. lia.
    + intros m Hm. unfold mark_read_by_id. rewrite decide_False; [done|].
      by apply Hfresh.
Qed.

Lemma notify_user_then_read_witness :
  let w' := (notify_user demo_py 2%N "hello" SystemNotice None demo_world).2 in
  count_unread 2%N w' = (Ok 1%nat, w')
  ∧ unread (db w') 1%N = 0%nat.
Proof.
  intros w'.
  destruct (notify_user_then_read demo_py 2%N "hello" SystemNotice None demo_world w')
    as (Hc & Ho & _); [by vm_compute|].
  split; [exact Hc|]. by rewrite Ho.
Defined.

(* ===================================================================== *)
(** ** Teams: what only the owner may do *)
(* ===================================================================== *)

Lemma _assert_owner_or_admin_eq team user w :
  _assert_owner_or_admin team user w
  = (if decide (owner_or_admin team user) then Ok tt else Raise owner_only, w).
Proof.
  unfold _assert_owner_or_admin, owner_or_admin.
  by destruct (decide (u_role user = RoleAdmin ∨ team_owner_id team = u_id user)).
Qed.

Lemma never_forbidden_write f : never_forbidden (write f).
Proof. by intros w e w'. Qed.

Lemma never_forbidden_query {A} (f : Database → A) : never_forbidden (query f).
Proof. by intros w e w'. Qed.

Lemma never_forbidden_rejected {A} : never_forbidden (db_flush_rejected (A := A) IntegrityError).
Proof. by intros w e w' [= <- _]. Qed.

Lemma await_none_eq team user w :
  await_none (_assert_owner_or_admin team user) w
  = (Raise (if decide (owner_or_admin team user) then TypeError else owner_only), w).
Proof.
  unfold await_none, bind. rewrite _assert_owner_or_admin_eq.
  by destruct (decide (owner_or_admin team user)).
Qed.

Lemma update_team_eq py team_id team_in user w :
  update_team py team_id team_in user w
  = (Raise (owner_operation_error py (db w) team_id user), w).
Proof.
  unfold update_team, owner_operation_error, bind at 1, crud_team_get, query.
  destruct (teams (db w) !! team_id) as [team|]; [|done].
  unfold bind at 1. by rewrite await_none_eq.
Qed.

Lemma delete_team_eq py team_id user w :
  delete_team py team_id user w
  = (Raise (owner_operation_error py (db w) team_id user), w).
Proof.
  unfold delete_team, owner_operation_error, bind at 1, crud_team_get, query.
  destruct (teams (db w) !! team_id) as [team|]; [|done].
  unfold bind at 1. by rewrite await_none_eq.
Qed.

Lemma update_member_role_eq py team_id user_id role user w :
  update_member_role py team_id user_id role user w
  = (Raise (owner_operation_error py (db w) team_id user), w).
Proof.
  unfold update_member_role, owner_operation_error, bind at 1, crud_team_get, query.
  destruct (teams (db w) !! team_id) as [team|]; [|done].
  unfold bind at 1. by rewrite await_none_eq.
Qed.

Lemma owner_operation_forbidden py d team_id team user :
  teams d !! team_id = Some team →
  (is_forbidden (owner_operation_error py d team_id user) = true
   ↔ ¬ owner_or_admin team user)
  ∧ (¬ owner_or_admin team user → owner_operation_error py d team_id user = owner_only).
Proof.
  intros Ht. unfold owner_operation_error. rewrite Ht.
  destruct (decide (owner_or_admin team user)); [|done].
  split; [|done]. by split.
Qed.

(** X8: renaming a team, deleting it and changing a member's role are for
    the team's owner and for admins: on an existing team each of the three
    ends in a Forbidden error exactly when the caller is neither, and then
    nothing has changed. A manager, who passes the check of [add_member] and
    [remove_member], is refused here unless they are the owner or an admin. *)
Theorem team_owner_operations py team_id team user w :
  teams (db w) !! team_id = Some team →
  (∀ team_in,
     forbidden (update_team py team_id team_in user w) ↔ ¬ owner_or_admin team user)
  ∧ (forbidden (delete_team py team_id user w) ↔ ¬ owner_or_admin team user)
  ∧ (∀ user_id role,
       forbidden (update_member_role py team_id user_id role user w)
       ↔ ¬ owner_or_admin team user)
  ∧ (¬ owner_or_admin team user →
       (∀ team_in, update_team py team_id team_in user w = (Raise owner_only, w))
       ∧ delete_team py team_id user w = (Raise owner_only, w)
       ∧ (∀ user_id role,
            update_member_role py team_id user_id role user w = (Raise owner_only, w)))
  ∧ (team_members (db w) !! (team_id, u_id user) = Some RoleManager →
       _assert_manager_or_admin team_id team user w = (Ok tt, w)).
Proof.
  intros Ht.
  destruct (owner_operation_forbidden py (db w) team_id team user Ht) as [Hf He].
  unfold forbidden.
  split; [intros team_in; by rewrite update_team_eq|].
  split; [by rewrite delete_team_eq|].
  split; [intros user_id role; by rewrite update_member_role_eq|]. split.
  - intros Hn. split; [intros team_in; by rewrite update_team_eq, He|].
    split; [by rewrite delete_team_eq, He|].
    intros user_id role. by rewrite update_member_role_eq, He.
  - intros Hm. rewrite _assert_manager_or_admin_eq, decide_True; [done|].
    by right; right.
Qed.

Lemma team_owner_operations_witness :
  delete_team demo_py 10%N bob demo_world = (Raise owner_only, demo_world)
  ∧ update_member_role demo_py 10%N 2%N RoleManager bob demo_world
    = (Raise owner_only, demo_world).
Proof.
  destruct (team_owner_operations demo_py 10%N
              {| team_name := "core"; team_owner_id := 1%N |} bob demo_world)
    as (_ & _ & _ & H & _); [by vm_compute|].
  destruct H as (_ & Hd & Hr).
  - apply (bool_decide_eq_false_1 (owner_or_admin _ _)). by vm_compute.
  - split; [exact Hd|apply Hr].
Defined.

(** X9: [update_team], [delete_team] and [update_member_role] never return.
    Each awaits what [_assert_owner_or_admin] returns, and that helper is a
    plain function, not a coroutine: for the owner and for an admin it
    returns [None], and the [await] raises [TypeError]. So on a team that does
    not exist the three raise "Team not found", for a caller who is neither
    the owner nor an admin they raise Forbidden, for the owner and for an
    admin they raise [TypeError]; in every case nothing is written: no team is
    renamed or deleted, no role is changed, no activity is logged. *)
Theorem team_owner_operations_never_return py team_id user w :
  (∀ team_in,
     update_team py team_id team_in user w
     = (Raise (owner_operation_error py (db w) team_id user), w))
  ∧ delete_team py team_id user w
    = (Raise (owner_operation_error py (db w) team_id user), w)
  ∧ (∀ user_id role,
       update_member_role py team_id user_id role user w
       = (Raise (owner_operation_error py (db w) team_id user), w))
  ∧ (teams (db w) !! team_id = None →
       owner_operation_error py (db w) team_id user
       = not_found "Team" (Some (uuid_str py team_id)))
  ∧ (∀ team,
       teams (db w) !! team_id = Some team →
       owner_operation_error py (db w) team_id user
       = if decide (owner_or_admin team user) then TypeError else owner_only).
Proof.
  split; [intros team_in; apply update_team_eq|].
  split; [apply delete_team_eq|].
  split; [intros user_id role; apply update_member_role_eq|].
  unfold owner_operation_error. split.
  - by intros ->.
  - by intros team ->.
Qed.

Lemma team_owner_operations_never_return_witness :
  update_team demo_py 10%N {| tu_name := Some (Some "platform"); tu_description := None |}
    alice demo_world = (Raise TypeError, demo_world)
  ∧ delete_team demo_py 10%N carol demo_world = (Raise TypeError, demo_world)
  ∧ update_member_role demo_py 10%N 2%N RoleManager alice demo_world
    = (Raise TypeError, demo_world).
Proof.
  destruct (team_owner_operations_never_return demo_py 10%N alice demo_world)
    as (Hu & _ & Hr & _ & Ha).
  destruct (team_owner_operations_never_return demo_py 10%N carol demo_world)
    as (_ & Hd & _ & _ & Hc).
  rewrite Hu, Hd, Hr.
  rewrite (Ha {| team_name := "core"; team_owner_id := 1%N |} eq_refl).
  rewrite (Hc {| team_name := "core"; team_owner_id := 1%N |} eq_refl).
  done.
Defined.

(* ===================================================================== *)
(** ** Teams: owners stay members *)
(* ===================================================================== *)

Lemma create_team_Ok py name current_user w tid team w' :
  create_team py name current_user w = (Ok (tid, team), w') →
  tid = uuid_seed w
  ∧ team = {| team_name := name; team_owner_id := u_id current_user |}
  ∧ team_members (db w) !! (tid, u_id current_user) = None
  ∧ users (db w') = users (db w)
  ∧ teams (db w') = <[tid := team]> (teams (db w))
  ∧ team_members (db w')
    = <[(tid, u_id current_user) := RoleManager]> (team_members (db w))
  ∧ tasks (db w') = tasks (db w)
  ∧ notifications (db w') = notifications (db w).
Proof.
  intros H. unfold create_team in H.
  inv_bind H created w1 H1. destruct created as [i t].
  unfold crud_create_team, bind, uuid4 in H1. rewrite db_flush_eq in H1.
  destruct (flush_ok (next_uuid w)); [|done]. unfold write, ret in H1. simpl in H1.
  injection H1 as <- <- <-.
  inv_bind H m w2 H2. apply crud_add_member_Ok in H2 as (Hnone & Hdb2 & _).
  inv_bind H entry w3 H3. apply log_Ok in H3 as [Hdb3 _].
  injection H as <- <- <-. rewrite Hdb3, Hdb2. simpl in *. done.
Qed.

Lemma remove_member_Ok py team_id user_id current_user w w' :
  remove_member py team_id user_id current_user w = (Ok tt, w') →
  ∃ team role,
    teams (db w) !! team_id = Some team
    ∧ team_owner_id team ≠ user_id
    ∧ can_manage (db w) team_id team current_user
    ∧ team_members (db w) !! (team_id, user_id) = Some role
    ∧ users (db w') = users (db w)
    ∧ teams (db w') = teams (db w)
    ∧ team_members (db w') = delete (team_id, user_id) (team_members (db w))
    ∧ tasks (db w') = tasks (db w)
    ∧ ∃ n, notifications (db w') = notifications (db w) ++ [n]
           ∧ notice n = (user_id, TeamRemoved, Some team_id).
Proof.
  intros H. unfold remove_member in H.
  inv_bind H team w1 H1. inv_query H1.
  destruct (teams (db w) !! team_id) as [team|] eqn:Ht; [|done].
  destruct (decide (team_owner_id team = user_id)) as [|Hno]; [done|].
  inv_bind H x w1 H1. rewrite _assert_manager_or_admin_eq in H1.
  destruct (decide (can_manage (db w) team_id team current_user)) as [Hc|]; [|done].
  injection H1 as _ <-.
  inv_bind H removed w1 H1. unfold crud_remove_member in H1.
  inv_bind H1 member w2 H2. inv_query H2.
  destruct (team_members (db w) !! (team_id, user_id)) as [role|] eqn:Hm;
    simpl in H1; last first.
  { injection H1 as <- <-. done. }
  unfold bind in H1. rewrite db_flush_eq in H1.
  destruct (flush_ok w); [|done]. unfold write, ret in H1. simpl in H1.
  injection H1 as <- <-.
  inv_bind H x1 w2 H2. destruct x1. apply notify_user_Ok in H2.
  inv_bind H entry w3 H3. apply log_Ok in H3 as [Hdb3 _].
  injection H as <-. exists team, role. rewrite Hdb3, H2. simpl.
  repeat (split; [done|]). by eexists.
Qed.

(** X13: the operations of the team service that write ([create_team],
    [add_member], [remove_member]) keep every owner a member of their team
    and every membership attached to an existing team: if both hold before
    an operation that returns, they hold after it. *)
Theorem team_operations_keep_teams_ok py op w w' :
  teams_ok (db w) →
  run_team_op py op w = (Ok tt, w') →
  teams_ok (db w').
Proof.
  intros [Ho Hm] H. destruct op as [name u|tid member_in u|tid uid u]; simpl in H.
  - inv_bind H r w1 H1. injection H as <-. destruct r as [i team].
    apply create_team_Ok in H1 as (-> & -> & _ & _ & Hts & Hms & _).
    split.
    + intros tid team. rewrite Hts, Hms.
      destruct (decide (tid = uuid_seed w)) as [->|Hne].
      * rewrite lookup_insert_eq. intros [= <-]. simpl. rewrite lookup_insert_eq. eauto.
      * rewrite lookup_insert_ne by done. intros Ht.
        rewrite lookup_insert_ne by congruence. by apply (Ho tid).
    + intros tid uid. rewrite Hts, Hms.
      destruct (decide (tid = uuid_seed w)) as [->|Hne].
      * rewrite lookup_insert_eq. eauto.
      * rewrite lookup_insert_ne by congruence. rewrite lookup_insert_ne by done.
        apply Hm.
  - inv_bind H r w1 H1. injection H as <-.
    apply add_member_Ok in H1 as (team & Ht & _ & _ & _ & _ & _ & Hts & _ & Hms).
    split.
    + intros tid' team'. rewrite Hts, Hms. intros Ht'.
      destruct (decide ((tid', team_owner_id team') = (tid, tma_user_id member_in)))
        as [->|Hne].
      * rewrite lookup_insert_eq. eauto.
      * rewrite lookup_insert_ne by done. by apply (Ho tid').
    + intros tid' uid. rewrite Hts, Hms.
      destruct (decide ((tid', uid) = (tid, tma_user_id member_in))) as [[= -> ->]|Hne].
      * intros _. eauto.
      * rewrite lookup_insert_ne by done. apply Hm.
  - apply remove_member_Ok in H
      as (team & role & Ht & Hno & _ & _ & _ & Hts & Hms & _).
    split.
    + intros tid' team'. rewrite Hts, Hms. intros Ht'.
      rewrite lookup_delete_ne; [by apply (Ho tid')|].
      intros [= -> ->]. rewrite Ht in Ht'. injection Ht' as <-. done.
    + intros tid' uid'. rewrite Hts, Hms. intros Hrow. apply (Hm tid' uid').
      destruct (decide ((tid', uid') = (tid, uid))) as [E|Hne].
      * rewrite E, lookup_delete_eq in Hrow. by destruct Hrow.
      * by rewrite lookup_delete_ne in Hrow.
Qed.

Lemma team_operations_keep_teams_ok_witness :
  teams_ok (db (run_team_op demo_py (OpAddMember 10%N invite_dave alice) demo_world).2)
  ∧ teams_ok (db (run_team_op demo_py (OpCreateTeam "ops" dave) demo_world).2)
  ∧ teams_ok (db (run_team_op demo_py (OpRemoveMember 10%N 2%N alice) demo_world).2).
Proof.
  split; [|split].
  - apply (team_operations_keep_teams_ok demo_py
             (OpAddMember 10%N invite_dave alice) demo_world);
      [apply demo_teams_ok|by vm_compute].
  - apply (team_operations_keep_teams_ok demo_py (OpCreateTeam "ops" dave) demo_world);
      [apply demo_teams_ok|by vm_compute].
  - apply (team_operations_keep_teams_ok demo_py (OpRemoveMember 10%N 2%N alice)
             demo_world);
      [apply demo_teams_ok|by vm_compute].
Defined.

(* ===================================================================== *)
(** ** Teams: creation and reading *)
(* ===================================================================== *)

Lemma get_team_eq py team_id current_user w :
  get_team py team_id current_user w
  = (match teams (db w) !! team_id with
     | None => Raise (not_found "Team" (Some (uuid_str py team_id)))
     | Some team =>
         if decide (u_role current_user = RoleAdmin
                    ∨ team_visible (db w) (u_id current_user) team_id)
         then Ok (team, members_of (db w) team_id)
         else Raise (ForbiddenException "You are not a member of this team")
     end, w).
Proof.
  unfold get_team, bind, get_with_members, query.
  destruct (teams (db w) !! team_id) as [team|] eqn:Ht; [|done]. simpl.
  unfold _assert_member_or_admin.
  destruct (decide (u_role current_user = RoleAdmin
                    ∨ team_visible (db w) (u_id current_user) team_id)) as [Hv|Hv];
    unfold team_visible in Hv; rewrite Ht in Hv.
  - destruct (decide (u_role current_user = RoleAdmin)) as [Ha|Ha]; [done|].
    unfold bind, get_member, query. simpl.
    destruct (team_members (db w) !! (team_id, u_id current_user)) as [r|] eqn:Hm;
      simpl; [done|].
    rewrite decide_False; [done|]. intros Hno.
    destruct Hv as [?|[?|[? ?]]]; done.
  - rewrite decide_False by tauto.
    unfold bind, get_member, query. simpl.
    destruct (team_members (db w) !! (team_id, u_id current_user)) as [r|] eqn:Hm;
      simpl.
    + destruct Hv. right. right. eauto.
    + rewrite decide_True; [done|]. intros Heq. apply Hv. right. by left.
Qed.

(** X14: [get_team] reads only. A user who is not an admin can open exactly
    the teams whose ids [get_user_team_ids] returns for them, those they own
    or are a member of; an admin can open every existing team; a team that
    does not exist is "not found" for everybody. The members shown are the
    membership rows of the team. *)
Theorem get_team_matches_team_ids py team_id current_user w :
  (get_team py team_id current_user w).2 = w
  ∧ (u_role current_user ≠ RoleAdmin →
     ((∃ team, (get_team py team_id current_user w).1 = Ok team)
      ↔ team_id ∈ user_team_ids (db w) (u_id current_user)))
  ∧ (u_role current_user = RoleAdmin →
     ((∃ team, (get_team py team_id current_user w).1 = Ok team)
      ↔ is_Some (teams (db w) !! team_id)))
  ∧ (teams (db w) !! team_id = None →
     (get_team py team_id current_user w).1
     = Raise (not_found "Team" (Some (uuid_str py team_id))))
  ∧ (∀ team members,
       (get_team py team_id current_user w).1 = Ok (team, members) →
       teams (db w) !! team_id = Some team
       ∧ ∀ m, m ∈ members
              ↔ tm_team_id m = team_id
                ∧ team_members (db w) !! (team_id, tm_user_id m) = Some (tm_role m)).
Proof.
  rewrite get_team_eq. cbn [fst snd]. split; [done|].
  split; [|split; [|split]].
  - intros Hna. rewrite elem_of_user_team_ids.
    destruct (teams (db w) !! team_id) as [team|] eqn:Ht.
    + destruct (decide (u_role current_user = RoleAdmin
                        ∨ team_visible (db w) (u_id current_user) team_id))
        as [[?|Hv]|Hn]; [done| |].
      * split; [done|]. eauto.
      * split; [by intros [? ?]|]. intros Hv. destruct Hn. by right.
    + split; [by intros [? ?]|]. unfold team_visible. by rewrite Ht.
  - intros Ha. destruct (teams (db w) !! team_id) as [team|] eqn:Ht.
    + rewrite decide_True by (by left). split; eauto.
    + split; [by intros [? ?]|by intros [? ?]].
  - by intros ->.
  - intros team members. destruct (teams (db w) !! team_id) as [team0|] eqn:Ht; [|done].
    destruct (decide _); [|done]. intros [= <- <-]. split; [done|].
    intros m. unfold members_of. rewrite list_elem_of_fmap. split.
    + intros ([[tid uid] r] & -> & Hin). simpl.
      apply elem_of_map_to_list in Hin.
      apply map_lookup_filter_Some in Hin as [Hrow Hp]. simpl in Hp. by subst.
    + intros [<- Hrow]. exists (tm_team_id m, tm_user_id m, tm_role m).
      split; [by destruct m|].
      apply elem_of_map_to_list. by apply map_lookup_filter_Some.
Qed.

(* ===================================================================== *)
(** ** Tasks: creation *)
(* ===================================================================== *)

Lemma never_forbidden_crud_create_task obj_in owner :
  never_forbidden (crud_create_task obj_in owner).
Proof.
  unfold crud_create_task.
  apply never_forbidden_bind; [by intros ???|]. intros i.
  apply never_forbidden_bind; [apply never_forbidden_query|]. intros valid.
  apply never_forbidden_bind.
  { destruct valid; [apply never_forbidden_flush|apply never_forbidden_rejected]. }
  intros _.
  apply never_forbidden_bind; [apply never_forbidden_query|]. intros created.
  apply never_forbidden_bind; [apply never_forbidden_write|]. intros _.
  apply never_forbidden_ret.
Qed.

#[local] Hint Resolve never_forbidden_crud_create_task : forbid.

(** The membership check [create_task] begins with. *)
Lemma create_task_check_eq task_in current_user w :
  match tc_team_id task_in with
  | Some team_id =>
      let* member := get_member team_id (u_id current_user) in
      match member with
      | None =>
          if decide (u_role current_user ≠ RoleAdmin)
          then raise (ForbiddenException
                        "You must be a member of the team to create tasks for it")
          else ret tt
      | Some _ => ret tt
      end
  | None => ret tt
  end w
  = (if decide (may_create_for (db w) task_in current_user)
     then Ok tt else Raise members_only, w).
Proof.
  destruct (decide (may_create_for (db w) task_in current_user)) as [Hc|Hc];
    unfold may_create_for in Hc;
    destruct (tc_team_id task_in) as [tid|]; try done;
    unfold bind, get_member, query; simpl;
    destruct (team_members (db w) !! (tid, u_id current_user)) as [r|]; simpl;
    try done.
  - destruct Hc as [[? ?]|Ha]; [done|]. by rewrite decide_False by (by intros ?).
  - destruct Hc. left. eauto.
  - rewrite decide_True; [done|]. intros Ha. apply Hc. by right.
Qed.

Lemma create_task_gate py task_in current_user w :
  (forbidden (create_task py task_in current_user w)
   ↔ ¬ may_create_for (db w) task_in current_user)
  ∧ (¬ may_create_for (db w) task_in current_user →
     create_task py task_in current_user w = (Raise members_only, w)).
Proof.
  assert (∃ k, never_forbidden k
               ∧ create_task py task_in current_user w
                 = (if decide (may_create_for (db w) task_in current_user)
                    then k w else (Raise members_only, w))) as (k & Hk & Heq).
  { eexists. split; last first.
    { unfold create_task. unfold bind at 1. rewrite create_task_check_eq.
      destruct (decide _); [reflexivity|done]. }
    forbid. }
  rewrite Heq. destruct (decide _) as [Hc|Hc].
  - split; [|done]. split; [|done]. unfold forbidden.
    destruct (k w) as [[a|e] w1] eqn:E; simpl; [done|].
    by rewrite (Hk _ _ _ E).
  - split; [|done]. by split.
Qed.

(** X15: creating a task for a team is refused with a Forbidden error
    exactly when the creator holds no membership row in that team and is not
    an admin; nothing has changed then. Only the row counts: the team's owner
    without a row is refused, and whether the team exists is not looked at. A
    task without a team is never refused. *)
Theorem create_task_membership py task_in current_user w :
  (forbidden (create_task py task_in current_user w)
   ↔ ¬ may_create_for (db w) task_in current_user)
  ∧ (¬ may_create_for (db w) task_in current_user →
     create_task py task_in current_user w = (Raise members_only, w))
  ∧ (tc_team_id task_in = None → ¬ forbidden (create_task py task_in current_user w))
  ∧ (∀ team_id team,
       tc_team_id task_in = Some team_id →
       teams (db w) !! team_id = Some team →
       team_owner_id team = u_id current_user →
       u_role current_user ≠ RoleAdmin →
       team_members (db w) !! (team_id, u_id current_user) = None →
       create_task py task_in current_user w = (Raise members_only, w)).
Proof.
  destruct (create_task_gate py task_in current_user w) as [Hiff Hden].
  split; [done|]. split; [done|]. split.
  - intros Hnone. rewrite Hiff. intros Hn. apply Hn.
    unfold may_create_for. by rewrite Hnone.
  - intros team_id team Hteam _ _ Hna Hrow. apply Hden.
    unfold may_create_for. rewrite Hteam, Hrow. intros [[? ?]|?]; done.
Qed.



Lemma create_task_membership_witness :
  create_task demo_py task_for_ops dave owner_without_row_world
  = (Raise members_only, owner_without_row_world).
Proof.
  destruct (create_task_membership demo_py task_for_ops dave owner_without_row_world)
    as (_ & _ & _ & H).
  by apply (H 20%N {| team_name := "ops"; team_owner_id := 4%N |}).
Defined.


(** X17: when the database accepts the writes and the new id is not taken,
    [create_team] returns a team owned by its creator and stores, besides the
    team, a manager row for the creator: the creator passes the check for
    managing members, can open the team, finds it among their team ids and
    may create tasks for it. *)
Theorem create_team_owner_is_manager py name current_user w :
  calm w →
  team_members (db w) !! (uuid_seed w, u_id current_user) = None →
  let tid := uuid_seed w in
  let team := {| team_name := name; team_owner_id := u_id current_user |} in
  ∃ w',
    create_team py name current_user w = (Ok (tid, team), w')
    ∧ teams (db w') = <[tid := team]> (teams (db w))
    ∧ team_members (db w')
      = <[(tid, u_id current_user) := RoleManager]> (team_members (db w))
    ∧ _assert_manager_or_admin tid team current_user w' = (Ok tt, w')
    ∧ (get_team py tid current_user w').1 = Ok (team, members_of (db w') tid)
    ∧ tid ∈ user_team_ids (db w') (u_id current_user)
    ∧ (∀ task_in, tc_team_id task_in = Some tid →
         ¬ forbidden (create_task py task_in current_user w'))
    ∧ tasks (db w') = tasks (db w)
    ∧ notifications (db w') = notifications (db w).
Proof.
  intros Hc Hnone tid team.
  assert (∃ w', create_team py name current_user w = (Ok (tid, team), w')) as [w' H].
  { unfold create_team.
    assert (crud_create_team name (u_id current_user) w
            = (Ok (tid, team),
               set_db (set_teams (insert tid team))
                 (emit (DbFlush true) (pop_fault (next_uuid w))))) as H1.
    { unfold crud_create_team, bind, uuid4. rewrite db_flush_eq.
      replace (flush_ok (next_uuid w)) with (flush_ok w) by done.
      by rewrite (calm_flush_ok _ Hc). }
    rewrite (bind_Ok _ _ _ _ _ H1). cbv beta iota.
    destruct (crud_add_member_calm tid (u_id current_user) RoleManager
                (set_db (set_teams (insert tid team))
                   (emit (DbFlush true) (pop_fault (next_uuid w)))))
      as (w2 & H2 & Hc2).
    { unfold calm in *. simpl. by rewrite Hc. }
    { done. }
    rewrite (bind_Ok _ _ _ _ _ H2).
    destruct (log_calm py (u_id current_user) "team_created" "team" tid
                (Some [("name", MStr (team_name team))]) w2 Hc2 eq_refl)
      as (entry & w3 & H3 & _).
    rewrite (bind_Ok _ _ _ _ _ H3). by eexists. }
  exists w'. split; [done|].
  apply create_team_Ok in H as (_ & _ & _ & _ & Hts & Hms & Htk & Hns).
  split; [done|]. split; [done|].
  assert (team_visible (db w') (u_id current_user) tid) as Hv.
  { unfold team_visible. rewrite Hts, lookup_insert_eq. by left. }
  split; [|split; [|split; [|split; [|done]]]].
  - rewrite _assert_manager_or_admin_eq, decide_True; [done|]. right. by left.
  - rewrite get_team_eq. simpl. rewrite Hts, lookup_insert_eq.
    rewrite decide_True; [done|]. by right.
  - by apply elem_of_user_team_ids.
  - intros task_in Hteam.
    destruct (create_task_gate py task_in current_user w') as [-> _].
    intros Hn. apply Hn. unfold may_create_for. rewrite Hteam, Hms.
    left. rewrite lookup_insert_eq. eauto.
Qed.

Lemma create_team_owner_is_manager_witness :
  ∃ w',
    create_team demo_py "ops" dave demo_world
    = (Ok (500%N, {| team_name := "ops"; team_owner_id := 4%N |}), w')
    ∧ team_members (db w') !! (500%N, 4%N) = Some RoleManager.
Proof.
  destruct (create_team_owner_is_manager demo_py "ops" dave demo_world)
    as (w' & H & _ & Hms & _); [done|done|].
  exists w'. split; [exact H|]. rewrite Hms. by rewrite lookup_insert_eq.
Defined.

(* ===================================================================== *)
(** ** Tasks: the tasks of a team, archived tasks, listings and reading *)
(* ===================================================================== *)

(** X18: the listing of a team's tasks asks for no membership: whoever the
    caller is, it returns a page, newest first, of the tasks of the team
    (the unarchived ones unless asked otherwise) and their number, every such
    task is on some page, and the answer does not depend on the caller. A
    caller for whom [get_task] refuses a task can therefore still find it
    here. *)
Theorem list_team_tasks_any_caller py team_id current_user page size include_archived w :
  let mine := team_task team_id include_archived in
  ∃ items,
    list_team_tasks team_id current_user page size include_archived w
    = (Ok (items, length (filter mine (map_to_list (tasks (db w))))), w)
    ∧ (∀ other,
         list_team_tasks team_id other page size include_archived w
         = list_team_tasks team_id current_user page size include_archived w)
    ∧ (∀ row, row ∈ items → tasks (db w) !! row.1 = Some row.2 ∧ mine row)
    ∧ (length items ≤ Pos.to_nat size)%nat
    ∧ StronglySorted newest_first items
    ∧ (∀ task_id task,
         tasks (db w) !! task_id = Some task → mine (task_id, task) →
         ∃ page' items' total,
           list_team_tasks team_id current_user page' size include_archived w
           = (Ok (items', total), w) ∧ (task_id, task) ∈ items')
    ∧ (∀ row, row ∈ items → ¬ can_view (db w) row.2 current_user →
         get_task py row.1 current_user w = (Raise view_denied, w)).
Proof.
  intros mine. unfold list_team_tasks, list_by_team, query.
  eexists. split; [done|]. fold mine. split; [done|].
  assert (∀ row,
            row ∈ take (Pos.to_nat size)
                    (drop ((Pos.to_nat page - 1) * Pos.to_nat size)
                       (merge_sort newest_first
                          (filter mine (map_to_list (tasks (db w)))))) →
            tasks (db w) !! row.1 = Some row.2 ∧ mine row) as Hrows.
  { intros [i t] Hin. apply page_subseteq in Hin.
    apply list_elem_of_filter in Hin as [Hm Hin].
    by apply elem_of_map_to_list in Hin. }
  split; [done|]. split; [rewrite length_take; lia|].
  split; [apply page_StronglySorted; apply _|]. split.
  - intros task_id task Ht Hm.
    destruct (elem_of_some_page (task_id, task)
                (merge_sort newest_first (filter mine (map_to_list (tasks (db w)))))
                size) as [page' Hp].
    { rewrite merge_sort_Permutation. apply list_elem_of_filter. split; [done|].
      by apply elem_of_map_to_list. }
    exists page'. eexists _, _. split; [done|]. exact Hp.
  - intros row Hin Hnv. destruct (Hrows row Hin) as [Ht _].
    unfold get_task, bind, crud_task_get, query. rewrite Ht.
    by rewrite _assert_can_view_eq, decide_False.
Qed.

Lemma list_team_tasks_any_caller_witness :
  list_team_tasks 10%N dave 1 20 false demo_world
  = (Ok ([(100%N, demo_task)], 1%nat), demo_world)
  ∧ get_task demo_py 100%N dave demo_world = (Raise view_denied, demo_world).
Proof.
  destruct (list_team_tasks_any_caller demo_py 10%N dave 1 20 false demo_world)
    as (items & H & _ & _ & _ & _ & _ & Hg).
  assert (list_team_tasks 10%N dave 1 20 false demo_world
          = (Ok ([(100%N, demo_task)], 1%nat), demo_world)) as Hl by (by vm_compute).
  split; [exact Hl|].
  rewrite Hl in H. injection H as <-.
  apply (Hg (100%N, demo_task)); [by left|].
  apply (bool_decide_eq_false_1 (can_view _ _ _)). by vm_compute.
Defined.

Lemma delete_task_Ok py task_id current_user w deleted w' :
  delete_task py task_id current_user w = (Ok deleted, w') →
  ∃ task,
    tasks (db w) !! task_id = Some task
    ∧ can_modify (db w) task current_user
    ∧ deleted = archive_of task
    ∧ users (db w') = users (db w)
    ∧ teams (db w') = teams (db w)
    ∧ team_members (db w') = team_members (db w)
    ∧ tasks (db w') = <[task_id := archive_of task]> (tasks (db w))
    ∧ notifications (db w') = notifications (db w).
Proof.
  intros H. unfold delete_task in H.
  inv_bind H t w1 H1. inv_query H1.
  destruct (tasks (db w) !! task_id) as [task|] eqn:Ht; [|done].
  inv_bind H x w1 H1. rewrite _assert_can_modify_eq in H1.
  destruct (decide (can_modify (db w) task current_user)) as [Hc|]; [|done].
  injection H1 as _ <-.
  inv_bind H a w1 H1. unfold archive, bind in H1. rewrite db_flush_eq in H1.
  destruct (flush_ok w); [|done]. unfold write, ret in H1. simpl in H1.
  injection H1 as <- <-.
  inv_bind H entry w2 H2. apply log_Ok in H2 as [Hdb2 _].
  injection H as <- <-. exists task. rewrite Hdb2. simpl. done.
Qed.

Lemma where_filters_archived py filters t :
  where_filters py filters t → is_archived t = f_is_archived filters.
Proof.
  unfold where_filters. rewrite !andb_True. intros (((((((H & _) & _) & _) & _) & _) & _) & _).
  by apply bool_decide_unpack in H.
Qed.

(** X19: deleting a task archives it. The row stays, changed in nothing
    but the flag; the one who deleted it can still read it with [get_task];
    no listing that leaves out archived tasks (the default) shows it to
    anybody any more; nobody is notified. *)
Theorem delete_task_archives py task_id current_user w deleted w' :
  delete_task py task_id current_user w = (Ok deleted, w') →
  (∃ task, tasks (db w) !! task_id = Some task ∧ deleted = archive_of task)
  ∧ is_archived deleted = true
  ∧ tasks (db w') = <[task_id := deleted]> (tasks (db w))
  ∧ get_task py task_id current_user w' = (Ok deleted, w')
  ∧ (∀ filters user row items total,
       f_is_archived filters = false →
       list_tasks py filters user w' = (Ok (items, total), w') →
       row ∈ items → row.1 ≠ task_id)
  ∧ (∀ team_id user page size row items total,
       list_team_tasks team_id user page size false w' = (Ok (items, total), w') →
       row ∈ items → row.1 ≠ task_id)
  ∧ notifications (db w') = notifications (db w).
Proof.
  intros H.
  apply delete_task_Ok in H as (task & Ht & Hc & -> & _ & _ & Hms & Htk & Hns).
  split; [eauto|]. split; [done|]. split; [done|].
  assert (tasks (db w') !! task_id = Some (archive_of task)) as Ht'.
  { by rewrite Htk, lookup_insert_eq. }
  split; [|split; [|split; [|done]]].
  - unfold get_task, bind, crud_task_get, query. rewrite Ht'.
    rewrite _assert_can_view_eq, decide_True; [done|].
    destruct Hc as [?|[?|Hm]]; [by left|by right; left|].
    right; right; right. unfold manages_team_of in Hm.
    unfold member_of_team_of. simpl.
    destruct (task_team_id task) as [tid|]; [|done]. rewrite Hms, Hm. eauto.
  - intros filters user [i t] items total Hfa. rewrite list_tasks_eq.
    intros [= <- _] Hin%page_of_subseteq.
    apply list_elem_of_filter in Hin as [[_ Hw] Hin].
    apply elem_of_map_to_list in Hin. simpl in *. intros ->.
    rewrite Ht' in Hin. injection Hin as <-.
    apply where_filters_archived in Hw. rewrite Hfa in Hw. done.
  - intros team_id user page size [i t] items total.
    unfold list_team_tasks, list_by_team, query. intros [= <- _] Hin.
    apply page_subseteq in Hin. apply list_elem_of_filter in Hin as [[_ Ha] Hin].
    apply elem_of_map_to_list in Hin. simpl in *. intros ->.
    rewrite Ht' in Hin. injection Hin as <-. by specialize (Ha eq_refl).
Qed.

Lemma delete_task_archives_witness :
  let w' := (delete_task demo_py 100%N alice demo_world).2 in
  get_task demo_py 100%N alice w' = (Ok (archive_of demo_task), w')
  ∧ tasks (db w') = <[100%N := archive_of demo_task]> (tasks demo_db).
Proof.
  intros w'.
  destruct (delete_task_archives demo_py 100%N alice demo_world (archive_of demo_task) w')
    as (_ & _ & Ht & Hg & _); [by vm_compute|].
  split; [exact Hg|exact Ht].
Defined.

(** X20: where every team's owner holds a membership row in it, whatever
    a listing shows a user, that user can open: [get_task] returns each row
    of every page of [list_tasks]. *)
Theorem listed_tasks_can_be_read py filters current_user w :
  owners_are_members (db w) →
  ∃ items total,
    list_tasks py filters current_user w = (Ok (items, total), w)
    ∧ ∀ row, row ∈ items → get_task py row.1 current_user w = (Ok row.2, w).
Proof.
  intros Ho. rewrite list_tasks_eq. eexists _, _. split; [done|].
  intros [i t] Hin. apply page_of_subseteq in Hin.
  apply list_elem_of_filter in Hin as [[Hs _] Hin].
  apply elem_of_map_to_list in Hin. simpl in *.
  unfold get_task, bind, crud_task_get, query. rewrite Hin.
  rewrite _assert_can_view_eq, decide_True; [done|].
  destruct Hs as [Ha|[Hown|[Hass|Hteam]]]; [by left|by right; left|by right; right; left|].
  right; right; right. unfold member_of_team_of.
  destruct (task_team_id t) as [tid|]; [|done].
  unfold team_visible in Hteam.
  destruct (teams (db w) !! tid) as [team|] eqn:Ht; [|done].
  destruct Hteam as [<-|Hrow]; [|done]. by apply (Ho tid).
Qed.

Lemma listed_tasks_can_be_read_witness :
  ∃ items total,
    list_tasks demo_py all_tasks bob demo_world = (Ok (items, total), demo_world)
    ∧ ∀ row, row ∈ items → get_task demo_py row.1 bob demo_world = (Ok row.2, demo_world).
Proof.
  apply (listed_tasks_can_be_read demo_py all_tasks bob demo_world).
  intros tid team Ht. simpl in Ht.
  apply lookup_singleton_Some in Ht as [<- <-].
  apply (bool_decide_unpack _). by vm_compute.
Defined.

(* ===================================================================== *)
(** ** Teams: a member added and removed again; owners never change *)
(* ===================================================================== *)

Lemma add_member_notifies py team_id member_in current_user w member w' :
  add_member py team_id member_in current_user w = (Ok member, w') →
  ∃ n, notifications (db w') = notifications (db w) ++ [n]
       ∧ notice n = (tma_user_id member_in, TeamInvite, Some team_id).
Proof.
  intros H. unfold add_member in H.
  inv_bind H team w1 H1. inv_query H1.
  destruct (teams (db w) !! team_id) as [team|] eqn:Ht; [|done].
  inv_bind H x w1 H1. rewrite _assert_manager_or_admin_eq in H1.
  destruct (decide (can_manage (db w) team_id team current_user)) as [Hc|]; [|done].
  injection H1 as _ <-.
  inv_bind H target w1 H1. inv_query H1.
  destruct (users (db w) !! tma_user_id member_in) as [tu|] eqn:Hu; [|done].
  inv_bind H existing w1 H1. inv_query H1.
  destruct (team_members (db w) !! (team_id, tma_user_id member_in)) eqn:Hm; [done|].
  simpl in H.
  inv_bind H m w1 H1. apply crud_add_member_Ok in H1 as (_ & Hdb1 & ->).
  inv_bind H x1 w2 H2. destruct x1. apply notify_user_Ok in H2.
  inv_bind H entry w3 H3. apply log_Ok in H3 as [H3 _].
  injection H as <- <-. rewrite H3, H2, Hdb1. simpl. by eexists.
Qed.

(** X21: a member just added can be removed again by the same caller, and
    then the memberships are what they were before the two calls, while the
    user has been told twice, of the invitation and of the removal. The one
    exception is the team's owner: a membership row added for the owner
    cannot be removed. *)
Theorem add_then_remove_member py team_id member_in current_user w member w1 :
  add_member py team_id member_in current_user w = (Ok member, w1) →
  calm w1 →
  ∃ team,
    teams (db w) !! team_id = Some team
    ∧ (team_owner_id team = tma_user_id member_in →
       remove_member py team_id (tma_user_id member_in) current_user w1
       = (Raise (ForbiddenException "Cannot remove the team owner"), w1))
    ∧ (team_owner_id team ≠ tma_user_id member_in →
       ∃ w2 invited removed,
         remove_member py team_id (tma_user_id member_in) current_user w1 = (Ok tt, w2)
         ∧ team_members (db w2) = team_members (db w)
         ∧ teams (db w2) = teams (db w)
         ∧ notifications (db w2) = notifications (db w) ++ [invited; removed]
         ∧ notice invited = (tma_user_id member_in, TeamInvite, Some team_id)
         ∧ notice removed = (tma_user_id member_in, TeamRemoved, Some team_id)).
Proof.
  intros H Hc1.
  destruct (add_member_notifies _ _ _ _ _ _ _ H) as (invited & Hns1 & Hinv).
  apply add_member_Ok in H
    as (team & Ht & Hc & Hu & Hnone & -> & Hus & Hts & _ & Hms).
  exists team. split; [done|]. split.
  - intros Hown. unfold remove_member, bind, crud_team_get, query.
    rewrite Hts, Ht. by rewrite decide_True.
  - intros Hno.
    assert (∃ w2, remove_member py team_id (tma_user_id member_in) current_user w1
                  = (Ok tt, w2)) as [w2 H2].
    { unfold remove_member.
      rewrite (bind_Ok _ _ w1 (Some team) w1)
        by (unfold crud_team_get, query; by rewrite Hts, Ht).
      cbv beta iota. rewrite decide_False by done.
      rewrite (bind_Ok _ _ w1 tt w1).
      2:{ rewrite _assert_manager_or_admin_eq, decide_True; [done|].
          destruct Hc as [?|[?|Hrow]]; [by left|by right; left|right; right].
          rewrite Hms, lookup_insert_ne; [done|]. intros [= E]. congruence. }
      assert (crud_remove_member team_id (tma_user_id member_in) w1
              = (Ok (Some {| tm_team_id := team_id; tm_user_id := tma_user_id member_in;
                             tm_role := tma_role member_in |}),
                 set_db (set_team_members (delete (team_id, tma_user_id member_in)))
                   (emit (DbFlush true) (pop_fault w1)))) as Hr.
      { unfold crud_remove_member, bind, get_member, query.
        rewrite Hms, lookup_insert_eq. simpl.
        by rewrite db_flush_eq, (calm_flush_ok _ Hc1). }
      rewrite (bind_Ok _ _ _ _ _ Hr). cbv beta iota.
      unfold notify_team_removed.
      match goal with
      | |- context [notify_user py ?u ?m ?t ?r] =>
          destruct (notify_user_calm py u m t r
                      (set_db (set_team_members
                                 (delete (team_id, tma_user_id member_in)))
                         (emit (DbFlush true) (pop_fault w1))))
            as (w3 & H3 & Hc3)
      end.
      { unfold calm in *. simpl. by rewrite Hc1. }
      rewrite (bind_Ok _ _ _ _ _ H3).
      match goal with
      | |- context [log py ?u ?a ?e ?i ?m] =>
          destruct (log_calm py u a e i m w3 Hc3 eq_refl) as (entry & w4 & H4 & _)
      end.
      rewrite (bind_Ok _ _ _ _ _ H4). by eexists. }
    pose proof H2 as H2'.
    apply remove_member_Ok in H2'
      as (team' & role & _ & _ & _ & _ & _ & Hts2 & Hms2 & _ & removed & Hns2 & Hrem).
    exists w2, invited, removed. split; [done|].
    split; [|split; [by rewrite Hts2|split; [|done]]].
    + rewrite Hms2, Hms, delete_insert_eq. by apply delete_id.
    + by rewrite Hns2, Hns1, <- app_assoc.
Qed.

Lemma add_then_remove_member_witness :
  let w1 := (add_member demo_py 10%N invite_dave alice demo_world).2 in
  ∃ w2,
    remove_member demo_py 10%N 4%N alice w1 = (Ok tt, w2)
    ∧ team_members (db w2) = team_members demo_db.
Proof.
  intros w1.
  destruct (add_then_remove_member demo_py 10%N invite_dave alice demo_world
              {| tm_team_id := 10%N; tm_user_id := 4%N; tm_role := RoleMember |} w1)
    as (team & Ht & _ & Hr); [by vm_compute|by vm_compute|].
  simpl in Ht. apply lookup_singleton_Some in Ht as [_ <-].
  destruct Hr as (w2 & _ & _ & H & Hms & _); [done|].
  by exists w2.
Defined.

(** X22: no operation of the team service that writes ([create_team],
    [add_member], [remove_member]) hands a team over, renames it or deletes
    it: when the new id is not taken, every team that exists before an
    operation that returns is there afterwards, with the same name and the
    same owner. *)
Theorem team_owner_never_changes py op w w' :
  teams (db w) !! uuid_seed w = None →
  run_team_op py op w = (Ok tt, w') →
  ∀ tid team,
    teams (db w) !! tid = Some team →
    teams (db w') !! tid = Some team.
Proof.
  intros Hfresh H tid0 team0 Ht0.
  destruct op as [name u|tid member_in u|tid uid u]; simpl in H.
  - inv_bind H r w1 H1. injection H as <-. destruct r as [i team].
    apply create_team_Ok in H1 as (-> & -> & _ & _ & Hts & _).
    assert (uuid_seed w ≠ tid0) as Hne.
    { intros E. rewrite E in Hfresh.
      assert (teams (db w) !! tid0 = None) as Hf by exact Hfresh.
      by rewrite Ht0 in Hf. }
    by rewrite Hts, lookup_insert_ne.
  - inv_bind H r w1 H1. injection H as <-.
    apply add_member_Ok in H1 as (team & _ & _ & _ & _ & _ & _ & Hts & _).
    by rewrite Hts.
  - apply remove_member_Ok in H as (team & role & _ & _ & _ & _ & _ & Hts & _).
    by rewrite Hts.
Qed.

Lemma team_owner_never_changes_witness :
  let w' := (run_team_op demo_py (OpCreateTeam "ops" dave) demo_world).2 in
  teams (db w') !! 10%N = Some {| team_name := "core"; team_owner_id := 1%N |}
  ∧ (team_owner_id <$> teams (db w') !! uuid_seed demo_world) = Some (u_id dave).
Proof.
  intros w'. split; [|by vm_compute].
  apply (team_owner_never_changes demo_py (OpCreateTeam "ops" dave) demo_world w'
           ltac:(by vm_compute) ltac:(by vm_compute) 10%N).
  by vm_compute.
Defined.

(* ===================================================================== *)
(** ** Tasks: what the task service leaves alone *)
(* ===================================================================== *)

Lemma keeps_teams_bind {A B} (c : M A) (k : A → M B) :
  keeps_teams c → (∀ a, keeps_teams (k a)) → keeps_teams (bind c k).
Proof.
  intros Hc Hk w. unfold bind. specialize (Hc w).
  destruct (c w) as [[a|e] w1]; simpl in *; [|done].
  destruct (Hk a w1) as (-> & -> & ->). done.
Qed.

Lemma keeps_teams_ret {A} (a : A) : keeps_teams (ret a).
Proof. by intros w. Qed.

Lemma keeps_teams_raise {A} e : keeps_teams (raise (A := A) e).
Proof. by intros w. Qed.

Lemma keeps_teams_query {A} (f : Database → A) : keeps_teams (query f).
Proof. by intros w. Qed.

Lemma keeps_teams_flush : keeps_teams db_flush.
Proof. intros w. rewrite db_flush_eq. done. Qed.

Lemma keeps_teams_rejected {A} e : keeps_teams (db_flush_rejected (A := A) e).
Proof. by intros w. Qed.

Lemma keeps_teams_set_tasks f : keeps_teams (write (set_tasks f)).
Proof. by intros w. Qed.

Lemma keeps_teams_uuid4 : keeps_teams uuid4.
Proof. by intros w. Qed.

Lemma keeps_teams_log py user_id action entity_type entity_id meta :
  keeps_teams (log py user_id action entity_type entity_id meta).
Proof.
  intros w. rewrite log_eq. by destruct (meta_serializable meta && flush_ok w).
Qed.

Lemma keeps_teams_notify_user py user_id message type reference_id :
  keeps_teams (notify_user py user_id message type reference_id).
Proof.
  intros w. rewrite notify_user_eq. destruct (flush_ok w); [|done].
  simpl. by rewrite send_personal_message_eq.
Qed.

Lemma keeps_teams_assert_can_modify task user :
  keeps_teams (_assert_can_modify task user).
Proof. intros w. rewrite _assert_can_modify_eq. done. Qed.

Lemma keeps_teams_crud_task_update task_id db_obj obj_in :
  keeps_teams (crud_task_update task_id db_obj obj_in).
Proof.
  unfold crud_task_update. destruct (apply_task_update obj_in db_obj).
  - apply keeps_teams_bind; [apply keeps_teams_query|]. intros [|].
    + apply keeps_teams_bind; [apply keeps_teams_flush|]. intros _.
      apply keeps_teams_bind; [apply keeps_teams_set_tasks|]. intros _.
      apply keeps_teams_ret.
    + apply keeps_teams_rejected.
  - apply keeps_teams_rejected.
Qed.

Lemma keeps_teams_archive task_id task : keeps_teams (archive task_id task).
Proof.
  unfold archive.
  apply keeps_teams_bind; [apply keeps_teams_flush|]. intros _.
  apply keeps_teams_bind; [apply keeps_teams_set_tasks|]. intros _.
  apply keeps_teams_ret.
Qed.

Lemma keeps_teams_crud_create_task obj_in owner :
  keeps_teams (crud_create_task obj_in owner).
Proof.
  unfold crud_create_task.
  apply keeps_teams_bind; [apply keeps_teams_uuid4|]. intros i.
  apply keeps_teams_bind; [apply keeps_teams_query|]. intros valid.
  apply keeps_teams_bind.
  { destruct valid; [apply keeps_teams_flush|apply keeps_teams_rejected]. }
  intros _.
  apply keeps_teams_bind; [apply keeps_teams_query|]. intros created.
  apply keeps_teams_bind; [apply keeps_teams_set_tasks|]. intros _.
  apply keeps_teams_ret.
Qed.

Create HintDb keeps.
#[local] Hint Resolve keeps_teams_ret keeps_teams_raise keeps_teams_query
  keeps_teams_flush keeps_teams_log keeps_teams_notify_user
  keeps_teams_assert_can_modify keeps_teams_crud_task_update keeps_teams_archive
  keeps_teams_crud_create_task : keeps.

Ltac keeps :=
  repeat first
    [ solve [eauto with keeps]
    | apply keeps_teams_bind; [|intros ?]
    | progress unfold notify_task_assigned, notify_task_updated, crud_task_get,
        get_member
    | case_match ].

(** X23: no operation of the task service, whether it returns or raises,
    changes a user, a team or a membership; so it keeps every owner a member
    and every membership attached to a team. *)
Theorem task_operations_keep_teams py op w :
  let w' := (run_task_op py op w).2 in
  users (db w') = users (db w)
  ∧ teams (db w') = teams (db w)
  ∧ team_members (db w') = team_members (db w)
  ∧ (teams_ok (db w) → teams_ok (db w')).
Proof.
  intros w'.
  assert (keeps_teams (run_task_op py op)) as Hk.
  { destruct op as [task_in u|task_id task_in u|task_id a u|task_id u]; simpl.
    - unfold create_task. keeps.
    - unfold update_task. keeps.
    - unfold assign_task. keeps.
    - unfold delete_task. keeps. }
  destruct (Hk w) as (Hu & Ht & Hm). fold w' in Hu, Ht, Hm.
  split; [done|]. split; [done|]. split; [done|].
  unfold teams_ok, owners_are_members, memberships_have_teams.
  by rewrite Ht, Hm.
Qed.

(* ===================================================================== *)
(** ** Membership and access to the tasks of a team *)
(* ===================================================================== *)

(** X24: a member added to a team can read every task of the team at once
    and may create tasks for it; whether they may change a task they do not
    own depends on the role they were given. *)
Theorem add_member_grants_access py team_id member_in current_user w member w' :
  add_member py team_id member_in current_user w = (Ok member, w') →
  ∀ user,
    u_id user = tma_user_id member_in →
    (∀ task_id task,
       tasks (db w') !! task_id = Some task → task_team_id task = Some team_id →
       get_task py task_id user w' = (Ok task, w')
       ∧ (u_role user ≠ RoleAdmin → owner_id task ≠ u_id user →
          ∀ task_in,
            forbidden (update_task py task_id task_in user w')
            ↔ tma_role member_in = RoleMember))
    ∧ (∀ task_in, tc_team_id task_in = Some team_id →
         ¬ forbidden (create_task py task_in user w')).
Proof.
  intros H user Hu.
  apply add_member_Ok in H as (team & _ & _ & _ & _ & _ & _ & _ & _ & Hms).
  assert (team_members (db w') !! (team_id, u_id user) = Some (tma_role member_in))
    as Hrow.
  { by rewrite Hms, Hu, lookup_insert_eq. }
  split.
  - intros task_id task Ht Hteam. split.
    + unfold get_task, bind, crud_task_get, query. rewrite Ht.
      rewrite _assert_can_view_eq, decide_True; [done|].
      right; right; right. unfold member_of_team_of. rewrite Hteam, Hrow. eauto.
    + intros Hna Hno task_in.
      destruct (update_task_gate py task_id task_in user w' task Ht) as (k & Hk & ->).
      destruct (gated_forbidden k task user w' Hk) as [-> _].
      unfold can_modify, manages_team_of. rewrite Hteam, Hrow. split.
      * intros Hn. destruct (tma_role member_in); [done|]. destruct Hn. by right; right.
      * intros -> [?|[?|?]]; done.
  - intros task_in Hteam.
    destruct (create_task_gate py task_in user w') as [-> _].
    intros Hn. apply Hn. unfold may_create_for. rewrite Hteam, Hrow. left. eauto.
Qed.

Lemma add_member_grants_access_witness :
  let w' := (add_member demo_py 10%N invite_dave alice demo_world).2 in
  get_task demo_py 100%N dave w' = (Ok demo_task, w')
  ∧ (forbidden (update_task demo_py 100%N retitle dave w') ↔ RoleMember = RoleMember).
Proof.
  intros w'.
  destruct (add_member_grants_access demo_py 10%N invite_dave alice demo_world
              {| tm_team_id := 10%N; tm_user_id := 4%N; tm_role := RoleMember |} w'
              ltac:(by vm_compute) dave eq_refl) as [Ht _].
  destruct (Ht 100%N demo_task) as [Hg Hu]; [done..|].
  split; [exact Hg|]. by apply Hu.
Defined.

(** X25: a removed member is told so and loses what the membership gave: a
    task of the team that they neither own nor are assigned to can no longer
    be read by them and no longer appears in their listings. *)
Theorem remove_member_revokes_access py team_id user_id current_user w w' :
  remove_member py team_id user_id current_user w = (Ok tt, w') →
  (∃ n, notifications (db w') = notifications (db w) ++ [n]
        ∧ notice n = (user_id, TeamRemoved, Some team_id))
  ∧ ∀ user task_id task,
      u_id user = user_id → u_role user ≠ RoleAdmin →
      tasks (db w') !! task_id = Some task → task_team_id task = Some team_id →
      owner_id task ≠ user_id → assigned_to_id task ≠ Some user_id →
      get_task py task_id user w' = (Raise view_denied, w')
      ∧ ∀ filters items total,
          list_tasks py filters user w' = (Ok (items, total), w') →
          (task_id, task) ∉ items.
Proof.
  intros H.
  apply remove_member_Ok in H
    as (team & role & Ht & Hno & _ & _ & _ & Hts & Hms & _ & Hns).
  split; [done|].
  intros user task_id task Hu Hna Htask Hteam Hown Hass.
  assert (team_members (db w') !! (team_id, u_id user) = None) as Hrow.
  { by rewrite Hms, Hu, lookup_delete_eq. }
  split.
  - unfold get_task, bind, crud_task_get, query. rewrite Htask.
    rewrite _assert_can_view_eq, decide_False; [done|].
    unfold can_view, member_of_team_of. rewrite Hteam, Hrow, Hu.
    intros [?|[?|[?|[? ?]]]]; done.
  - intros filters items total. rewrite list_tasks_eq. intros [= <- _] Hin.
    apply page_of_subseteq in Hin. apply list_elem_of_filter in Hin as [[Hs _] _].
    simpl in Hs. destruct Hs as [?|Hs]; [done|].
    unfold in_scope, team_visible in Hs. rewrite Hteam, Hts, Ht, Hrow, Hu in Hs.
    destruct Hs as [?|[?|[?|[? ?]]]]; done.
Qed.

Lemma remove_member_revokes_access_witness :
  let w' := (remove_member demo_py 10%N 2%N alice demo_world).2 in
  ∃ n, notifications (db w') = notifications demo_db ++ [n]
       ∧ notice n = (2%N, TeamRemoved, Some 10%N).
Proof.
  intros w'.
  destruct (remove_member_revokes_access demo_py 10%N 2%N alice demo_world w')
    as [Hn _]; [by vm_compute|].
  exact Hn.
Defined.

(** X26: removing a member twice: the second call finds no membership and
    answers "TeamMember not found", changing nothing, unless the caller
    managed the team only through the very row they removed, in which case
    they are refused as no longer a manager. *)
Theorem remove_member_twice py team_id user_id current_user w w' :
  remove_member py team_id user_id current_user w = (Ok tt, w') →
  ∃ team,
    teams (db w') !! team_id = Some team
    ∧ team_members (db w') !! (team_id, user_id) = None
    ∧ remove_member py team_id user_id current_user w'
      = (Raise (if decide (can_manage (db w') team_id team current_user)
                then not_found "TeamMember" None else managers_only), w')
    ∧ (u_id current_user ≠ user_id → can_manage (db w') team_id team current_user).
Proof.
  intros H.
  apply remove_member_Ok in H
    as (team & role & Ht & Hno & Hc & _ & _ & Hts & Hms & _).
  exists team. split; [by rewrite Hts|]. split; [by rewrite Hms, lookup_delete_eq|].
  split.
  - unfold remove_member, bind, crud_team_get, query. rewrite Hts, Ht.
    rewrite decide_False by done. rewrite _assert_manager_or_admin_eq.
    destruct (decide (can_manage (db w') team_id team current_user)); [|done].
    unfold crud_remove_member, bind, get_member, query.
    by rewrite Hms, lookup_delete_eq.
  - intros Hne. destruct Hc as [?|[?|Hrow]]; [by left|by right; left|right; right].
    rewrite Hms, lookup_delete_ne; [done|]. intros [= E]. congruence.
Qed.

Lemma remove_member_twice_witness :
  let w' := (remove_member demo_py 10%N 2%N alice demo_world).2 in
  remove_member demo_py 10%N 2%N alice w' = (Raise (not_found "TeamMember" None), w').
Proof.
  intros w'.
  destruct (remove_member_twice demo_py 10%N 2%N alice demo_world w')
    as (team & Ht & _ & H & Hc); [by vm_compute|].
  rewrite H. rewrite decide_True; [done|]. by apply Hc.
Defined.

(** X27: what [update_task] can change. The activity log stores the dump
    of the update as JSON, and a dump that holds a team id, an assignee id or
    a due date cannot be stored: an update that sets one of the three never
    returns (it may clear them). In particular [update_task] cannot move a
    task to a team, whoever asks: when the update is permitted and valid and
    the row is written, the log raises the database error. *)
Theorem update_task_unstorable_dump py task_id task_in user w :
  (meta_serializable (Some (model_dump task_in)) = true
   ↔ attr (upd_due_date task_in) = None
     ∧ attr (upd_assigned_to_id task_in) = None
     ∧ attr (upd_team_id task_in) = None)
  ∧ (∀ updated w',
       update_task py task_id task_in user w = (Ok updated, w') →
       attr (upd_due_date task_in) = None
       ∧ attr (upd_assigned_to_id task_in) = None
       ∧ attr (upd_team_id task_in) = None)
  ∧ (∀ team_id,
       upd_team_id task_in = Some (Some team_id) →
       (∀ updated w', update_task py task_id task_in user w ≠ (Ok updated, w'))
       ∧ (∀ task updated,
            flush_ok w = true →
            tasks (db w) !! task_id = Some task →
            can_modify (db w) task user →
            apply_task_update task_in task = Some updated →
            references_exist (db w) task updated →
            ∃ w',
              update_task py task_id task_in user w = (Raise SQLAlchemyError, w')
              ∧ tasks (db w') = <[task_id := updated]> (tasks (db w))
              ∧ notifications (db w') = notifications (db w))).
Proof.
  split; [apply model_dump_serializable|]. split.
  - intros updated w' H. apply model_dump_serializable.
    by apply (update_task_Ok_serializable _ _ _ _ _ _ _ H).
  - intros team_id Hteam. pose proof (model_dump_team _ _ Hteam) as Hs. split.
    + intros updated w' H.
      apply update_task_Ok_serializable in H. by rewrite Hs in H.
    + intros task updated. by apply update_task_unstorable_raises.
Qed.

Lemma update_task_unstorable_dump_witness :
  ∃ w',
    update_task demo_py 100%N (move_to 10%N) alice demo_world
    = (Raise SQLAlchemyError, w')
    ∧ notifications (db w') = [].
Proof.
  destruct (update_task_unstorable_dump demo_py 100%N (move_to 10%N) alice demo_world)
    as (_ & _ & Hmove).
  destruct (Hmove 10%N eq_refl) as [_ Hraise].
  destruct (Hraise demo_task _ eq_refl eq_refl (or_intror (or_introl eq_refl)) eq_refl)
    as (w' & H & _ & Hn).
  { apply (bool_decide_unpack _). by vm_compute. }
  by exists w'.
Defined.

Lemma assign_task_Ok py task_id assignee_id user w updated w' :
  assign_task py task_id assignee_id user w = (Ok updated, w') →
  ∃ task ns,
    tasks (db w) !! task_id = Some task
    ∧ can_modify (db w) task user
    ∧ apply_task_update (assign_only assignee_id) task = Some updated
    ∧ tasks (db w') = <[task_id := updated]> (tasks (db w))
    ∧ notifications (db w') = notifications (db w) ++ ns
    ∧ notice <$> ns
      = if decide (assignee_id ≠ u_id user)
        then [(assignee_id, TaskAssigned, Some task_id)] else [].
Proof.
  intros H. unfold assign_task in H.
  inv_bind H t w1 H1. inv_query H1.
  destruct (tasks (db w) !! task_id) as [task|] eqn:Ht; [|done].
  inv_bind H x w1 H1. rewrite _assert_can_modify_eq in H1.
  destruct (decide (can_modify (db w) task user)) as [Hc|]; [|done].
  injection H1 as _ <-.
  inv_bind H upd w1 H1. apply crud_task_update_Ok in H1 as [Happ Hdb1].
  inv_bind H x1 w2 H2. destruct x1.
  inv_bind H entry w3 H3. apply log_Ok in H3 as [Hdb3 _].
  injection H as -> ->.
  assert (∃ ns,
            db w2 = {| users := users (db w1); teams := teams (db w1);
                       team_members := team_members (db w1); tasks := tasks (db w1);
                       notifications := notifications (db w1) ++ ns;
                       activity_logs := activity_logs (db w1); now := now (db w1) |}
            ∧ notice <$> ns
              = if decide (assignee_id ≠ u_id user)
                then [(assignee_id, TaskAssigned, Some task_id)] else [])
    as (ns & Hdb2 & Hns).
  { destruct (decide (assignee_id ≠ u_id user)).
    - apply (optional_notify_Ok py true) in H2. exact H2.
    - apply (optional_notify_Ok py false 0%N EmptyString TaskAssigned None) in H2.
      exact H2. }
  exists task, ns. rewrite Hdb3, Hdb2, Hdb1. simpl. done.
Qed.

(** X28: [assign_task] that returns has set the assignee and nothing else
    of the task, and has stored one [task_assigned] notification for the
    assignee unless the assignee is the caller: also when the task was
    assigned to that user already, and without a word to the task's owner. *)
Theorem assign_task_notifications py task_id assignee_id user w updated w' :
  assign_task py task_id assignee_id user w = (Ok updated, w') →
  ∃ task ns,
    tasks (db w) !! task_id = Some task
    ∧ can_modify (db w) task user
    ∧ assigned_to_id updated = Some assignee_id
    ∧ (title updated, description updated, status updated, priority updated,
       due_date updated, owner_id updated, task_team_id updated, tags updated,
       is_archived updated, created_at updated)
      = (title task, description task, status task, priority task,
         due_date task, owner_id task, task_team_id task, tags task,
         is_archived task, created_at task)
    ∧ tasks (db w') = <[task_id := updated]> (tasks (db w))
    ∧ notifications (db w') = notifications (db w) ++ ns
    ∧ notice <$> ns
      = if decide (assignee_id ≠ u_id user)
        then [(assignee_id, TaskAssigned, Some task_id)] else [].
Proof.
  intros H. apply assign_task_Ok in H as (task & ns & Ht & Hc & Happ & Htk & Hns & Hn).
  exists task, ns. injection Happ as <-. done.
Qed.

Lemma assign_task_notifications_witness :
  ∃ updated w',
    assign_task demo_py 100%N 2%N alice demo_world = (Ok updated, w')
    ∧ assigned_to_id demo_task = Some 2%N
    ∧ notice <$> notifications (db w') = [(2%N, TaskAssigned, Some 100%N)].
Proof.
  eexists _, _. split; [by vm_compute|]. split; [done|].
  destruct (assign_task_notifications demo_py 100%N 2%N alice demo_world _
              (assign_task demo_py 100%N 2%N alice demo_world).2 ltac:(by vm_compute))
    as (task & ns & _ & _ & _ & _ & _ & Hns & Hn).
  etransitivity; [|exact Hn]. f_equal. exact Hns.
Defined.

(* ===================================================================== *)
(** ** Registry: who is counted *)
(* ===================================================================== *)

(** X29: in the states the registry can reach, the number of connected
    users reported to the admin dashboard is the number of users for whom
    [is_connected] holds: every entry counted has a live handle list. *)
Theorem connected_user_count_counts_connected py w :
  reachable py w →
  connected_user_count w = (Ok (size (dom (connections w))), w)
  ∧ ∀ u, u ∈ dom (connections w) ↔ (is_connected u w).1 = Ok true.
Proof.
  intros Hr. pose proof (reachable_ok py w Hr) as Hok.
  unfold connected_user_count, is_connected. split.
  - by rewrite size_dom.
  - intros u. rewrite elem_of_dom. simpl. unfold is_connected_registry. split.
    + intros [l Hl]. rewrite Hl. destruct l; [by destruct (Hok _ _ Hl)|done].
    + destruct (connections w !! u); [eauto|done].
Qed.

Lemma connected_user_count_counts_connected_witness :
  connected_user_count (connect 7 "1" demo_world).2
  = (Ok 1%nat, (connect 7 "1" demo_world).2).
Proof.
  destruct (connected_user_count_counts_connected demo_py (connect 7 "1" demo_world).2)
    as [H _].
  - apply (reach_op demo_py demo_world (OpConnect 7 "1")). by apply reach_start.
  - rewrite H. by vm_compute.
Defined.
